(** * Petgas Portal: reward ledger, balance and submission handlers

    A shallow embedding of the event handlers of the Petgas Portal pages
    (Next.js pages calling Supabase) together with the part of the external
    world they talk to: the Postgres tables of the deployment schema, the
    [mitigation-images] storage bucket and the browser console.

    Conventions of the embedding:
    - every [await supabase...] call is a primitive of the [Async] monad; it
      is recorded in [calls] when it is issued, and the environment decides
      through a [fault] argument whether the request reaches the store;
    - the tables obey the constraints of the schema (primary keys, foreign
      keys with ON DELETE RESTRICT, NOT NULL, CHECK and UNIQUE);
    - React state of a page is a record; a handler maps the state it closes
      over and the world to the state after its last [set...] call;
    - a JavaScript string is represented by its UTF-8 encoding, one [ascii]
      per byte;
    - a Number is a binary64 value; [parseFloat] rounds the decimal it reads
      to the nearest one with the operations of [SpecFloat], and a NUMERIC
      amount column holds the Number the client sent;
    - point balances and point amounts are integers: the stores covered are
      those whose point values are whole numbers, on which the additions and
      subtractions of the handlers are exact;
    - UI-only flags ([loading], [formLoading], ...) are left out;
    - the table [petgas_consumption_entries] and the requests of the pages
      that need it are kept in [Site], the world extended by them. *)

From stdpp Require Import gmap strings list fin_maps pretty.
From Stdlib Require Import ZArith Ascii.
From Stdlib Require SpecFloat.

Local Open Scope string_scope.

(** ** JavaScript values used by the handlers *)

Module Js.

(** A Number: NaN, an infinity, a zero, or the binary64 value
    [(-1)^neg * mant * 2^exp]. *)
Inductive number :=
| NaN
| Infinity (neg : bool)
| Zero (neg : bool)
| Finite (neg : bool) (mant : positive) (exp : Z).

#[global] Instance number_eq_dec : EqDecision number.
Proof. solve_decision. Defined.

Definition of_spec_float (x : SpecFloat.spec_float) : number :=
  match x with
  | SpecFloat.S754_nan => NaN
  | SpecFloat.S754_infinity s => Infinity s
  | SpecFloat.S754_zero s => Zero s
  | SpecFloat.S754_finite s m e => Finite s m e
  end.

(** The Number value of the decimal [(-1)^neg * mant * 10^exp]: the
    binary64 value nearest to it, ties to even (53 bits of precision,
    exponents below 1024); a zero when the decimal is too small, an infinity
    when it is too large. *)
Definition of_decimal (neg : bool) (mant : N) (exp : Z) : number :=
  match mant with
  | N0 => Zero neg
  | Npos m =>
      of_spec_float
        match exp with
        | Zneg k =>
            SpecFloat.SFdiv 53 1024 (SpecFloat.S754_finite neg m 0)
              (SpecFloat.S754_finite false (10 ^ k) 0)
        | _ => SpecFloat.binary_round 53 1024 neg (m * Z.to_pos (10 ^ exp)) 0
        end
  end.

(** [x <= 0]: false on NaN, true on zero of either sign. *)
Definition le_zero (x : number) : bool :=
  match x with
  | NaN => false
  | Infinity neg => neg
  | Zero _ => true
  | Finite neg _ _ => neg
  end.

(** [x > 0], the CHECK of the NUMERIC amount columns. *)
Definition gt_zero (x : number) : bool :=
  match x with
  | NaN => false
  | Infinity neg => negb neg
  | Zero _ => false
  | Finite neg _ _ => negb neg
  end.

(** The white space and line terminators of one byte: U+0009 to U+000D and
    U+0020. *)
Definition is_ws (c : ascii) : bool :=
  let n := N_of_ascii c in
  ((9 <=? n) && (n <=? 13) || (n =? 32))%N.

(** U+00A0. *)
Definition is_ws2 (a b : ascii) : bool :=
  ((N_of_ascii a =? 194) && (N_of_ascii b =? 160))%N.

(** U+1680, U+2000 to U+200A, U+2028, U+2029, U+202F, U+205F, U+3000 and
    U+FEFF. *)
Definition is_ws3 (a b c : ascii) : bool :=
  let '(x, y, z) := (N_of_ascii a, N_of_ascii b, N_of_ascii c) in
  ((x =? 225) && (y =? 154) && (z =? 128)
   || (x =? 226) && (y =? 128)
      && ((128 <=? z) && (z <=? 138) || (z =? 168) || (z =? 169) || (z =? 175))
   || (x =? 226) && (y =? 129) && (z =? 159)
   || (x =? 227) && (y =? 128) && (z =? 128)
   || (x =? 239) && (y =? 187) && (z =? 191))%N.

(** The leading white space and line terminators are dropped. *)
Fixpoint skip_ws (s : string) : string :=
  match s with
  | String a r1 =>
      if is_ws a then skip_ws r1
      else
        match r1 with
        | String b r2 =>
            if is_ws2 a b then skip_ws r2
            else
              match r2 with
              | String c r3 => if is_ws3 a b c then skip_ws r3 else s
              | EmptyString => s
              end
        | EmptyString => s
        end
  | EmptyString => EmptyString
  end.

Definition digit_of (c : ascii) : option N :=
  let n := N_of_ascii c in
  if ((48 <=? n) && (n <=? 57))%N then Some (n - 48)%N else None.

(** The longest run of decimal digits at the head of [s]: the number read
    (continuing [acc]), how many digits were read, and the rest. *)
Fixpoint digits (s : string) (acc : N) (cnt : nat) : N * nat * string :=
  match s with
  | String c r =>
      match digit_of c with
      | Some d => digits r (acc * 10 + d)%N (S cnt)
      | None => (acc, cnt, s)
      end
  | EmptyString => (acc, cnt, s)
  end.

Definition sign (s : string) : bool * string :=
  match s with
  | String "-" r => (true, r)
  | String "+" r => (false, r)
  | _ => (false, s)
  end.

(** ExponentPart; [0] when there is none or it has no digit. *)
Definition exponent (s : string) : Z :=
  match s with
  | String c r =>
      if bool_decide (c = "e"%char \/ c = "E"%char) then
        let '(neg, r') := sign r in
        let '(v, n, _) := digits r' 0%N 0%nat in
        match n with
        | O => 0%Z
        | S _ => if neg then (- Z.of_N v)%Z else Z.of_N v
        end
      else 0%Z
  | EmptyString => 0%Z
  end.

(** [parseFloat]: leading white space is skipped, the longest prefix that
    is a StrDecimalLiteral is read, anything after it is ignored; NaN when
    there is no such prefix, the Number value of the decimal otherwise. *)
Definition parseFloat (input : string) : number :=
  let '(neg, s) := sign (skip_ws input) in
  if String.prefix "Infinity" s then Infinity neg
  else
    let '(ip, n1, s1) := digits s 0%N 0%nat in
    let '(m, n2, s2) :=
      match s1 with
      | String "." r => digits r ip 0%nat
      | _ => (ip, 0%nat, s1)
      end in
    match (n1 + n2)%nat with
    | O => NaN
    | S _ => of_decimal neg m (exponent s2 - Z.of_nat n2)
    end.

(** [!s] on a string. *)
Definition not_str (s : string) : bool := bool_decide (s = "").

(** [s || d] on a string. *)
Definition or_str (s d : string) : string := if not_str s then d else s.

(** [s || null] on a string. *)
Definition or_null (s : string) : option string :=
  if not_str s then None else Some s.

(** [x || 0] on a number that may be [null]. *)
Definition or_zero (x : option Z) : Z := default 0%Z x.

(** [url.split('/')]; [cur] holds the current part, last character first. *)
Fixpoint split_go (s : string) (cur : string) : list string :=
  match s with
  | EmptyString => [String.rev cur]
  | String c r =>
      if bool_decide (c = "/"%char) then String.rev cur :: split_go r ""
      else split_go r (String c cur)
  end.

Definition split_slash (s : string) : list string := split_go s "".

(** [parts.indexOf(x)], [-1] when absent. *)
Fixpoint indexOf (x : string) (parts : list string) : Z :=
  match parts with
  | [] => (-1)%Z
  | p :: ps =>
      if bool_decide (p = x) then 0%Z
      else match indexOf x ps with
           | Zneg _ => (-1)%Z
           | i => (i + 1)%Z
           end
  end.

(** [parts.slice(start)] for [start >= 0]. *)
Definition slice_from (start : Z) (parts : list string) : list string :=
  drop (Z.to_nat start) parts.

(** [parts.join('/')]. *)
Fixpoint join_slash (parts : list string) : string :=
  match parts with
  | [] => ""
  | [p] => p
  | p :: ps => p +:+ "/" +:+ join_slash ps
  end.

(** uriUnescaped: letters, digits and the marks [- _ . ! ~ * ' ( )]. *)
Definition uri_unescaped (c : ascii) : bool :=
  let n := N_of_ascii c in
  ((48 <=? n) && (n <=? 57) || (65 <=? n) && (n <=? 90) || (97 <=? n) && (n <=? 122))%N
  || bool_decide (c ∈ String.list_ascii_of_string "-_.!~*'()").

(** uriReserved, and the number sign. *)
Definition uri_reserved (c : ascii) : bool :=
  bool_decide (c ∈ String.list_ascii_of_string ";/?:@&=+$,#").

(** The characters [encodeURI] leaves as they are. *)
Definition uri_kept (c : ascii) : bool := uri_reserved c || uri_unescaped c.

Definition hex_digit (n : N) : ascii :=
  ascii_of_N (if (n <? 10)%N then 48 + n else 55 + n).

(** [encodeURI(s)]: every other byte of the UTF-8 encoding becomes [%XX]. *)
Fixpoint encodeURI (s : string) : string :=
  match s with
  | EmptyString => EmptyString
  | String c r =>
      if uri_kept c then String c (encodeURI r)
      else
        let n := N_of_ascii c in
        String "%" (String (hex_digit (n / 16)) (String (hex_digit (n mod 16)) (encodeURI r)))
  end.

(** [l.filter((_, i) => keep(i))]; [i] is the index of the head of [l]. *)
Fixpoint filter_index {A} (keep : nat -> bool) (i : nat) (l : list A) : list A :=
  match l with
  | [] => []
  | x :: rest =>
      if keep i then x :: filter_index keep (S i) rest else filter_index keep (S i) rest
  end.

(** What a [catch] clause can receive. *)
Record PostgrestError := { code : string; pg_message : string }.

Inductive error :=
| Thrown (e : PostgrestError)   (* [throw entryError]: the client's error object *)
| Error (msg : string)          (* [throw new Error(msg)] *)
| TypeError (msg : string).     (* property read on [null] *)

Definition message (e : error) : string :=
  match e with
  | Thrown e => pg_message e
  | Error m => m
  | TypeError m => m
  end.

End Js.

(** ** The relational store

    Tables, columns and constraints are those of the SQL schema shipped with
    the deployment guide.  A table is a finite map from the primary key [id]
    to the remaining columns. *)

Module Pg.

Module Client.
Record row := {
  email : string;                 (* TEXT UNIQUE NOT NULL *)
  full_name : option string;
  solana_wallet : option string;
  bnb_wallet : option string;
  pgc_balance : option Z;         (* NUMERIC DEFAULT 0 *)
  created_at : string;
  updated_at : string
}.
End Client.

Module MitigationEntry.
Record row := {
  client_id : string;             (* REFERENCES clients(id) ON DELETE CASCADE *)
  mitigated_plastic_kg : Js.number; (* NUMERIC NOT NULL CHECK (> 0) *)
  created_at : string
}.
End MitigationEntry.

Module MitigationImage.
Record row := {
  entry_id : string;              (* REFERENCES plastic_mitigation_entries(id) *)
  image_url : string;
  uploaded_at : string
}.
End MitigationImage.

Module Reward.
Record row := {
  name : string;
  description : option string;
  pgc_amount : Z;                 (* NUMERIC NOT NULL CHECK (> 0) *)
  criteria_plastic_kg : option Z;
  criteria_petgas_liters : option Z;
  created_at : string
}.
End Reward.

Module ClientReward.
Record row := {
  client_id : string;             (* REFERENCES clients(id) ON DELETE CASCADE *)
  reward_id : string;             (* REFERENCES rewards(id) ON DELETE RESTRICT *)
  awarded_at : string;
  notes : option string
}.
End ClientReward.

Record Db := {
  clients : gmap string Client.row;
  plastic_mitigation_entries : gmap string MitigationEntry.row;
  mitigation_activity_images : gmap string MitigationImage.row;
  rewards : gmap string Reward.row;
  client_rewards : gmap string ClientReward.row
}.

Definition with_clients (t : gmap string Client.row) (d : Db) : Db :=
  {| clients := t;
     plastic_mitigation_entries := plastic_mitigation_entries d;
     mitigation_activity_images := mitigation_activity_images d;
     rewards := rewards d;
     client_rewards := client_rewards d |}.

Definition with_entries (t : gmap string MitigationEntry.row) (d : Db) : Db :=
  {| clients := clients d;
     plastic_mitigation_entries := t;
     mitigation_activity_images := mitigation_activity_images d;
     rewards := rewards d;
     client_rewards := client_rewards d |}.

Definition with_images (t : gmap string MitigationImage.row) (d : Db) : Db :=
  {| clients := clients d;
     plastic_mitigation_entries := plastic_mitigation_entries d;
     mitigation_activity_images := t;
     rewards := rewards d;
     client_rewards := client_rewards d |}.

Definition with_rewards (t : gmap string Reward.row) (d : Db) : Db :=
  {| clients := clients d;
     plastic_mitigation_entries := plastic_mitigation_entries d;
     mitigation_activity_images := mitigation_activity_images d;
     rewards := t;
     client_rewards := client_rewards d |}.

Definition with_client_rewards (t : gmap string ClientReward.row) (d : Db) : Db :=
  {| clients := clients d;
     plastic_mitigation_entries := plastic_mitigation_entries d;
     mitigation_activity_images := mitigation_activity_images d;
     rewards := rewards d;
     client_rewards := t |}.

(** *** Errors of the store, by SQLSTATE *)

Definition foreign_key_violation (table : string) : Js.PostgrestError :=
  {| Js.code := "23503";
     Js.pg_message := "violates foreign key constraint on table " +:+ table |}.

Definition unique_violation (constraint : string) : Js.PostgrestError :=
  {| Js.code := "23505";
     Js.pg_message := "duplicate key value violates unique constraint " +:+ constraint |}.

Definition not_null_violation (column : string) : Js.PostgrestError :=
  {| Js.code := "23502";
     Js.pg_message := "null value violates not-null constraint in column " +:+ column |}.

Definition check_violation (constraint : string) : Js.PostgrestError :=
  {| Js.code := "23514";
     Js.pg_message := "new row violates check constraint " +:+ constraint |}.

(** [.single()] on a result that is not exactly one row. *)
Definition no_rows : Js.PostgrestError :=
  {| Js.code := "PGRST116";
     Js.pg_message := "JSON object requested, multiple (or no) rows returned" |}.

(** A request that did not reach the store; the environment gives the text. *)
Definition unreachable (msg : string) : Js.PostgrestError :=
  {| Js.code := ""; Js.pg_message := msg |}.

Definition result (A : Type) : Type := Js.PostgrestError + (A * Db).

(** What a request answers: the environment's [fault] when it does not
    reach the store, what the store does otherwise. *)
Definition outcome {A} (fault : option string) (op : Db -> result A) (d : Db)
    : result A :=
  match fault with
  | Some msg => inl (unreachable msg)
  | None => op d
  end.

(** *** clients *)

Definition email_taken (e : string) (except : string) (d : Db) : bool :=
  bool_decide (map_Exists (fun k r => k <> except /\ Client.email r = e) (clients d)).

(** [insert({id, email, full_name})]: the other columns take their defaults. *)
Definition insert_client (id e : string) (fn : option string) (db_now : string)
    (d : Db) : result Client.row :=
  if bool_decide (is_Some (clients d !! id)) then inl (unique_violation "clients_pkey")
  else if email_taken e id d then inl (unique_violation "clients_email_key")
  else
    let r := {| Client.email := e; Client.full_name := fn;
                Client.solana_wallet := None; Client.bnb_wallet := None;
                Client.pgc_balance := Some 0%Z;
                Client.created_at := db_now; Client.updated_at := db_now |} in
    inr (r, with_clients (<[id := r]> (clients d)) d).

(** [upsert({id, full_name, solana_wallet, bnb_wallet, updated_at, email},
    {onConflict: 'id'}).select().single()]: INSERT ... ON CONFLICT (id) DO
    UPDATE SET the columns of the payload.  The BEFORE UPDATE trigger
    overwrites [updated_at] with the time of the store. *)
Definition upsert_client (id e fn sol bnb updated : string) (db_now : string)
    (d : Db) : result Client.row :=
  if email_taken e id d then inl (unique_violation "clients_email_key")
  else
    let r :=
      match clients d !! id with
      | Some old =>
          {| Client.email := e; Client.full_name := Some fn;
             Client.solana_wallet := Some sol; Client.bnb_wallet := Some bnb;
             Client.pgc_balance := Client.pgc_balance old;
             Client.created_at := Client.created_at old;
             Client.updated_at := db_now |}
      | None =>
          {| Client.email := e; Client.full_name := Some fn;
             Client.solana_wallet := Some sol; Client.bnb_wallet := Some bnb;
             Client.pgc_balance := Some 0%Z;
             Client.created_at := db_now;
             Client.updated_at := updated |}
      end in
    inr (r, with_clients (<[id := r]> (clients d)) d).

Definition set_balance (b : Z) (db_now : string) (r : Client.row) : Client.row :=
  {| Client.email := Client.email r; Client.full_name := Client.full_name r;
     Client.solana_wallet := Client.solana_wallet r;
     Client.bnb_wallet := Client.bnb_wallet r;
     Client.pgc_balance := Some b;
     Client.created_at := Client.created_at r;
     Client.updated_at := db_now |}.

(** [update({pgc_balance, updated_at}).eq('id', id)]: no row matched is not
    an error. *)
Definition update_balance (id : string) (b : Z) (db_now : string) (d : Db)
    : result unit :=
  inr (tt, with_clients (alter (set_balance b db_now) id (clients d)) d).

(** The same update followed by [.select().single()]: the updated row, or
    [no_rows] when no row has this id. *)
Definition update_balance_single (id : string) (b : Z) (db_now : string) (d : Db)
    : result Client.row :=
  match clients d !! id with
  | Some r =>
      let r' := set_balance b db_now r in
      inr (r', with_clients (<[id := r']> (clients d)) d)
  | None => inl no_rows
  end.

(** [select('*').eq('id', id).single()]. *)
Definition select_client (id : string) (d : Db) : result Client.row :=
  match clients d !! id with
  | Some r => inr (r, d)
  | None => inl no_rows
  end.

Definition select_clients (d : Db) : result (list (string * Client.row)) :=
  inr (map_to_list (clients d), d).

(** *** rewards and client_rewards *)

Definition select_rewards (d : Db) : result (list (string * Reward.row)) :=
  inr (map_to_list (rewards d), d).

Definition referenced (reward : string) (d : Db) : bool :=
  bool_decide (map_Exists (fun _ r => ClientReward.reward_id r = reward) (client_rewards d)).

(** [delete().eq('id', id)] on rewards: refused while a client_rewards row
    references the reward (ON DELETE RESTRICT); deleting no row is not an
    error. *)
Definition delete_reward (id : string) (d : Db) : result unit :=
  if referenced id d then inl (foreign_key_violation "client_rewards")
  else inr (tt, with_rewards (delete id (rewards d)) d).

(** [insert({client_id, reward_id, notes, awarded_at})]; [id] is the value
    [uuid_generate_v4()] returns for the new row. *)
Definition insert_client_reward (id : string) (r : ClientReward.row) (d : Db)
    : result unit :=
  if bool_decide (clients d !! ClientReward.client_id r = None)
  then inl (foreign_key_violation "clients")
  else if bool_decide (rewards d !! ClientReward.reward_id r = None)
  then inl (foreign_key_violation "rewards")
  else if bool_decide (is_Some (client_rewards d !! id))
  then inl (unique_violation "client_rewards_pkey")
  else inr (tt, with_client_rewards (<[id := r]> (client_rewards d)) d).

(** [delete().eq('id', id)] on client_rewards: deleting no row is not an
    error. *)
Definition delete_client_reward (id : string) (d : Db) : result unit :=
  inr (tt, with_client_rewards (delete id (client_rewards d)) d).

(** [select('id, awarded_at, notes, rewards(...)').eq('client_id', c)]: the
    rows of the client, each with the reward it references ([None] when the
    reference dangles). *)
Definition select_client_rewards (c : string) (d : Db)
    : result (list (string * ClientReward.row * option Reward.row)) :=
  inr ((fun kr => (kr, rewards d !! ClientReward.reward_id (snd kr)))
         <$> filter (fun kr => ClientReward.client_id (snd kr) = c)
               (map_to_list (client_rewards d)), d).

(** *** plastic_mitigation_entries and mitigation_activity_images *)

(** [insert({client_id, mitigated_plastic_kg}).select().single()].  NaN and
    the infinities are serialised as [null]. *)
Definition insert_entry (id c : string) (kg : Js.number) (db_now : string)
    (d : Db) : result (string * MitigationEntry.row) :=
  match kg with
  | Js.Zero _ | Js.Finite _ _ _ =>
      if bool_decide (clients d !! c = None) then inl (foreign_key_violation "clients")
      else if negb (Js.gt_zero kg)
      then inl (check_violation "plastic_mitigation_entries_mitigated_plastic_kg_check")
      else if bool_decide (is_Some (plastic_mitigation_entries d !! id))
      then inl (unique_violation "plastic_mitigation_entries_pkey")
      else
        let r := {| MitigationEntry.client_id := c;
                    MitigationEntry.mitigated_plastic_kg := kg;
                    MitigationEntry.created_at := db_now |} in
        inr ((id, r), with_entries (<[id := r]> (plastic_mitigation_entries d)) d)
  | _ => inl (not_null_violation "mitigated_plastic_kg")
  end.

(** [insert(imageRecords)]: all rows or none; [ids i] is the key generated
    for the [i]-th record. *)
Fixpoint insert_images_from (i : nat) (ids : nat -> string)
    (records : list (string * string)) (db_now : string)
    (entries : gmap string MitigationEntry.row)
    (t : gmap string MitigationImage.row)
    : Js.PostgrestError + gmap string MitigationImage.row :=
  match records with
  | [] => inr t
  | (entry, url) :: rest =>
      if bool_decide (entries !! entry = None)
      then inl (foreign_key_violation "plastic_mitigation_entries")
      else if bool_decide (is_Some (t !! ids i))
      then inl (unique_violation "mitigation_activity_images_pkey")
      else
        insert_images_from (S i) ids rest db_now entries
          (<[ids i := {| MitigationImage.entry_id := entry;
                         MitigationImage.image_url := url;
                         MitigationImage.uploaded_at := db_now |}]> t)
  end.

Definition insert_images (ids : nat -> string) (records : list (string * string))
    (db_now : string) (d : Db) : result unit :=
  match insert_images_from 0 ids records db_now (plastic_mitigation_entries d)
          (mitigation_activity_images d) with
  | inl e => inl e
  | inr t => inr (tt, with_images t d)
  end.

End Pg.

(** ** The world outside a page and the [Async] monad *)

(** A [File] picked in the form. *)
Record File := { file_name : string; file_bytes : string }.

(** The requests a page issues, in the order it issues them. *)
Inductive Call :=
| Select (table : string) (eq : option string)
| InsertClient (id email : string)
| UpsertClient (id email full_name solana_wallet bnb_wallet : string)
| UpdateBalance (client : string) (pgc_balance : Z)
| InsertClientReward (client_id reward_id : string) (notes : option string)
| DeleteClientReward (id : string)
| DeleteReward (id : string)
| InsertEntry (client_id : string) (mitigated_plastic_kg : Js.number)
| InsertImages (records : list (string * string))
| StorageUpload (path : string)
| StorageRemove (paths : list string).

Inductive LogEntry :=
| console_error (text : string) (err : option Js.error)
| console_log (text : string) (data : list string).

Record World := {
  db : Pg.Db;
  bucket : gmap string File;       (* storage bucket 'mitigation-images' *)
  console : list LogEntry;
  calls : list Call
}.

Definition with_db (d : Pg.Db) (w : World) : World :=
  {| db := d; bucket := bucket w; console := console w; calls := calls w |}.

Definition with_bucket (b : gmap string File) (w : World) : World :=
  {| db := db w; bucket := b; console := console w; calls := calls w |}.

Definition logged (e : LogEntry) (w : World) : World :=
  {| db := db w; bucket := bucket w; console := console w ++ [e]; calls := calls w |}.

Definition issued (c : Call) (w : World) : World :=
  {| db := db w; bucket := bucket w; console := console w; calls := calls w ++ [c] |}.

(** An asynchronous computation of a page with React state [S]: it either
    throws or returns, and leaves a page state and a world. *)
Definition Async (S A : Type) : Type := S * World -> (Js.error + A) * (S * World).

#[global] Instance Async_ret {S} : MRet (Async S) :=
  fun A (x : A) sw => (inr x, sw).

#[global] Instance Async_bind {S} : MBind (Async S) :=
  fun A B (k : A -> Async S B) (m : Async S A) sw =>
    match m sw with
    | (inl e, sw') => (inl e, sw')
    | (inr x, sw') => k x sw'
    end.

Section Async.
Context {S : Type}.

Definition throw {A} (e : Js.error) : Async S A := fun sw => (inl e, sw).

(** [try { body } catch (err) { handler err }]. *)
Definition try_catch {A} (body : Async S A) (handler : Js.error -> Async S A)
    : Async S A :=
  fun sw =>
    match body sw with
    | (inl e, sw') => handler e sw'
    | r => r
    end.

(** A [set...] call of React state. *)
Definition set_state (f : S -> S) : Async S unit :=
  fun sw => (inr tt, (f (fst sw), snd sw)).

Definition log (e : LogEntry) : Async S unit :=
  fun sw => (inr tt, (fst sw, logged e (snd sw))).

(** [await supabase.from(...)...]: the call is issued; with a [fault] it
    does not reach the store, otherwise the store runs [op].  The result
    is the [{ data, error }] pair of the client. *)
Definition request {A} (c : Call) (fault : option string)
    (op : Pg.Db -> Pg.result A) : Async S (Js.PostgrestError + A) :=
  fun sw =>
    let w := issued c (snd sw) in
    match Pg.outcome fault op (db w) with
    | inl e => (inr (inl e), (fst sw, w))
    | inr (x, d) => (inr (inr x), (fst sw, with_db d w))
    end.

(** [storage.from('mitigation-images').upload(path, file, {upsert: false})]. *)
Definition storage_upload (path : string) (f : File) (fault : option string)
    : Async S (string + string) :=
  fun sw =>
    let w := issued (StorageUpload path) (snd sw) in
    match fault with
    | Some msg => (inr (inl msg), (fst sw, w))
    | None =>
        match bucket w !! path with
        | Some _ => (inr (inl "The resource already exists"), (fst sw, w))
        | None => (inr (inr path), (fst sw, with_bucket (<[path := f]> (bucket w)) w))
        end
    end.

(** [storage.from('mitigation-images').remove(paths)]; callers do not read
    its result. *)
Definition storage_remove (paths : list string) (fault : option string)
    : Async S unit :=
  fun sw =>
    let w := issued (StorageRemove paths) (snd sw) in
    match fault with
    | Some _ => (inr tt, (fst sw, w))
    | None =>
        (inr tt, (fst sw, with_bucket (foldr delete (bucket w) paths) w))
    end.

(** Running a handler: the page state and the world it leaves.  Handlers
    catch what they throw. *)
Definition run {A} (m : Async S A) (s : S) (w : World) : S * World :=
  snd (m (s, w)).

End Async.

(** [storage.getPublicUrl(path)] against the project at [base], its URL
    without a slash at the end: the client returns the address passed
    through [encodeURI]. *)
Definition getPublicUrl (base path : string) : string :=
  Js.encodeURI (base +:+ "/storage/v1/object/public/mitigation-images/" +:+ path).

(** The profile type shared by the pages ([ClientProfile] of AuthContext). *)
Module ClientProfile.
Record t := {
  id : string;
  email : string;
  full_name : option string;
  solana_wallet : option string;
  bnb_wallet : option string;
  pgc_balance : option Z;
  created_at : string;
  updated_at : string
}.

Definition of_row (k : string) (r : Pg.Client.row) : t :=
  {| id := k; email := Pg.Client.email r; full_name := Pg.Client.full_name r;
     solana_wallet := Pg.Client.solana_wallet r;
     bnb_wallet := Pg.Client.bnb_wallet r;
     pgc_balance := Pg.Client.pgc_balance r;
     created_at := Pg.Client.created_at r;
     updated_at := Pg.Client.updated_at r |}.
End ClientProfile.

(** The signed-in user of Supabase Auth. *)
Record User := { user_id : string; user_email : string }.

(** [x || d] on a string that may be [null]. *)
Definition or_default (x : option string) (d : string) : string :=
  match x with
  | Some s => Js.or_str s d
  | None => d
  end.

Definition dquote : string := String "034"%char "".

(** ** Admin: assign a reward (AssignRewardPage) *)

Module AssignRewardPage.

Module ClientOption.
Record t := { value : string; label : string; current_pgc_balance : Z }.
End ClientOption.

Module RewardOption.
Record t := { value : string; label : string; pgc_amount : Z }.
End RewardOption.

Record state := {
  clients : list ClientOption.t;
  rewards : list RewardOption.t;
  selectedClient : option ClientOption.t;
  selectedReward : option RewardOption.t;
  notes : string;
  error : option string;
  successMessage : option string
}.

Definition initial : state :=
  {| clients := []; rewards := []; selectedClient := None;
     selectedReward := None; notes := ""; error := None;
     successMessage := None |}.

Definition setClients (l : list ClientOption.t) (p : state) : state :=
  {| clients := l; rewards := rewards p; selectedClient := selectedClient p;
     selectedReward := selectedReward p; notes := notes p; error := error p;
     successMessage := successMessage p |}.

Definition setRewards (l : list RewardOption.t) (p : state) : state :=
  {| clients := clients p; rewards := l; selectedClient := selectedClient p;
     selectedReward := selectedReward p; notes := notes p; error := error p;
     successMessage := successMessage p |}.

Definition setSelectedClient (c : option ClientOption.t) (p : state) : state :=
  {| clients := clients p; rewards := rewards p; selectedClient := c;
     selectedReward := selectedReward p; notes := notes p; error := error p;
     successMessage := successMessage p |}.

Definition setSelectedReward (r : option RewardOption.t) (p : state) : state :=
  {| clients := clients p; rewards := rewards p; selectedClient := selectedClient p;
     selectedReward := r; notes := notes p; error := error p;
     successMessage := successMessage p |}.

Definition setNotes (n : string) (p : state) : state :=
  {| clients := clients p; rewards := rewards p; selectedClient := selectedClient p;
     selectedReward := selectedReward p; notes := n; error := error p;
     successMessage := successMessage p |}.

Definition setError (e : option string) (p : state) : state :=
  {| clients := clients p; rewards := rewards p; selectedClient := selectedClient p;
     selectedReward := selectedReward p; notes := notes p; error := e;
     successMessage := successMessage p |}.

Definition setSuccessMessage (m : option string) (p : state) : state :=
  {| clients := clients p; rewards := rewards p; selectedClient := selectedClient p;
     selectedReward := selectedReward p; notes := notes p; error := error p;
     successMessage := m |}.

Definition client_option (kr : string * Pg.Client.row) : ClientOption.t :=
  {| ClientOption.value := fst kr;
     ClientOption.label :=
       or_default (Pg.Client.full_name (snd kr)) "N/A"
         +:+ " (" +:+ Pg.Client.email (snd kr) +:+ ")";
     ClientOption.current_pgc_balance := Js.or_zero (Pg.Client.pgc_balance (snd kr)) |}.

Definition reward_option (kr : string * Pg.Reward.row) : RewardOption.t :=
  {| RewardOption.value := fst kr;
     RewardOption.label :=
       Pg.Reward.name (snd kr) +:+ " (+" +:+ pretty (Pg.Reward.pgc_amount (snd kr))
         +:+ " PGC)";
     RewardOption.pgc_amount := Pg.Reward.pgc_amount (snd kr) |}.

Record fetch_env := {
  clients_fault : option string;
  rewards_fault : option string
}.

(** [fetchData] of the effect that runs when the page is shown: the only
    place where the page reads balances and point values. *)
Definition fetchData (e : fetch_env) : Async state unit :=
  set_state (setError None);;
  try_catch
    (clientData ← request (Select "clients" None) (clients_fault e) Pg.select_clients;
     match clientData with
     | inl clientError =>
         throw (Js.Error ("Fetching clients: " +:+ Js.pg_message clientError))
     | inr rows =>
         set_state (setClients (client_option <$> rows));;
         rewardData ← request (Select "rewards" None) (rewards_fault e) Pg.select_rewards;
         match rewardData with
         | inl rewardError =>
             throw (Js.Error ("Fetching rewards: " +:+ Js.pg_message rewardError))
         | inr rows => set_state (setRewards (reward_option <$> rows))
         end
     end)
    (fun err =>
       log (console_error "Error fetching data for assignment:" (Some err));;
       set_state (setError (Some (Js.or_str (Js.message err) "Failed to load data.")))).

(** The two [onChange] handlers of the dropdowns, whose options are the
    lists [clients] and [rewards] of the page: the admin picks the options
    with values [c] and [r]. *)
Definition choose (c r : string) (p : state) : state :=
  setSelectedReward
    (snd <$> list_find (fun o => RewardOption.value o = r) (rewards p))
    (setSelectedClient
       (snd <$> list_find (fun o => ClientOption.value o = c) (clients p)) p).

Record env := {
  now : string;                 (* new Date().toISOString() *)
  db_now : string;              (* now() of the store *)
  uuid : string;                (* uuid_generate_v4() for the new row *)
  insert_fault : option string;
  update_fault : option string
}.

Definition insert_error (m : string) : string := "Assigning reward: " +:+ m.

Definition balance_error (m : string) : string :=
  "Updating PGC balance: " +:+ m +:+ ". Please manually verify client balance.".

Definition partial_failure_log : string :=
  "Failed to update PGC balance. Client reward was logged, but balance not updated.".

Definition success_text (c : ClientOption.t) (r : RewardOption.t) : string :=
  "Successfully awarded " +:+ dquote +:+ RewardOption.label r +:+ dquote +:+ " to "
    +:+ ClientOption.label c +:+ ". Their PGC balance has been updated.".

(** The row [handleSubmit] inserts into client_rewards. *)
Definition ledger_row (p : state) (e : env) (c : ClientOption.t) (r : RewardOption.t)
    : Pg.ClientReward.row :=
  {| Pg.ClientReward.client_id := ClientOption.value c;
     Pg.ClientReward.reward_id := RewardOption.value r;
     Pg.ClientReward.notes := Js.or_null (notes p);
     Pg.ClientReward.awarded_at := now e |}.

(** [(selectedClient.current_pgc_balance || 0) + selectedReward.pgc_amount];
    [x || 0] is [x] on an integer, and on whole numbers the addition of
    Numbers is the addition of integers (up to 2^53). *)
Definition newPgcBalance (c : ClientOption.t) (r : RewardOption.t) : Z :=
  (ClientOption.current_pgc_balance c + RewardOption.pgc_amount r)%Z.

(** The two writes of an assignment, as the store runs them. *)
Definition ledger_write (p : state) (e : env) (c : ClientOption.t) (r : RewardOption.t)
    : Pg.Db -> Pg.result unit :=
  Pg.insert_client_reward (uuid e) (ledger_row p e c r).

Definition balance_write (e : env) (c : ClientOption.t) (r : RewardOption.t)
    : Pg.Db -> Pg.result unit :=
  Pg.update_balance (ClientOption.value c) (newPgcBalance c r) (db_now e).

(** [handleSubmit]: the form's submit handler.  [p] is the state the
    handler closes over. *)
Definition handleSubmit (p : state) (e : env) : Async state unit :=
  match selectedClient p, selectedReward p with
  | Some c, Some r =>
      set_state (setError None);;
      set_state (setSuccessMessage None);;
      try_catch
        ((* 1. Create client_rewards entry *)
         ins ← request
                 (InsertClientReward (ClientOption.value c) (RewardOption.value r)
                    (Js.or_null (notes p)))
                 (insert_fault e) (ledger_write p e c r);
         match ins with
         | inl clientRewardError =>
             throw (Js.Error (insert_error (Js.pg_message clientRewardError)))
         | inr _ =>
             (* 2. Update client's PGC balance *)
             upd ← request (UpdateBalance (ClientOption.value c) (newPgcBalance c r))
                     (update_fault e) (balance_write e c r);
             match upd with
             | inl updateBalanceError =>
                 log (console_error partial_failure_log
                        (Some (Js.Thrown updateBalanceError)));;
                 throw (Js.Error (balance_error (Js.pg_message updateBalanceError)))
             | inr _ =>
                 set_state (setSuccessMessage (Some (success_text c r)));;
                 set_state (setSelectedClient None);;
                 set_state (setSelectedReward None);;
                 set_state (setNotes "")
             end
         end)
        (fun err =>
           log (console_error "Error in reward assignment process:" (Some err));;
           set_state (setError
                        (Some (Js.or_str (Js.message err) "An unexpected error occurred."))))
  | _, _ => set_state (setError (Some "Please select a client and a reward."))
  end.

End AssignRewardPage.

(** ** Admin: client details and reward revocation (ViewClientDetailsPage) *)

Module ViewClientDetailsPage.

(** The [rewards(id, name, description, pgc_amount)] embedded in a row. *)
Module JoinedReward.
Record t := {
  id : string;
  name : string;
  description : option string;
  pgc_amount : Z
}.
End JoinedReward.

Module ObtainedReward.
Record t := {
  id : string;                       (* client_rewards.id *)
  awarded_at : string;
  notes : option string;
  rewards : option JoinedReward.t    (* [null] when the reference dangles *)
}.
End ObtainedReward.

Record state := {
  client : option ClientProfile.t;
  obtainedRewards : list ObtainedReward.t;
  error : option string;
  showRevokeModal : bool;
  clientRewardToRevoke : option ObtainedReward.t;
  revokeError : option string
}.

Definition initial : state :=
  {| client := None; obtainedRewards := []; error := None;
     showRevokeModal := false; clientRewardToRevoke := None;
     revokeError := None |}.

Definition setClient (c : option ClientProfile.t) (p : state) : state :=
  {| client := c; obtainedRewards := obtainedRewards p; error := error p;
     showRevokeModal := showRevokeModal p;
     clientRewardToRevoke := clientRewardToRevoke p; revokeError := revokeError p |}.

Definition setObtainedRewards (l : list ObtainedReward.t) (p : state) : state :=
  {| client := client p; obtainedRewards := l; error := error p;
     showRevokeModal := showRevokeModal p;
     clientRewardToRevoke := clientRewardToRevoke p; revokeError := revokeError p |}.

Definition setError (e : option string) (p : state) : state :=
  {| client := client p; obtainedRewards := obtainedRewards p; error := e;
     showRevokeModal := showRevokeModal p;
     clientRewardToRevoke := clientRewardToRevoke p; revokeError := revokeError p |}.

Definition setShowRevokeModal (b : bool) (p : state) : state :=
  {| client := client p; obtainedRewards := obtainedRewards p; error := error p;
     showRevokeModal := b;
     clientRewardToRevoke := clientRewardToRevoke p; revokeError := revokeError p |}.

Definition setClientRewardToRevoke (r : option ObtainedReward.t) (p : state) : state :=
  {| client := client p; obtainedRewards := obtainedRewards p; error := error p;
     showRevokeModal := showRevokeModal p;
     clientRewardToRevoke := r; revokeError := revokeError p |}.

Definition setRevokeError (e : option string) (p : state) : state :=
  {| client := client p; obtainedRewards := obtainedRewards p; error := error p;
     showRevokeModal := showRevokeModal p;
     clientRewardToRevoke := clientRewardToRevoke p; revokeError := e |}.

Definition joined (k : string) (r : Pg.Reward.row) : JoinedReward.t :=
  {| JoinedReward.id := k; JoinedReward.name := Pg.Reward.name r;
     JoinedReward.description := Pg.Reward.description r;
     JoinedReward.pgc_amount := Pg.Reward.pgc_amount r |}.

Definition obtained (x : string * Pg.ClientReward.row * option Pg.Reward.row)
    : ObtainedReward.t :=
  let '(k, row, rw) := x in
  {| ObtainedReward.id := k;
     ObtainedReward.awarded_at := Pg.ClientReward.awarded_at row;
     ObtainedReward.notes := Pg.ClientReward.notes row;
     ObtainedReward.rewards := joined (Pg.ClientReward.reward_id row) <$> rw |}.

Record fetch_env := {
  client_fault : option string;
  mitigation_fault : option string;
  consumption_fault : option string;
  rewards_fault : option string
}.

(** [fetchAllClientData] for the route parameter [clientId].  The two
    history lists are only displayed; their reads are issued and may fail,
    their data is not kept here.  [.single()] answers with a row or with an
    error, so the test [!clientData] after it never fires. *)
Definition fetchAllClientData (clientId : string) (e : fetch_env) : Async state unit :=
  if Js.not_str clientId then mret tt
  else
    set_state (setError None);;
    try_catch
      (clientData ← request (Select "clients" (Some clientId)) (client_fault e)
                      (Pg.select_client clientId);
       match clientData with
       | inl clientError =>
           throw (Js.Error ("Fetching client profile: " +:+ Js.pg_message clientError))
       | inr row =>
           set_state (setClient (Some (ClientProfile.of_row clientId row)));;
           mitigationData ← request (Select "plastic_mitigation_entries" (Some clientId))
                              (mitigation_fault e) (fun d => inr (tt, d));
           match mitigationData with
           | inl mitigationError =>
               throw (Js.Error ("Fetching mitigation data: "
                                  +:+ Js.pg_message mitigationError))
           | inr _ =>
               consumptionData ← request
                                   (Select "petgas_consumption_entries" (Some clientId))
                                   (consumption_fault e) (fun d => inr (tt, d));
               match consumptionData with
               | inl consumptionError =>
                   throw (Js.Error ("Fetching consumption data: "
                                      +:+ Js.pg_message consumptionError))
               | inr _ =>
                   clientRewardsData ← request (Select "client_rewards" (Some clientId))
                                         (rewards_fault e)
                                         (Pg.select_client_rewards clientId);
                   match clientRewardsData with
                   | inl clientRewardsError =>
                       throw (Js.Error ("Fetching obtained rewards: "
                                          +:+ Js.pg_message clientRewardsError))
                   | inr rows => set_state (setObtainedRewards (obtained <$> rows))
                   end
               end
           end
       end)
      (fun err =>
         log (console_error "Error fetching client details:" (Some err));;
         set_state (setError
                      (Some (Js.or_str (Js.message err) "Failed to load client details.")))).

(** [handleRevokeRequest]: the Revoke button of one listed reward. *)
Definition handleRevokeRequest (reward : ObtainedReward.t) (p : state) : state :=
  setShowRevokeModal true (setRevokeError None (setClientRewardToRevoke (Some reward) p)).

Record env := {
  db_now : string;
  delete_fault : option string;
  update_fault : option string
}.

Definition delete_error (m : string) : string := "Deleting client_reward entry: " +:+ m.

Definition balance_error (m email : string) : string :=
  "Updating PGC balance failed: " +:+ m +:+ ". Manual PGC adjustment for client "
    +:+ email +:+ " might be needed.".

Definition partial_failure_log : string :=
  "CRITICAL: Reward entry deleted but failed to update PGC balance.".

(** [Math.max(0, (client.pgc_balance || 0) - rewards.pgc_amount)], on whole
    numbers. *)
Definition newPgcBalance (cl : ClientProfile.t) (rw : JoinedReward.t) : Z :=
  let pgcAmountToDecrement := JoinedReward.pgc_amount rw in
  let currentPgcBalance := Js.or_zero (ClientProfile.pgc_balance cl) in
  Z.max 0 (currentPgcBalance - pgcAmountToDecrement).

(** The two writes of a revocation, as the store runs them. *)
Definition ledger_write (toRevoke : ObtainedReward.t) : Pg.Db -> Pg.result unit :=
  Pg.delete_client_reward (ObtainedReward.id toRevoke).

Definition balance_write (e : env) (cl : ClientProfile.t) (rw : JoinedReward.t)
    : Pg.Db -> Pg.result Pg.Client.row :=
  Pg.update_balance_single (ClientProfile.id cl) (newPgcBalance cl rw) (db_now e).

(** [confirmRevokeReward]: the Confirm button of the modal.  [p] is the
    state the handler closes over. *)
Definition confirmRevokeReward (p : state) (e : env) : Async state unit :=
  match clientRewardToRevoke p, client p with
  | Some toRevoke, Some cl =>
      set_state (setRevokeError None);;
      try_catch
        ((* 1. Delete from client_rewards *)
         del ← request (DeleteClientReward (ObtainedReward.id toRevoke)) (delete_fault e)
                 (ledger_write toRevoke);
         match del with
         | inl deleteError => throw (Js.Error (delete_error (Js.pg_message deleteError)))
         | inr _ =>
             (* 2. Decrement client's PGC balance *)
             match ObtainedReward.rewards toRevoke with
             | None =>
                 throw (Js.TypeError
                          "Cannot read properties of null (reading 'pgc_amount')")
             | Some rw =>
                 upd ← request (UpdateBalance (ClientProfile.id cl) (newPgcBalance cl rw))
                         (update_fault e) (balance_write e cl rw);
                 match upd with
                 | inl updateBalanceError =>
                     log (console_error partial_failure_log
                            (Some (Js.Thrown updateBalanceError)));;
                     throw (Js.Error (balance_error (Js.pg_message updateBalanceError)
                                        (ClientProfile.email cl)))
                 | inr updatedClient =>
                     set_state (setClient
                                  (Some (ClientProfile.of_row (ClientProfile.id cl)
                                           updatedClient)));;
                     set_state (fun s =>
                                  setObtainedRewards
                                    (filter (fun r => ObtainedReward.id r
                                                      <> ObtainedReward.id toRevoke)
                                       (obtainedRewards s)) s);;
                     set_state (setShowRevokeModal false);;
                     set_state (setClientRewardToRevoke None)
                 end
             end
         end)
        (fun err =>
           log (console_error "Error revoking reward:" (Some err));;
           set_state (setRevokeError
                        (Some (Js.or_str (Js.message err) "Failed to revoke reward."))))
  | _, _ => mret tt
  end.

End ViewClientDetailsPage.

(** ** Client: submit a plastic mitigation activity (SubmitActivityPage) *)

Module SubmitActivityPage.

Record FilePreview := { file : File; previewUrl : string }.

Record state := {
  user : option User;
  profile : option ClientProfile.t;
  mitigatedPlasticKg : string;
  imageFiles : list FilePreview;
  mitigationMessage : string;
  mitigationError : string
}.

Definition setMitigationMessage (m : string) (p : state) : state :=
  {| user := user p; profile := profile p;
     mitigatedPlasticKg := mitigatedPlasticKg p; imageFiles := imageFiles p;
     mitigationMessage := m; mitigationError := mitigationError p |}.

Definition setMitigationError (m : string) (p : state) : state :=
  {| user := user p; profile := profile p;
     mitigatedPlasticKg := mitigatedPlasticKg p; imageFiles := imageFiles p;
     mitigationMessage := mitigationMessage p; mitigationError := m |}.

Definition setMitigatedPlasticKg (kg : string) (p : state) : state :=
  {| user := user p; profile := profile p;
     mitigatedPlasticKg := kg; imageFiles := imageFiles p;
     mitigationMessage := mitigationMessage p; mitigationError := mitigationError p |}.

Definition setImageFiles (l : list FilePreview) (p : state) : state :=
  {| user := user p; profile := profile p;
     mitigatedPlasticKg := mitigatedPlasticKg p; imageFiles := l;
     mitigationMessage := mitigationMessage p; mitigationError := mitigationError p |}.

Record upload_step := {
  date_now : N;                   (* Date.now() when the file name is built *)
  upload_fault : option string
}.

Record env := {
  supabase_url : string;          (* NEXT_PUBLIC_SUPABASE_URL *)
  uploads : nat -> upload_step;   (* for the i-th image *)
  db_now : string;
  entry_uuid : string;
  entry_fault : option string;
  remove_fault : option string;
  image_uuids : nat -> string;
  images_fault : option string
}.

Definition login_error : string := "You must be logged in to submit data.".

Definition validation_error : string :=
  "Please enter a valid amount for mitigated plastic (kg).".

Definition upload_error (name m : string) : string :=
  "Failed to upload " +:+ name +:+ ": " +:+ m.

Definition fileName (uid : string) (t : N) (name : string) : string :=
  uid +:+ "/" +:+ pretty t +:+ "_" +:+ name.

(** The [for ... of imageFiles] loop from its [i]-th iteration on, with the
    URLs pushed so far. *)
Fixpoint upload_from (i : nat) (e : env) (uid : string) (files : list FilePreview)
    (uploadedImageUrls : list string) : Async state (list string) :=
  match files with
  | [] => mret uploadedImageUrls
  | filePreview :: rest =>
      let name := file_name (file filePreview) in
      up ← storage_upload (fileName uid (date_now (uploads e i)) name)
             (file filePreview) (upload_fault (uploads e i));
      match up with
      | inl uploadError =>
          log (console_error "Error uploading image:"
                 (Some (Js.Thrown (Pg.unreachable uploadError))));;
          throw (Js.Error (upload_error name uploadError))
      | inr path =>
          let publicUrl := getPublicUrl (supabase_url e) path in
          if Js.not_str publicUrl
          then throw (Js.Error ("Failed to get public URL for " +:+ name +:+ "."))
          else upload_from (S i) e uid rest (uploadedImageUrls ++ [publicUrl])
      end
  end.

(** The path of an uploaded file, recovered from its public URL. *)
Definition path_of_url (url : string) : string :=
  let parts := Js.split_slash url in
  Js.join_slash (Js.slice_from (Js.indexOf "mitigation-images" parts + 1) parts).

(** [handleSubmitPlasticMitigation]; [p] is the state the handler closes
    over.  Releasing the preview URLs at the end touches the browser only
    and is left out. *)
Definition handleSubmitPlasticMitigation (p : state) (e : env) : Async state unit :=
  match user p, profile p with
  | Some u, Some _ =>
      if Js.not_str (mitigatedPlasticKg p)
         || Js.le_zero (Js.parseFloat (mitigatedPlasticKg p))
      then set_state (setMitigationError validation_error)
      else
        set_state (setMitigationMessage "");;
        set_state (setMitigationError "");;
        try_catch
          ((* 1. Upload images *)
           uploadedImageUrls ← upload_from 0 e (user_id u) (imageFiles p) [];
           (* 2. Create plastic_mitigation_entries record *)
           let kg := Js.parseFloat (mitigatedPlasticKg p) in
           ins ← request (InsertEntry (user_id u) kg) (entry_fault e)
                   (Pg.insert_entry (entry_uuid e) (user_id u) kg (db_now e));
           match ins with
           | inl entryError =>
               log (console_error "Error creating mitigation entry:"
                      (Some (Js.Thrown entryError)));;
               (* Attempt to delete uploaded images if entry creation fails *)
               match uploadedImageUrls with
               | [] => mret tt
               | _ :: _ =>
                   let pathsToDelete := path_of_url <$> uploadedImageUrls in
                   log (console_log "Attempting to delete uploaded files due to error:"
                          pathsToDelete);;
                   storage_remove pathsToDelete (remove_fault e)
               end;;
               throw (Js.Thrown entryError)
           | inr mitigationEntry =>
               (* 3. Create mitigation_activity_images records *)
               match uploadedImageUrls with
               | [] => mret tt
               | _ :: _ =>
                   let imageRecords :=
                     (fun url => (fst mitigationEntry, url)) <$> uploadedImageUrls in
                   rec ← request (InsertImages imageRecords) (images_fault e)
                           (Pg.insert_images (image_uuids e) imageRecords (db_now e));
                   match rec with
                   | inl imageRecordError =>
                       log (console_error "Error creating image records:"
                              (Some (Js.Thrown imageRecordError)));;
                       throw (Js.Thrown imageRecordError)
                   | inr _ => mret tt
                   end
               end;;
               set_state
                 (setMitigationMessage "Plastic mitigation activity logged successfully!");;
               set_state (setMitigatedPlasticKg "");;
               set_state (setImageFiles [])
           end)
          (fun err =>
             log (console_error "Mitigation submission error:" (Some err));;
             set_state (setMitigationError
                          (Js.or_str (Js.message err) "An unknown error occurred.")))
  | _, _ => set_state (setMitigationError login_error)
  end.

(** [handleImageChange]: the files picked in the file input ([None] when the
    input has no file list) are appended to the list, the [i]-th of them
    with the URL [previews i] that [URL.createObjectURL] returns for it. *)
Definition handleImageChange (files : option (list File)) (previews : nat -> string)
    (s : state) : state :=
  match files with
  | Some filesArray =>
      let newFilePreviews :=
        imap (fun i f => {| file := f; previewUrl := previews i |}) filesArray in
      setImageFiles (imageFiles s ++ newFilePreviews) s
  | None => s
  end.

(** [removeImage(index)]; [p] is the state the handler closes over.  It
    reads [imageFiles[index].previewUrl] first, which throws when the list
    has no such element; nothing catches it. *)
Definition removeImage (index : nat) (p : state) : Async state unit :=
  match imageFiles p !! index with
  | None =>
      throw (Js.TypeError "Cannot read properties of undefined (reading 'previewUrl')")
  | Some fileToRemove =>
      set_state (fun prev =>
                   setImageFiles
                     (Js.filter_index (fun i => negb (i =? index)%nat) 0 (imageFiles prev))
                     prev)
  end.

End SubmitActivityPage.

(** ** Client: profile (AuthContext and ProfilePage) *)

Module ProfilePage.

Record state := {
  user : option User;
  profile : option ClientProfile.t;
  fullName : string;
  solanaWallet : string;
  bnbWallet : string;
  message : string;
  error : string
}.

Definition setProfile (c : option ClientProfile.t) (p : state) : state :=
  {| user := user p; profile := c; fullName := fullName p;
     solanaWallet := solanaWallet p; bnbWallet := bnbWallet p;
     message := message p; error := error p |}.

Definition setMessage (m : string) (p : state) : state :=
  {| user := user p; profile := profile p; fullName := fullName p;
     solanaWallet := solanaWallet p; bnbWallet := bnbWallet p;
     message := m; error := error p |}.

Definition setError (m : string) (p : state) : state :=
  {| user := user p; profile := profile p; fullName := fullName p;
     solanaWallet := solanaWallet p; bnbWallet := bnbWallet p;
     message := message p; error := m |}.

Record fetch_env := {
  fetch_db_now : string;
  metadata_full_name : option string;   (* user_metadata?.full_name *)
  select_fault : option string;
  insert_fault : option string
}.

(** [fetchAndSetProfile] of AuthContext: read the profile of the user and
    create it when there is none. *)
Definition fetchAndSetProfile (currentUser : User) (e : fetch_env) : Async state unit :=
  try_catch
    (sel ← request (Select "clients" (Some (user_id currentUser))) (select_fault e)
             (Pg.select_client (user_id currentUser));
     match sel with
     | inr clientData =>
         set_state (setProfile
                      (Some (ClientProfile.of_row (user_id currentUser) clientData)))
     | inl fetchError =>
         if bool_decide (Js.code fetchError = "PGRST116") then
           log (console_log ("Profile not found for user " +:+ user_id currentUser
                               +:+ ", creating one.") []);;
           ins ← request (InsertClient (user_id currentUser) (user_email currentUser))
                   (insert_fault e)
                   (Pg.insert_client (user_id currentUser) (user_email currentUser)
                      (match metadata_full_name e with
                       | Some n => Js.or_null n
                       | None => None
                       end)
                      (fetch_db_now e));
           match ins with
           | inl insertError =>
               log (console_error "Error creating client profile:"
                      (Some (Js.Thrown insertError)));;
               throw (Js.Thrown insertError)
           | inr newClientData =>
               log (console_log "New profile created:" [user_id currentUser]);;
               set_state (setProfile
                            (Some (ClientProfile.of_row (user_id currentUser)
                                     newClientData)))
           end
         else
           log (console_error "Error fetching client profile:"
                  (Some (Js.Thrown fetchError)));;
           throw (Js.Thrown fetchError)
     end)
    (fun err =>
       log (console_error "Error in profile fetching/creation process:" (Some err));;
       set_state (setProfile None)).

Record env := {
  now : string;
  db_now : string;
  upsert_fault : option string;
  refresh : fetch_env
}.

Definition login_error : string := "You must be logged in to update your profile.".

(** [handleUpdateProfile]; [p] is the state the handler closes over. *)
Definition handleUpdateProfile (p : state) (e : env) : Async state unit :=
  set_state (setMessage "");;
  set_state (setError "");;
  match user p, profile p with
  | Some u, Some prof =>
      try_catch
        (up ← request
                (UpsertClient (user_id u) (ClientProfile.email prof) (fullName p)
                   (solanaWallet p) (bnbWallet p))
                (upsert_fault e)
                (Pg.upsert_client (user_id u) (ClientProfile.email prof) (fullName p)
                   (solanaWallet p) (bnbWallet p) (now e) (db_now e));
         match up with
         | inl updateError =>
             log (console_error "Error updating profile:" (Some (Js.Thrown updateError)));;
             throw (Js.Thrown updateError)
         | inr _ =>
             fetchAndSetProfile u (refresh e);;   (* refreshProfile() *)
             set_state (setMessage "Profile updated successfully!")
         end)
        (fun err =>
           log (console_error "Profile update catch block error:" (Some err));;
           set_state (setError (Js.or_str (Js.message err) "Failed to update profile.")))
  | _, _ => set_state (setError login_error)
  end.

(** The effect of ProfilePage on [profile]: the form is filled from the
    profile, [null] fields as empty text. *)
Definition profile_effect (p : state) : state :=
  match profile p with
  | Some prof =>
      {| user := user p; profile := profile p;
         fullName := or_default (ClientProfile.full_name prof) "";
         solanaWallet := or_default (ClientProfile.solana_wallet prof) "";
         bnbWallet := or_default (ClientProfile.bnb_wallet prof) "";
         message := message p; error := error p |}
  | None => p
  end.

End ProfilePage.

(** ** Admin: reward definitions (ManageRewardDefinitionsPage) *)

Module ManageRewardDefinitionsPage.

Module RewardDefinition.
Record t := {
  id : string;
  name : string;
  description : option string;
  pgc_amount : Z;
  criteria_plastic_kg : option Z;
  criteria_petgas_liters : option Z;
  created_at : string
}.

Definition of_row (kr : string * Pg.Reward.row) : t :=
  {| id := fst kr; name := Pg.Reward.name (snd kr);
     description := Pg.Reward.description (snd kr);
     pgc_amount := Pg.Reward.pgc_amount (snd kr);
     criteria_plastic_kg := Pg.Reward.criteria_plastic_kg (snd kr);
     criteria_petgas_liters := Pg.Reward.criteria_petgas_liters (snd kr);
     created_at := Pg.Reward.created_at (snd kr) |}.
End RewardDefinition.

Record state := {
  rewards : list RewardDefinition.t;
  error : option string;
  showDeleteModal : bool;
  rewardToDelete : option RewardDefinition.t
}.

Definition setRewards (l : list RewardDefinition.t) (p : state) : state :=
  {| rewards := l; error := error p; showDeleteModal := showDeleteModal p;
     rewardToDelete := rewardToDelete p |}.

Definition setError (e : option string) (p : state) : state :=
  {| rewards := rewards p; error := e; showDeleteModal := showDeleteModal p;
     rewardToDelete := rewardToDelete p |}.

Definition setShowDeleteModal (b : bool) (p : state) : state :=
  {| rewards := rewards p; error := error p; showDeleteModal := b;
     rewardToDelete := rewardToDelete p |}.

Definition setRewardToDelete (r : option RewardDefinition.t) (p : state) : state :=
  {| rewards := rewards p; error := error p; showDeleteModal := showDeleteModal p;
     rewardToDelete := r |}.

(** [fetchRewards]; the order of the list is not modelled. *)
Definition fetchRewards (fault : option string) : Async state unit :=
  set_state (setError None);;
  try_catch
    (sel ← request (Select "rewards" None) fault Pg.select_rewards;
     match sel with
     | inl fetchError => throw (Js.Thrown fetchError)
     | inr rows => set_state (setRewards (RewardDefinition.of_row <$> rows))
     end)
    (fun err =>
       log (console_error "Error fetching reward definitions:" (Some err));;
       set_state (setError (Some (Js.or_str (Js.message err) "Failed to fetch rewards.")))).

Definition handleDeleteRequest (reward : RewardDefinition.t) (p : state) : state :=
  setShowDeleteModal true (setRewardToDelete (Some reward) p).

(** [confirmDeleteReward]; [p] is the state the handler closes over. *)
Definition confirmDeleteReward (p : state) (fault : option string) : Async state unit :=
  match rewardToDelete p with
  | None => mret tt
  | Some toDelete =>
      try_catch
        (del ← request (DeleteReward (RewardDefinition.id toDelete)) fault
                 (Pg.delete_reward (RewardDefinition.id toDelete));
         match del with
         | inl deleteError => throw (Js.Thrown deleteError)
         | inr _ =>
             set_state (setRewards
                          (filter (fun r => RewardDefinition.id r
                                            <> RewardDefinition.id toDelete)
                             (rewards p)));;
             set_state (setShowDeleteModal false);;
             set_state (setRewardToDelete None)
         end)
        (fun err =>
           log (console_error "Error deleting reward:" (Some err));;
           set_state (setError
                        (Some (Js.or_str (Js.message err)
                                 "Failed to delete reward. It might be in use."))))
  end.

End ManageRewardDefinitionsPage.

(** ** Quantities the properties speak about *)

(** The point balance stored for client [c]. *)
Definition stored_balance (c : string) (d : Pg.Db) : option Z :=
  Pg.clients d !! c ≫= Pg.Client.pgc_balance.

(** The point value of the reward a ledger entry references. *)
Definition point_value (d : Pg.Db) (r : Pg.ClientReward.row) : Z :=
  from_option Pg.Reward.pgc_amount 0%Z (Pg.rewards d !! Pg.ClientReward.reward_id r).

(** The sum of the point values of the ledger entries client [c] holds. *)
Definition ledger_points (c : string) (d : Pg.Db) : Z :=
  map_fold
    (fun _ r acc =>
       if decide (Pg.ClientReward.client_id r = c) then (point_value d r + acc)%Z else acc)
    0%Z (Pg.client_rewards d).

(** A ledger entry with key [k] links client [c] and reward [r]. *)
Definition links (d : Pg.Db) (k c r : string) : Prop :=
  exists row, Pg.client_rewards d !! k = Some row
              /\ Pg.ClientReward.client_id row = c
              /\ Pg.ClientReward.reward_id row = r.

(** The error the [catch] clause of a handler received, as the
    [console.error] call at its start logged it. *)
Definition caught (w : World) : option Js.error :=
  match last (console w) with
  | Some (console_error _ (Some err)) => Some err
  | _ => None
  end.

(** Two errors are of the same kind when they are instances of the same
    class (or both error objects of the store): what a caller can tell
    without reading the message. *)
Definition same_kind (a b : Js.error) : bool :=
  match a, b with
  | Js.Thrown _, Js.Thrown _ | Js.Error _, Js.Error _ | Js.TypeError _, Js.TypeError _ => true
  | _, _ => false
  end.

(** ** Concrete data for the examples *)

Module Scenario.

Definition alice (balance : Z) : Pg.Client.row :=
  {| Pg.Client.email := "alice@example.org"; Pg.Client.full_name := Some "Alice";
     Pg.Client.solana_wallet := None; Pg.Client.bnb_wallet := None;
     Pg.Client.pgc_balance := Some balance;
     Pg.Client.created_at := "2025-01-01T00:00:00Z";
     Pg.Client.updated_at := "2025-01-01T00:00:00Z" |}.

Definition reward (name : string) (points : Z) : Pg.Reward.row :=
  {| Pg.Reward.name := name; Pg.Reward.description := None;
     Pg.Reward.pgc_amount := points; Pg.Reward.criteria_plastic_kg := None;
     Pg.Reward.criteria_petgas_liters := None;
     Pg.Reward.created_at := "2025-01-01T00:00:00Z" |}.

Definition entry (c r : string) : Pg.ClientReward.row :=
  {| Pg.ClientReward.client_id := c; Pg.ClientReward.reward_id := r;
     Pg.ClientReward.awarded_at := "2025-01-02T00:00:00Z";
     Pg.ClientReward.notes := None |}.

(** One client with balance [balance], two rewards, and the ledger [ledger]. *)
Definition store (balance : Z) (ledger : gmap string Pg.ClientReward.row) : Pg.Db :=
  {| Pg.clients := {[ "c1" := alice balance ]};
     Pg.plastic_mitigation_entries := ∅;
     Pg.mitigation_activity_images := ∅;
     Pg.rewards := {[ "r10" := reward "Bottle" 10; "r30" := reward "Voucher" 30 ]};
     Pg.client_rewards := ledger |}.

Definition world (d : Pg.Db) : World :=
  {| db := d; bucket := ∅; console := []; calls := [] |}.

Definition assign_env (id : string) (upd : option string) : AssignRewardPage.env :=
  {| AssignRewardPage.now := "2025-02-01T00:00:00Z";
     AssignRewardPage.db_now := "2025-02-01T00:00:01Z";
     AssignRewardPage.uuid := id;
     AssignRewardPage.insert_fault := None;
     AssignRewardPage.update_fault := upd |}.

Definition fetch_ok : AssignRewardPage.fetch_env :=
  {| AssignRewardPage.clients_fault := None; AssignRewardPage.rewards_fault := None |}.

(** The assignment page as loaded from a store. *)
Definition assign_page (w : World) : AssignRewardPage.state * World :=
  run (AssignRewardPage.fetchData fetch_ok) AssignRewardPage.initial w.

(** Pick client [c] and reward [r] on page [pw.1] and submit. *)
Definition assign (c r : string) (e : AssignRewardPage.env)
    (pw : AssignRewardPage.state * World) : AssignRewardPage.state * World :=
  let p := AssignRewardPage.choose c r (fst pw) in
  run (AssignRewardPage.handleSubmit p e) p (snd pw).

Definition view_fetch_ok : ViewClientDetailsPage.fetch_env :=
  {| ViewClientDetailsPage.client_fault := None;
     ViewClientDetailsPage.mitigation_fault := None;
     ViewClientDetailsPage.consumption_fault := None;
     ViewClientDetailsPage.rewards_fault := None |}.

(** The details page of client c1 as loaded from a store. *)
Definition view_page (w : World) : ViewClientDetailsPage.state * World :=
  run (ViewClientDetailsPage.fetchAllClientData "c1" view_fetch_ok)
    ViewClientDetailsPage.initial w.

Definition revoke_env (upd : option string) : ViewClientDetailsPage.env :=
  {| ViewClientDetailsPage.db_now := "2025-03-01T00:00:00Z";
     ViewClientDetailsPage.delete_fault := None;
     ViewClientDetailsPage.update_fault := upd |}.

(** Press Revoke on the reward listed with key [k] on page [p], then
    Confirm; without such a reward on the page there is no button. *)
Definition revoke (k : string) (e : ViewClientDetailsPage.env)
    (p : ViewClientDetailsPage.state) (w : World)
    : ViewClientDetailsPage.state * World :=
  match list_find (fun r => ViewClientDetailsPage.ObtainedReward.id r = k)
          (ViewClientDetailsPage.obtainedRewards p) with
  | Some (_, r) =>
      let p' := ViewClientDetailsPage.handleRevokeRequest r p in
      run (ViewClientDetailsPage.confirmRevokeReward p' e) p' w
  | None => (p, w)
  end.

(** The ledger row [k] of the 30-point reward as the details page lists it. *)
Definition listed_voucher (k : string) : ViewClientDetailsPage.ObtainedReward.t :=
  {| ViewClientDetailsPage.ObtainedReward.id := k;
     ViewClientDetailsPage.ObtainedReward.awarded_at := "2025-01-02T00:00:00Z";
     ViewClientDetailsPage.ObtainedReward.notes := None;
     ViewClientDetailsPage.ObtainedReward.rewards :=
       Some (ViewClientDetailsPage.joined "r30" (reward "Voucher" 30)) |}.

(** The options of the dropdowns of the assignment page. *)
Definition alice_option (balance : Z) : AssignRewardPage.ClientOption.t :=
  AssignRewardPage.client_option ("c1", alice balance).

Definition bottle_option : AssignRewardPage.RewardOption.t :=
  AssignRewardPage.reward_option ("r10", reward "Bottle" 10).

Definition voucher_option : AssignRewardPage.RewardOption.t :=
  AssignRewardPage.reward_option ("r30", reward "Voucher" 30).

Definition user1 : User := {| user_id := "c1"; user_email := "alice@example.org" |}.

Definition image (name : string) : SubmitActivityPage.FilePreview :=
  {| SubmitActivityPage.file := {| file_name := name; file_bytes := "JFIF" |};
     SubmitActivityPage.previewUrl := "blob:" +:+ name |}.

Definition submit_page (kg : string) (files : list SubmitActivityPage.FilePreview)
    : SubmitActivityPage.state :=
  {| SubmitActivityPage.user := Some user1;
     SubmitActivityPage.profile := Some (ClientProfile.of_row "c1" (alice 0));
     SubmitActivityPage.mitigatedPlasticKg := kg;
     SubmitActivityPage.imageFiles := files;
     SubmitActivityPage.mitigationMessage := "";
     SubmitActivityPage.mitigationError := "" |}.

(** No request fails, except the upload of the image with index
    [failing]. *)
Definition submit_env (failing : option nat) : SubmitActivityPage.env :=
  {| SubmitActivityPage.supabase_url := "https://petgas.supabase.co";
     SubmitActivityPage.uploads := fun i =>
       {| SubmitActivityPage.date_now := 1700000000000 + N.of_nat i;
          SubmitActivityPage.upload_fault :=
            if bool_decide (failing = Some i) then Some "Payload too large" else None |};
     SubmitActivityPage.db_now := "2025-04-01T00:00:00Z";
     SubmitActivityPage.entry_uuid := "m1";
     SubmitActivityPage.entry_fault := None;
     SubmitActivityPage.remove_fault := None;
     SubmitActivityPage.image_uuids := fun i => "img" +:+ pretty i;
     SubmitActivityPage.images_fault := None |}.

Definition profile_page (name sol bnb : string) : ProfilePage.state :=
  {| ProfilePage.user := Some user1;
     ProfilePage.profile := Some (ClientProfile.of_row "c1" (alice 0));
     ProfilePage.fullName := name;
     ProfilePage.solanaWallet := sol;
     ProfilePage.bnbWallet := bnb;
     ProfilePage.message := "";
     ProfilePage.error := "" |}.

Definition profile_env : ProfilePage.env :=
  {| ProfilePage.now := "2025-05-01T00:00:00Z";
     ProfilePage.db_now := "2025-05-01T00:00:01Z";
     ProfilePage.upsert_fault := None;
     ProfilePage.refresh :=
       {| ProfilePage.fetch_db_now := "2025-05-01T00:00:02Z";
          ProfilePage.metadata_full_name := None;
          ProfilePage.select_fault := None;
          ProfilePage.insert_fault := None |} |}.

(** A store in which the row of client c1 is gone (deleted from the admin
    panel after the profile page was shown). *)
Definition store_without_client : Pg.Db :=
  {| Pg.clients := ∅;
     Pg.plastic_mitigation_entries := ∅;
     Pg.mitigation_activity_images := ∅;
     Pg.rewards := {[ "r10" := reward "Bottle" 10; "r30" := reward "Voucher" 30 ]};
     Pg.client_rewards := ∅ |}.

Definition bob (balance : Z) : Pg.Client.row :=
  {| Pg.Client.email := "bob@example.org"; Pg.Client.full_name := Some "Bob";
     Pg.Client.solana_wallet := None; Pg.Client.bnb_wallet := None;
     Pg.Client.pgc_balance := Some balance;
     Pg.Client.created_at := "2025-01-01T00:00:00Z";
     Pg.Client.updated_at := "2025-01-01T00:00:00Z" |}.

Definition mitigation (c kg : string) : Pg.MitigationEntry.row :=
  {| Pg.MitigationEntry.client_id := c;
     Pg.MitigationEntry.mitigated_plastic_kg := Js.parseFloat kg;
     Pg.MitigationEntry.created_at := "2025-01-03T00:00:00Z" |}.

(** A store in use: two clients whose balances, 30 and 10, are the sums of
    their ledger entries, a mitigation entry with an image for each, and a
    third reward that nobody holds. *)
Definition populated : Pg.Db :=
  {| Pg.clients := {[ "c1" := alice 30; "c2" := bob 10 ]};
     Pg.plastic_mitigation_entries :=
       {[ "m7" := mitigation "c1" "12.5"; "m8" := mitigation "c2" "3" ]};
     Pg.mitigation_activity_images :=
       {[ "img7" :=
            {| Pg.MitigationImage.entry_id := "m7";
               Pg.MitigationImage.image_url :=
                 getPublicUrl "https://petgas.supabase.co" "c1/1690000000000_a.png";
               Pg.MitigationImage.uploaded_at := "2025-01-03T00:00:00Z" |};
          "img8" :=
            {| Pg.MitigationImage.entry_id := "m8";
               Pg.MitigationImage.image_url :=
                 getPublicUrl "https://petgas.supabase.co" "c2/1690000000001_b.png";
               Pg.MitigationImage.uploaded_at := "2025-01-03T00:00:00Z" |} ]};
     Pg.rewards := {[ "r10" := reward "Bottle" 10; "r30" := reward "Voucher" 30;
                      "r50" := reward "Tree" 50 ]};
     Pg.client_rewards := {[ "cr7" := entry "c1" "r30"; "cr8" := entry "c2" "r10" ]} |}.

(** The world of that store, with the two images in the bucket. *)
Definition populated_world : World :=
  {| db := populated;
     bucket := {[ "c1/1690000000000_a.png" := {| file_name := "a.png"; file_bytes := "JFIF" |};
                  "c2/1690000000001_b.png" := {| file_name := "b.png"; file_bytes := "JFIF" |} ]};
     console := []; calls := [] |}.

(** The definitions page as loaded, with Delete pressed on reward [k]. *)
Definition delete_page (k : string) (w : World)
    : ManageRewardDefinitionsPage.state * World :=
  let pw := run (ManageRewardDefinitionsPage.fetchRewards None)
              {| ManageRewardDefinitionsPage.rewards := [];
                 ManageRewardDefinitionsPage.error := None;
                 ManageRewardDefinitionsPage.showDeleteModal := false;
                 ManageRewardDefinitionsPage.rewardToDelete := None |} w in
  match list_find (fun r => ManageRewardDefinitionsPage.RewardDefinition.id r = k)
          (ManageRewardDefinitionsPage.rewards (fst pw)) with
  | Some (_, r) => (ManageRewardDefinitionsPage.handleDeleteRequest r (fst pw), snd pw)
  | None => pw
  end.

End Scenario.

(** A request that is an upload to the bucket. *)
Definition is_upload (c : Call) : Prop :=
  match c with
  | StorageUpload _ => True
  | _ => False
  end.

Module Assign := AssignRewardPage.
Module View := ViewClientDetailsPage.
Module Submit := SubmitActivityPage.
Module Profile := ProfilePage.
Module Definitions := ManageRewardDefinitionsPage.

(** ** Runs of an admin who reloads the page before each action *)

Inductive Op :=
| AssignOp (c r : string) (fe : Assign.fetch_env) (e : Assign.env)
| RevokeOp (c k : string) (fe : View.fetch_env) (e : View.env).

(** One action: the page is loaded from the store, the admin picks what the
    page lists, and the handler runs.  The result is the error the page
    shows afterwards, if any, and the world. *)
Definition perform (o : Op) (w : World) : option string * World :=
  match o with
  | AssignOp c r fe e =>
      let loaded := run (Assign.fetchData fe) Assign.initial w in
      let p := Assign.choose c r (fst loaded) in
      let pw := run (Assign.handleSubmit p e) p (snd loaded) in
      (Assign.error (fst pw), snd pw)
  | RevokeOp c k fe e =>
      let loaded := run (View.fetchAllClientData c fe) View.initial w in
      match list_find (fun t => View.ObtainedReward.id t = k)
              (View.obtainedRewards (fst loaded)) with
      | Some (_, t) =>
          let p := View.handleRevokeRequest t (fst loaded) in
          let pw := run (View.confirmRevokeReward p e) p (snd loaded) in
          (View.revokeError (fst pw), snd pw)
      | None => (View.error (fst loaded), snd loaded)
      end
  end.

(** A run stops at the first action that ends with an error; the flag says
    whether every action succeeded. *)
Fixpoint perform_all (ops : list Op) (w : World) : bool * World :=
  match ops with
  | [] => (true, w)
  | o :: rest =>
      match perform o w with
      | (None, w') => perform_all rest w'
      | (Some _, w') => (false, w')
      end
  end.

(** The balance of every client (NULL counts as 0) is the sum of the point
    values of the entries the client holds. *)
Definition in_step (d : Pg.Db) : Prop :=
  forall c row, Pg.clients d !! c = Some row ->
                Js.or_zero (Pg.Client.pgc_balance row) = ledger_points c d.

(** CHECK (pgc_amount > 0) on rewards. *)
Definition checked (d : Pg.Db) : Prop :=
  forall k r, Pg.rewards d !! k = Some r -> (0 < Pg.Reward.pgc_amount r)%Z.

(** ** Further quantities the properties speak about *)

(** The storage paths the upload loop builds for [files], from its [i]-th
    iteration on. *)
Fixpoint upload_paths (i : nat) (e : Submit.env) (uid : string)
    (files : list Submit.FilePreview) : list string :=
  match files with
  | [] => []
  | f :: rest =>
      Submit.fileName uid (Submit.date_now (Submit.uploads e i)) (file_name (Submit.file f))
        :: upload_paths (S i) e uid rest
  end.

(** A storage path that reaches the bucket as it is written and that
    [encodeURI] leaves as it is: parts that are not empty, made of letters,
    digits and the marks [- _ . ! ~ * ' ( )], separated by single slashes.
    [after_slash] says that the text read so far is empty or ends with a
    slash. *)
Fixpoint key_chars (after_slash : bool) (s : string) : bool :=
  match s with
  | EmptyString => negb after_slash
  | String c r =>
      if bool_decide (c = "/"%char) then negb after_slash && key_chars true r
      else Js.uri_unescaped c && key_chars false r
  end.

Definition storage_key (path : string) : bool := key_chars true path.

(** The row of mitigation_activity_images for the image at [url] of entry
    [entry]. *)
Definition image_row (entry url db_now : string) : Pg.MitigationImage.row :=
  {| Pg.MitigationImage.entry_id := entry; Pg.MitigationImage.image_url := url;
     Pg.MitigationImage.uploaded_at := db_now |}.

(** The row [fetchAndSetProfile] creates for a user without profile. *)
Definition first_profile (u : User) (fe : Profile.fetch_env) : Pg.Client.row :=
  {| Pg.Client.email := user_email u;
     Pg.Client.full_name := Profile.metadata_full_name fe ≫= Js.or_null;
     Pg.Client.solana_wallet := None; Pg.Client.bnb_wallet := None;
     Pg.Client.pgc_balance := Some 0%Z;
     Pg.Client.created_at := Profile.fetch_db_now fe;
     Pg.Client.updated_at := Profile.fetch_db_now fe |}.

(** From [d] to [d'] nothing that counts towards points has changed: the
    ledger and the reward definitions are the same, every client of [d] is
    still there with the same balance, and a client that is new in [d'] has
    balance 0. *)
Definition same_points (d d' : Pg.Db) : Prop :=
  Pg.client_rewards d' = Pg.client_rewards d
  /\ Pg.rewards d' = Pg.rewards d
  /\ (forall c row, Pg.clients d !! c = Some row ->
        exists row', Pg.clients d' !! c = Some row'
                     /\ Pg.Client.pgc_balance row' = Pg.Client.pgc_balance row)
  /\ (forall c, Pg.clients d !! c = None ->
        Pg.clients d' !! c = None \/ stored_balance c d' = Some 0%Z).

(** Every ledger entry references a reward definition that exists
    ([reward_id REFERENCES rewards(id)]). *)
Definition rewards_fk (d : Pg.Db) : Prop :=
  forall k row, Pg.client_rewards d !! k = Some row ->
                is_Some (Pg.rewards d !! Pg.ClientReward.reward_id row).

(** ** The rest of the store: consumption entries and the deletion of clients *)

Module ConsumptionEntry.
Record row := {
  client_id : string;             (* REFERENCES clients(id) ON DELETE CASCADE *)
  liters_consumed : Js.number;    (* NUMERIC NOT NULL CHECK (> 0) *)
  transaction_date : string       (* DEFAULT now() *)
}.
End ConsumptionEntry.

(** The requests of the pages below. *)
Inductive Request :=
| InsertConsumption (client_id : string) (liters_consumed : Js.number)
| DeleteClient (id : string).

(** The world together with the table [petgas_consumption_entries], which
    none of the pages above writes, and the requests of the pages below. *)
Record Site := {
  world : World;
  petgas_consumption_entries : gmap string ConsumptionEntry.row;
  requests : list Request
}.

Definition with_world (w : World) (t : Site) : Site :=
  {| world := w; petgas_consumption_entries := petgas_consumption_entries t;
     requests := requests t |}.

Definition requested (r : Request) (t : Site) : Site :=
  {| world := world t; petgas_consumption_entries := petgas_consumption_entries t;
     requests := requests t ++ [r] |}.

(** The tables of a site: those of [Pg.Db] and the consumption entries. *)
Definition Tables : Type := Pg.Db * gmap string ConsumptionEntry.row.

Definition tables (t : Site) : Tables := (db (world t), petgas_consumption_entries t).

Definition with_tables (x : Tables) (t : Site) : Site :=
  {| world := with_db (fst x) (world t); petgas_consumption_entries := snd x;
     requests := requests t |}.

(** [insert({client_id, liters_consumed})]: [transaction_date] takes its
    default; NaN and the infinities are serialised as [null]. *)
Definition insert_consumption (id c : string) (liters : Js.number) (db_now : string)
    (x : Tables) : Js.PostgrestError + (unit * Tables) :=
  match liters with
  | Js.Zero _ | Js.Finite _ _ _ =>
      if bool_decide (Pg.clients (fst x) !! c = None)
      then inl (Pg.foreign_key_violation "clients")
      else if negb (Js.gt_zero liters)
      then inl (Pg.check_violation "petgas_consumption_entries_liters_consumed_check")
      else if bool_decide (is_Some (snd x !! id))
      then inl (Pg.unique_violation "petgas_consumption_entries_pkey")
      else
        inr (tt, (fst x,
                  <[id := {| ConsumptionEntry.client_id := c;
                             ConsumptionEntry.liters_consumed := liters;
                             ConsumptionEntry.transaction_date := db_now |}]> (snd x)))
  | _ => inl (Pg.not_null_violation "liters_consumed")
  end.

(** [delete().eq('id', id)] on clients: the rows that reference the client
    go with it (ON DELETE CASCADE), and with a mitigation entry its image
    rows; deleting no row is not an error. *)
Definition delete_client (id : string) (x : Tables) : Js.PostgrestError + (unit * Tables) :=
  let d := fst x in
  inr (tt,
       ({| Pg.clients := delete id (Pg.clients d);
           Pg.plastic_mitigation_entries :=
             filter (fun kr => Pg.MitigationEntry.client_id (snd kr) <> id)
               (Pg.plastic_mitigation_entries d);
           Pg.mitigation_activity_images :=
             filter (fun kr =>
                       Pg.MitigationEntry.client_id
                         <$> Pg.plastic_mitigation_entries d
                               !! Pg.MitigationImage.entry_id (snd kr)
                       <> Some id)
               (Pg.mitigation_activity_images d);
           Pg.rewards := Pg.rewards d;
           Pg.client_rewards :=
             filter (fun kr => Pg.ClientReward.client_id (snd kr) <> id)
               (Pg.client_rewards d) |},
        filter (fun kr => ConsumptionEntry.client_id (snd kr) <> id) (snd x))).

(** An asynchronous computation of a page with React state [S] against a
    site. *)
Definition AsyncSite (S A : Type) : Type := S * Site -> (Js.error + A) * (S * Site).

#[global] Instance AsyncSite_ret {S} : MRet (AsyncSite S) :=
  fun A (x : A) st => (inr x, st).

#[global] Instance AsyncSite_bind {S} : MBind (AsyncSite S) :=
  fun A B (k : A -> AsyncSite S B) (m : AsyncSite S A) st =>
    match m st with
    | (inl e, st') => (inl e, st')
    | (inr x, st') => k x st'
    end.

Section AsyncSite.
Context {S : Type}.

(** A computation against the world, run against the world of the site. *)
Definition lift {A} (m : Async S A) : AsyncSite S A :=
  fun st =>
    let out := m (fst st, world (snd st)) in
    (fst out, (fst (snd out), with_world (snd (snd out)) (snd st))).

Definition try_catch_site {A} (body : AsyncSite S A) (handler : Js.error -> AsyncSite S A)
    : AsyncSite S A :=
  fun st =>
    match body st with
    | (inl e, st') => handler e st'
    | r => r
    end.

(** [await supabase.from(...)...] for the requests of these pages. *)
Definition request_site {A} (r : Request) (fault : option string)
    (op : Tables -> Js.PostgrestError + (A * Tables)) : AsyncSite S (Js.PostgrestError + A) :=
  fun st =>
    let t := requested r (snd st) in
    match fault with
    | Some msg => (inr (inl (Pg.unreachable msg)), (fst st, t))
    | None =>
        match op (tables t) with
        | inl e => (inr (inl e), (fst st, t))
        | inr (x, tb) => (inr (inr x), (fst st, with_tables tb t))
        end
    end.

Definition run_site {A} (m : AsyncSite S A) (s : S) (t : Site) : S * Site :=
  snd (m (s, t)).

End AsyncSite.

(** ** Client: log Petgas consumption (second form of SubmitActivityPage) *)

Module ConsumptionForm.

Record state := {
  user : option User;
  profile : option ClientProfile.t;
  litersConsumed : string;
  consumptionMessage : string;
  consumptionError : string
}.

Definition setLitersConsumed (l : string) (p : state) : state :=
  {| user := user p; profile := profile p; litersConsumed := l;
     consumptionMessage := consumptionMessage p; consumptionError := consumptionError p |}.

Definition setConsumptionMessage (m : string) (p : state) : state :=
  {| user := user p; profile := profile p; litersConsumed := litersConsumed p;
     consumptionMessage := m; consumptionError := consumptionError p |}.

Definition setConsumptionError (m : string) (p : state) : state :=
  {| user := user p; profile := profile p; litersConsumed := litersConsumed p;
     consumptionMessage := consumptionMessage p; consumptionError := m |}.

Record env := {
  db_now : string;
  entry_uuid : string;
  insert_fault : option string
}.

Definition login_error : string := "You must be logged in to submit data.".

Definition validation_error : string :=
  "Please enter a valid amount for Petgas consumed (liters).".

(** [handleSubmitPetgasConsumption]; [p] is the state the handler closes
    over.  The errors it can catch have no [error_description], so
    [err.error_description || err.message || d] is [err.message || d]. *)
Definition handleSubmitPetgasConsumption (p : state) (e : env) : AsyncSite state unit :=
  match user p, profile p with
  | Some u, Some _ =>
      if Js.not_str (litersConsumed p) || Js.le_zero (Js.parseFloat (litersConsumed p))
      then lift (set_state (setConsumptionError validation_error))
      else
        lift (set_state (setConsumptionMessage ""));;
        lift (set_state (setConsumptionError ""));;
        try_catch_site
          (let liters := Js.parseFloat (litersConsumed p) in
           ins ← request_site (InsertConsumption (user_id u) liters) (insert_fault e)
                   (insert_consumption (entry_uuid e) (user_id u) liters (db_now e));
           match ins with
           | inl error =>
               lift (log (console_error "Error logging Petgas consumption:"
                            (Some (Js.Thrown error))));;
               lift (throw (Js.Thrown error))
           | inr _ =>
               lift (set_state
                       (setConsumptionMessage "Petgas consumption logged successfully!"));;
               lift (set_state (setLitersConsumed ""))
           end)
          (fun err =>
             lift (log (console_error "Consumption submission error:" (Some err)));;
             lift (set_state (setConsumptionError
                                (Js.or_str (Js.message err) "Failed to log consumption."))))
  | _, _ => lift (set_state (setConsumptionError login_error))
  end.

End ConsumptionForm.

(** ** Admin: the list of clients (ManageClientsPage) *)

Module ManageClientsPage.

Record state := {
  clients : list ClientProfile.t;
  error : option string;
  showDeleteModal : bool;
  clientToDelete : option ClientProfile.t
}.

Definition setClients (l : list ClientProfile.t) (p : state) : state :=
  {| clients := l; error := error p; showDeleteModal := showDeleteModal p;
     clientToDelete := clientToDelete p |}.

Definition setError (e : option string) (p : state) : state :=
  {| clients := clients p; error := e; showDeleteModal := showDeleteModal p;
     clientToDelete := clientToDelete p |}.

Definition setShowDeleteModal (b : bool) (p : state) : state :=
  {| clients := clients p; error := error p; showDeleteModal := b;
     clientToDelete := clientToDelete p |}.

Definition setClientToDelete (c : option ClientProfile.t) (p : state) : state :=
  {| clients := clients p; error := error p; showDeleteModal := showDeleteModal p;
     clientToDelete := c |}.

(** [fetchClients]; the order of the list is not modelled. *)
Definition fetchClients (fault : option string) : AsyncSite state unit :=
  lift (set_state (setError None));;
  try_catch_site
    (sel ← lift (request (Select "clients" None) fault Pg.select_clients);
     match sel with
     | inl fetchError => lift (throw (Js.Thrown fetchError))
     | inr rows =>
         lift (set_state (setClients ((fun kr => ClientProfile.of_row (fst kr) (snd kr))
                                        <$> rows)))
     end)
    (fun err =>
       lift (log (console_error "Error fetching clients:" (Some err)));;
       lift (set_state (setError (Some (Js.or_str (Js.message err)
                                          "Failed to fetch clients."))))).

Definition handleDeleteRequest (client : ClientProfile.t) (p : state) : state :=
  setShowDeleteModal true (setClientToDelete (Some client) p).

(** [confirmDelete]; [p] is the state the handler closes over. *)
Definition confirmDelete (p : state) (fault : option string) : AsyncSite state unit :=
  match clientToDelete p with
  | None => mret tt
  | Some toDelete =>
      try_catch_site
        (del ← request_site (DeleteClient (ClientProfile.id toDelete)) fault
                 (delete_client (ClientProfile.id toDelete));
         match del with
         | inl deleteError => lift (throw (Js.Thrown deleteError))
         | inr _ =>
             lift (set_state (setClients
                                (filter (fun c => ClientProfile.id c
                                                  <> ClientProfile.id toDelete)
                                   (clients p))));;
             lift (set_state (setShowDeleteModal false));;
             lift (set_state (setClientToDelete None))
         end)
        (fun err =>
           lift (log (console_error "Error deleting client:" (Some err)));;
           lift (set_state (setError (Some (Js.or_str (Js.message err)
                                              "Failed to delete client.")))))
  end.

End ManageClientsPage.

(** ** Admin: the paged lists (ListMitigationEntriesPage, ListConsumptionEntriesPage) *)

Module Pagination.

Definition ENTRIES_PER_PAGE : Z := 15.

(** The arguments of [.range(page * ENTRIES_PER_PAGE,
    (page + 1) * ENTRIES_PER_PAGE - 1)]. *)
Definition range_from (page : Z) : Z := (page * ENTRIES_PER_PAGE)%Z.

Definition range_to (page : Z) : Z := ((page + 1) * ENTRIES_PER_PAGE - 1)%Z.

(** [.range(from, to)] on the ordered result of a query: the rows at the
    offsets [from] to [to], both included. *)
Definition range {A} (from to : Z) (rows : list A) : list A :=
  take (Z.to_nat (to - from + 1)) (drop (Z.to_nat from) rows).

(** The rows a page shows. *)
Definition entries {A} (page : Z) (rows : list A) : list A :=
  range (range_from page) (range_to page) rows.

(** [Math.ceil(totalCount / ENTRIES_PER_PAGE)]; on counts the quotient of
    the floating-point division is exact enough for [Math.ceil]. *)
Definition totalPages (totalCount : Z) : Z :=
  (- ((- totalCount) / ENTRIES_PER_PAGE))%Z.

(** The Previous and Next buttons. *)
Definition previous (p : Z) : Z := Z.max 0 (p - 1).

Definition next (totalPages p : Z) : Z := Z.min (totalPages - 1) (p + 1).

End Pagination.

(** ** Concrete data for the examples on a site *)

Module SiteScenario.

Definition site (d : Pg.Db) : Site :=
  {| world := Scenario.world d; petgas_consumption_entries := ∅; requests := [] |}.

Definition consumption_page (liters : string) : ConsumptionForm.state :=
  {| ConsumptionForm.user := Some Scenario.user1;
     ConsumptionForm.profile := Some (ClientProfile.of_row "c1" (Scenario.alice 0));
     ConsumptionForm.litersConsumed := liters;
     ConsumptionForm.consumptionMessage := "";
     ConsumptionForm.consumptionError := "" |}.

Definition consumption_env : ConsumptionForm.env :=
  {| ConsumptionForm.db_now := "2025-04-02T00:00:00Z";
     ConsumptionForm.entry_uuid := "p1";
     ConsumptionForm.insert_fault := None |}.

(** The site of the store in use, with a consumption entry of each client. *)
Definition populated : Site :=
  {| world := Scenario.populated_world;
     petgas_consumption_entries :=
       {[ "p7" := {| ConsumptionEntry.client_id := "c1";
                     ConsumptionEntry.liters_consumed := Js.parseFloat "40.5";
                     ConsumptionEntry.transaction_date := "2025-01-04T00:00:00Z" |};
          "p8" := {| ConsumptionEntry.client_id := "c2";
                     ConsumptionEntry.liters_consumed := Js.parseFloat "8";
                     ConsumptionEntry.transaction_date := "2025-01-04T00:00:00Z" |} ]};
     requests := [] |}.

(** The list of clients as loaded, with Delete pressed on client [k]. *)
Definition clients_page (k : string) (t : Site) : ManageClientsPage.state * Site :=
  let pt := run_site (ManageClientsPage.fetchClients None)
              {| ManageClientsPage.clients := []; ManageClientsPage.error := None;
                 ManageClientsPage.showDeleteModal := false;
                 ManageClientsPage.clientToDelete := None |} t in
  match list_find (fun c => ClientProfile.id c = k) (ManageClientsPage.clients (fst pt)) with
  | Some (_, c) => (ManageClientsPage.handleDeleteRequest c (fst pt), snd pt)
  | None => pt
  end.

End SiteScenario.

Module Consumption := ConsumptionForm.
Module Clients := ManageClientsPage.

(** * Properties *)

(** ** Auxiliary facts *)

(** [parseFloat] at some texts: 0.1 and 12.5 as binary64 values; a decimal
    that is too small is 0 and one that is too large is Infinity; a no-break
    space (U+00A0, the bytes 194 and 160) before the digits is skipped. *)
Lemma parseFloat_examples :
  Js.parseFloat "0.1" = Js.Finite false 7205759403792794 (-56)
  /\ Js.parseFloat "12.5" = Js.Finite false 7036874417766400 (-49)
  /\ Js.parseFloat "1e-400" = Js.Zero false
  /\ Js.parseFloat "1e999" = Js.Infinity false
  /\ Js.parseFloat (String "194" (String "160" "7")) = Js.Finite false 7881299347898368 (-50)
  /\ Js.parseFloat "abc" = Js.NaN.
Proof. vm_compute. repeat split; reflexivity. Qed.

(** Unfolds one layer of the [Async] combinators. *)
Ltac step_async :=
  unfold run, mbind, Async_bind, mret, Async_ret, set_state, try_catch, throw, log,
    request; simpl.

Section LedgerPoints.
Implicit Types (d : Pg.Db) (c k : string) (row : Pg.ClientReward.row).

Let add d c := fun (_ : string) row (acc : Z) =>
  if decide (Pg.ClientReward.client_id row = c) then (point_value d row + acc)%Z else acc.

Lemma add_comm d c k1 k2 row1 row2 (acc : Z) :
  add d c k1 row1 (add d c k2 row2 acc) = add d c k2 row2 (add d c k1 row1 acc).
Proof. unfold add. repeat case_decide; lia. Qed.

Lemma ledger_points_insert d c k row :
  Pg.client_rewards d !! k = None ->
  ledger_points c (Pg.with_client_rewards (<[k := row]> (Pg.client_rewards d)) d)
  = if decide (Pg.ClientReward.client_id row = c)
    then (point_value d row + ledger_points c d)%Z else ledger_points c d.
Proof.
  intros Hk. unfold ledger_points. simpl.
  rewrite map_fold_insert_L; [done | | done].
  intros j1 j2 z1 z2 y _ _ _. apply (add_comm d c j1 j2).
Qed.

Lemma ledger_points_delete d c k row :
  Pg.client_rewards d !! k = Some row ->
  ledger_points c d
  = if decide (Pg.ClientReward.client_id row = c)
    then (point_value d row
          + ledger_points c (Pg.with_client_rewards (delete k (Pg.client_rewards d)) d))%Z
    else ledger_points c (Pg.with_client_rewards (delete k (Pg.client_rewards d)) d).
Proof.
  intros Hk. unfold ledger_points. simpl.
  rewrite (map_fold_delete_L _ _ k row (Pg.client_rewards d)); [done | | done].
  intros j1 j2 z1 z2 y _ _ _. apply (add_comm d c j1 j2).
Qed.

Lemma ledger_points_with_clients d c t :
  ledger_points c (Pg.with_clients t d) = ledger_points c d.
Proof. reflexivity. Qed.

End LedgerPoints.

(** *** What the store answers *)

Lemma insert_client_reward_inv (fault : option string) (k : string)
    (row : Pg.ClientReward.row) (d d1 : Pg.Db) :
  Pg.outcome fault (Pg.insert_client_reward k row) d = inr (tt, d1) ->
  fault = None
  /\ is_Some (Pg.clients d !! Pg.ClientReward.client_id row)
  /\ is_Some (Pg.rewards d !! Pg.ClientReward.reward_id row)
  /\ Pg.client_rewards d !! k = None
  /\ d1 = Pg.with_client_rewards (<[k := row]> (Pg.client_rewards d)) d.
Proof.
  unfold Pg.outcome, Pg.insert_client_reward. destruct fault; [done |].
  repeat case_bool_decide; try done.
  intros [= <-]. repeat split; try done.
  - by apply not_eq_None_Some.
  - by apply not_eq_None_Some.
  - by apply eq_None_not_Some.
Qed.

Lemma update_balance_inv (fault : option string) (c : string) (b : Z) (t : string)
    (d d2 : Pg.Db) :
  Pg.outcome fault (Pg.update_balance c b t) d = inr (tt, d2) ->
  d2 = Pg.with_clients (alter (Pg.set_balance b t) c (Pg.clients d)) d.
Proof.
  unfold Pg.outcome, Pg.update_balance. destruct fault; [done |]. by intros [= <-].
Qed.

Lemma delete_client_reward_inv (fault : option string) (k : string) (d d1 : Pg.Db) :
  Pg.outcome fault (Pg.delete_client_reward k) d = inr (tt, d1) ->
  fault = None /\ d1 = Pg.with_client_rewards (delete k (Pg.client_rewards d)) d.
Proof.
  unfold Pg.outcome, Pg.delete_client_reward. destruct fault; [done |].
  by intros [= <-].
Qed.

Lemma update_balance_single_inv (fault : option string) (c : string) (b : Z) (t : string)
    (d d2 : Pg.Db) (row : Pg.Client.row) :
  Pg.outcome fault (Pg.update_balance_single c b t) d = inr (row, d2) ->
  exists old, Pg.clients d !! c = Some old
              /\ row = Pg.set_balance b t old
              /\ d2 = Pg.with_clients (<[c := row]> (Pg.clients d)) d.
Proof.
  unfold Pg.outcome, Pg.update_balance_single. destruct fault; [done |].
  destruct (Pg.clients d !! c) as [old |] eqn:Hold; [| done].
  intros [= <- <-]. by exists old.
Qed.


Lemma referenced_spec (reward : string) (d : Pg.Db) :
  Pg.referenced reward d = true
  <-> exists k row, Pg.client_rewards d !! k = Some row
                    /\ Pg.ClientReward.reward_id row = reward.
Proof.
  unfold Pg.referenced. rewrite bool_decide_eq_true. unfold map_Exists. naive_solver.
Qed.

(** ** Assignment and revocation: every way the handlers can end *)

(** After a ledger insert that succeeded and a balance update that failed,
    [handleSubmit] reports the balance error, logs the inconsistency, and
    leaves the store as the insert left it. *)
Lemma handleSubmit_partial_failure (p : Assign.state) (w : World) (e : Assign.env)
    (c : Assign.ClientOption.t) (r : Assign.RewardOption.t) (d1 : Pg.Db)
    (err : Js.PostgrestError) :
  Assign.selectedClient p = Some c ->
  Assign.selectedReward p = Some r ->
  Pg.outcome (Assign.insert_fault e) (Assign.ledger_write p e c r) (db w) = inr (tt, d1) ->
  Pg.outcome (Assign.update_fault e) (Assign.balance_write e c r) d1 = inl err ->
  let pw := run (Assign.handleSubmit p e) p w in
  Assign.error (fst pw) = Some (Assign.balance_error (Js.pg_message err))
  /\ Assign.successMessage (fst pw) = None
  /\ console (snd pw) =
       (console w ++ [console_error Assign.partial_failure_log (Some (Js.Thrown err));
                      console_error "Error in reward assignment process:"
                        (Some (Js.Error (Assign.balance_error (Js.pg_message err))))])%list
  /\ db (snd pw) = d1
  /\ links (db (snd pw)) (Assign.uuid e) (Assign.ClientOption.value c)
       (Assign.RewardOption.value r)
  /\ Pg.clients (db (snd pw)) = Pg.clients (db w).
Proof.
  intros Hc Hr Hins Hupd. unfold Assign.handleSubmit. rewrite Hc, Hr.
  step_async. rewrite Hins. simpl. rewrite Hupd. simpl.
  apply insert_client_reward_inv in Hins as (_ & _ & _ & _ & ->).
  rewrite <- app_assoc. repeat split; try done.
  exists (Assign.ledger_row p e c r). simpl. by rewrite lookup_insert_eq.
Qed.

(** The four ways [handleSubmit] can end: nothing selected, the insert
    refused, the insert done and the update refused, both done. *)
Lemma handleSubmit_cases (p : Assign.state) (w : World) (e : Assign.env) :
  let pw := run (Assign.handleSubmit p e) p w in
  ((Assign.selectedClient p = None \/ Assign.selectedReward p = None)
   /\ Assign.error (fst pw) = Some "Please select a client and a reward."
   /\ snd pw = w)
  \/ exists c r,
       Assign.selectedClient p = Some c /\ Assign.selectedReward p = Some r /\
       ((exists err,
           Pg.outcome (Assign.insert_fault e) (Assign.ledger_write p e c r) (db w) = inl err
           /\ Assign.error (fst pw) = Some (Assign.insert_error (Js.pg_message err))
           /\ db (snd pw) = db w)
        \/ (exists d1 err,
              Pg.outcome (Assign.insert_fault e) (Assign.ledger_write p e c r) (db w)
              = inr (tt, d1)
              /\ Pg.outcome (Assign.update_fault e) (Assign.balance_write e c r) d1 = inl err
              /\ Assign.error (fst pw) = Some (Assign.balance_error (Js.pg_message err))
              /\ db (snd pw) = d1)
        \/ (exists d1 d2,
              Pg.outcome (Assign.insert_fault e) (Assign.ledger_write p e c r) (db w)
              = inr (tt, d1)
              /\ Pg.outcome (Assign.update_fault e) (Assign.balance_write e c r) d1
                 = inr (tt, d2)
              /\ Assign.error (fst pw) = None
              /\ db (snd pw) = d2)).
Proof.
  unfold Assign.handleSubmit.
  destruct (Assign.selectedClient p) as [c |] eqn:Hc;
    [destruct (Assign.selectedReward p) as [r |] eqn:Hr |].
  - right. exists c, r. split; [done |]. split; [done |].
    step_async.
    destruct (Pg.outcome (Assign.insert_fault e) (Assign.ledger_write p e c r) (db w))
      as [err | [[] d1]] eqn:Hins; simpl.
    + left. by exists err.
    + destruct (Pg.outcome (Assign.update_fault e) (Assign.balance_write e c r) d1)
        as [err | [[] d2]] eqn:Hupd; simpl.
      * right. left. by exists d1, err.
      * right. right. by exists d1, d2.
  - left. step_async. by repeat split; eauto.
  - left. step_async. by repeat split; eauto.
Qed.

(** The four ways [confirmRevokeReward] can end when a reward is pending on
    a page that shows a client: the delete refused, the joined reward
    missing, the delete done and the update refused, both done. *)
Lemma confirmRevokeReward_cases (p : View.state) (w : World) (e : View.env)
    (t : View.ObtainedReward.t) (cl : ClientProfile.t) :
  View.clientRewardToRevoke p = Some t ->
  View.client p = Some cl ->
  let pw := run (View.confirmRevokeReward p e) p w in
  (exists err, Pg.outcome (View.delete_fault e) (View.ledger_write t) (db w) = inl err
      /\ View.revokeError (fst pw) = Some (View.delete_error (Js.pg_message err))
      /\ db (snd pw) = db w)
  \/ (exists d1, Pg.outcome (View.delete_fault e) (View.ledger_write t) (db w) = inr (tt, d1)
        /\ View.ObtainedReward.rewards t = None
        /\ View.revokeError (fst pw)
           = Some "Cannot read properties of null (reading 'pgc_amount')"
        /\ db (snd pw) = d1)
  \/ (exists d1 rw err,
        Pg.outcome (View.delete_fault e) (View.ledger_write t) (db w) = inr (tt, d1)
        /\ View.ObtainedReward.rewards t = Some rw
        /\ Pg.outcome (View.update_fault e) (View.balance_write e cl rw) d1 = inl err
        /\ View.revokeError (fst pw)
           = Some (View.balance_error (Js.pg_message err) (ClientProfile.email cl))
        /\ console (snd pw) =
             (console w ++
                [console_error View.partial_failure_log (Some (Js.Thrown err));
                 console_error "Error revoking reward:"
                   (Some (Js.Error (View.balance_error (Js.pg_message err)
                                      (ClientProfile.email cl))))])%list
        /\ View.clientRewardToRevoke (fst pw) = Some t
        /\ db (snd pw) = d1)
  \/ (exists d1 rw row d2,
        Pg.outcome (View.delete_fault e) (View.ledger_write t) (db w) = inr (tt, d1)
        /\ View.ObtainedReward.rewards t = Some rw
        /\ Pg.outcome (View.update_fault e) (View.balance_write e cl rw) d1 = inr (row, d2)
        /\ fst pw =
             View.setClientRewardToRevoke None
               (View.setShowRevokeModal false
                  (View.setObtainedRewards
                     (filter (fun r => View.ObtainedReward.id r <> View.ObtainedReward.id t)
                        (View.obtainedRewards p))
                     (View.setClient
                        (Some (ClientProfile.of_row (ClientProfile.id cl) row))
                        (View.setRevokeError None p))))
        /\ calls (snd pw) =
             (calls w ++ [DeleteClientReward (View.ObtainedReward.id t);
                          UpdateBalance (ClientProfile.id cl) (View.newPgcBalance cl rw)])%list
        /\ db (snd pw) = d2).
Proof.
  intros Ht Hcl. unfold View.confirmRevokeReward. rewrite Ht, Hcl. step_async.
  destruct (Pg.outcome (View.delete_fault e) (View.ledger_write t) (db w))
    as [err | [[] d1]] eqn:Hdel; simpl.
  { left. by exists err. }
  right. destruct (View.ObtainedReward.rewards t) as [rw |] eqn:Hrw; simpl.
  2:{ left. by exists d1. }
  right.
  destruct (Pg.outcome (View.update_fault e) (View.balance_write e cl rw) d1)
    as [err | [row d2]] eqn:Hupd; simpl.
  - left. exists d1, rw, err. rewrite <- app_assoc. by repeat split.
  - right. exists d1, rw, row, d2. rewrite <- app_assoc. by repeat split.
Qed.

(** What a successful [fetchData] leaves on the page. *)
Lemma fetchData_reads (fe : Assign.fetch_env) (p0 : Assign.state) (w0 : World) :
  let loaded := run (Assign.fetchData fe) p0 w0 in
  Assign.error (fst loaded) = None ->
  calls (snd loaded) = (calls w0 ++ [Select "clients" None; Select "rewards" None])%list
  /\ db (snd loaded) = db w0
  /\ Assign.clients (fst loaded) = Assign.client_option <$> map_to_list (Pg.clients (db w0))
  /\ Assign.rewards (fst loaded) = Assign.reward_option <$> map_to_list (Pg.rewards (db w0)).
Proof.
  unfold Assign.fetchData. step_async. unfold Pg.outcome.
  destruct (Assign.clients_fault fe) as [m1 |]; simpl; [done |].
  destruct (Assign.rewards_fault fe) as [m2 |]; simpl; [done |].
  intros _. rewrite <- app_assoc. by repeat split.
Qed.

(** ** Balance and ledger *)

(** An assignment submitted from a page whose cached balance and point value
    are those of the store keeps the balance of the client equal to the sum
    of the entries the client holds, and touches no other client. *)
Lemma assign_from_current_page_keeps_invariant (p : Assign.state) (w : World)
    (e : Assign.env) (c : Assign.ClientOption.t) (r : Assign.RewardOption.t)
    (row : Pg.Reward.row) :
  Assign.selectedClient p = Some c ->
  Assign.selectedReward p = Some r ->
  Assign.error (fst (run (Assign.handleSubmit p e) p w)) = None ->
  Pg.rewards (db w) !! Assign.RewardOption.value r = Some row ->
  Assign.RewardOption.pgc_amount r = Pg.Reward.pgc_amount row ->
  Assign.ClientOption.current_pgc_balance c
  = ledger_points (Assign.ClientOption.value c) (db w) ->
  let pw := run (Assign.handleSubmit p e) p w in
  stored_balance (Assign.ClientOption.value c) (db (snd pw))
  = Some (ledger_points (Assign.ClientOption.value c) (db (snd pw)))
  /\ forall c', c' <> Assign.ClientOption.value c ->
       stored_balance c' (db (snd pw)) = stored_balance c' (db w)
       /\ ledger_points c' (db (snd pw)) = ledger_points c' (db w).
Proof.
  intros Hc Hr Hok Hrow Hamount Hcur pw.
  destruct (handleSubmit_cases p w e)
    as [([H | H] & _) | (c0 & r0 & Hc0 & Hr0 & [(err & _ & H & _) | [H | H]])];
    try congruence.
  { destruct H as (d1 & err & _ & _ & H & _). congruence. }
  destruct H as (d1 & d2 & Hins & Hupd & _ & Hdb). fold pw in Hdb.
  rewrite Hc in Hc0. injection Hc0 as <-. rewrite Hr in Hr0. injection Hr0 as <-.
  apply insert_client_reward_inv in Hins as (_ & [crow Hcrow] & _ & Hfresh & ->).
  apply update_balance_inv in Hupd as ->. rewrite Hdb. simpl in *. split.
  - unfold stored_balance. simpl. rewrite lookup_alter_eq, Hcrow. simpl.
    rewrite ledger_points_with_clients, ledger_points_insert by done. simpl.
    rewrite decide_True by done.
    unfold Assign.newPgcBalance, point_value. simpl. rewrite Hrow. simpl.
    rewrite Hcur, Hamount. f_equal. lia.
  - intros c' Hc'. split.
    + unfold stored_balance. simpl. by rewrite lookup_alter_ne.
    + rewrite ledger_points_with_clients, ledger_points_insert by done. simpl.
      by rewrite decide_False.
Qed.

(** With positive point values no ledger sum is negative. *)
Lemma ledger_points_nonneg (c : string) (d : Pg.Db) :
  checked d -> (0 <= ledger_points c d)%Z.
Proof.
  intros Hchk. unfold ledger_points.
  apply (map_fold_weak_ind (fun acc _ => (0 <= acc)%Z)); [done |].
  intros k row m acc _ Hacc. case_decide; [| done].
  unfold point_value. destruct (Pg.rewards d !! _) as [r |] eqn:Hr; simpl; [| lia].
  specialize (Hchk _ _ Hr). lia.
Qed.

(** What [fetchData] leaves on a page that was empty. *)
Lemma fetchData_page (fe : Assign.fetch_env) (w : World) :
  let loaded := run (Assign.fetchData fe) Assign.initial w in
  db (snd loaded) = db w
  /\ Assign.selectedClient (fst loaded) = None
  /\ (Assign.clients (fst loaded) = []
      \/ Assign.clients (fst loaded)
         = Assign.client_option <$> map_to_list (Pg.clients (db w)))
  /\ (Assign.rewards (fst loaded) = []
      \/ Assign.rewards (fst loaded)
         = Assign.reward_option <$> map_to_list (Pg.rewards (db w))).
Proof.
  unfold Assign.fetchData. step_async. unfold Pg.outcome.
  destruct (Assign.clients_fault fe) as [m1 |]; simpl; [by repeat split; auto |].
  destruct (Assign.rewards_fault fe) as [m2 |]; simpl; by repeat split; auto.
Qed.

(** An assignment from a freshly loaded page keeps every balance in step. *)
Lemma perform_assign_in_step (c r : string) (fe : Assign.fetch_env) (e : Assign.env)
    (w w' : World) :
  in_step (db w) ->
  perform (AssignOp c r fe e) w = (None, w') ->
  in_step (db w') /\ Pg.rewards (db w') = Pg.rewards (db w).
Proof.
  intros Hin. unfold perform.
  destruct (fetchData_page fe w) as (Hdb & _ & Hcl & Hrw).
  set (loaded := run (Assign.fetchData fe) Assign.initial w) in *.
  set (p := Assign.choose c r (fst loaded)).
  intros [= Herr <-].
  destruct (handleSubmit_cases p (snd loaded) e)
    as [(_ & H & _) | (co & ro & Hco & Hro & [(err & _ & H & _) | [H | H]])];
    try congruence.
  { destruct H as (d1 & err & _ & _ & H & _). congruence. }
  destruct H as (d1 & d2 & Hins & Hupd & _ & Hd2).
  (* the options picked are listed, hence read from the store *)
  assert (Hco' : exists row, Pg.clients (db w) !! Assign.ClientOption.value co = Some row
                   /\ Assign.ClientOption.current_pgc_balance co
                      = Js.or_zero (Pg.Client.pgc_balance row)).
  { unfold p, Assign.choose in Hco. simpl in Hco.
    destruct (list_find _ (Assign.clients (fst loaded))) as [[i x] |] eqn:Hf;
      [| done].
    injection Hco as ->. apply list_find_Some in Hf as (Hx & _ & _).
    apply list_elem_of_lookup_2 in Hx.
    destruct Hcl as [Hcl | Hcl]; rewrite Hcl in Hx; [by apply elem_of_nil in Hx |].
    apply list_elem_of_fmap in Hx as ([k row] & -> & Hk).
    apply elem_of_map_to_list in Hk. by exists row. }
  assert (Hro' : exists row, Pg.rewards (db w) !! Assign.RewardOption.value ro = Some row
                   /\ Assign.RewardOption.pgc_amount ro = Pg.Reward.pgc_amount row).
  { unfold p, Assign.choose in Hro. simpl in Hro.
    destruct (list_find _ (Assign.rewards (fst loaded))) as [[i x] |] eqn:Hf;
      [| done].
    injection Hro as ->. apply list_find_Some in Hf as (Hx & _ & _).
    apply list_elem_of_lookup_2 in Hx.
    destruct Hrw as [Hrw | Hrw]; rewrite Hrw in Hx; [by apply elem_of_nil in Hx |].
    apply list_elem_of_fmap in Hx as ([k row] & -> & Hk).
    apply elem_of_map_to_list in Hk. by exists row. }
  destruct Hco' as (crow & Hcrow & Hcur). destruct Hro' as (rrow & Hrrow & Hamt).
  rewrite Hdb in Hins.
  apply insert_client_reward_inv in Hins as (_ & _ & _ & Hfresh & ->).
  apply update_balance_inv in Hupd as ->. rewrite Hd2. simpl. split; [| done].
  intros c' row'. simpl. intros Hrow'.
  rewrite ledger_points_with_clients, ledger_points_insert by done. simpl.
  destruct (decide (Assign.ClientOption.value co = c')) as [<- | Hne].
  - rewrite lookup_alter_eq, Hcrow in Hrow'. injection Hrow' as <-. simpl.
    unfold Assign.newPgcBalance, point_value. simpl. rewrite Hrrow. simpl.
    rewrite Hcur, Hamt, (Hin _ _ Hcrow). lia.
  - rewrite lookup_alter_ne in Hrow' by done. by apply Hin.
Qed.

(** What [fetchAllClientData] leaves on a page that was empty: nothing is
    listed, or the client and the rewards are those of the store. *)
Lemma fetchAllClientData_page (c : string) (fe : View.fetch_env) (w : World) :
  let loaded := run (View.fetchAllClientData c fe) View.initial w in
  db (snd loaded) = db w
  /\ (View.obtainedRewards (fst loaded) = []
      \/ exists row,
           Pg.clients (db w) !! c = Some row
           /\ View.client (fst loaded) = Some (ClientProfile.of_row c row)
           /\ View.obtainedRewards (fst loaded)
              = View.obtained
                  <$> ((fun kr => (kr, Pg.rewards (db w)
                                         !! Pg.ClientReward.reward_id (snd kr)))
                         <$> filter (fun kr => Pg.ClientReward.client_id (snd kr) = c)
                               (map_to_list (Pg.client_rewards (db w))))).
Proof.
  unfold View.fetchAllClientData. destruct (Js.not_str c); [by split; auto |].
  step_async. unfold Pg.outcome.
  destruct (View.client_fault fe) as [m1 |]; simpl; [by split; auto |].
  unfold Pg.select_client.
  destruct (Pg.clients (db w) !! c) as [row |] eqn:Hrow; simpl; [| by split; auto].
  destruct (View.mitigation_fault fe) as [m2 |]; simpl; [by split; auto |].
  destruct (View.consumption_fault fe) as [m3 |]; simpl; [by split; auto |].
  destruct (View.rewards_fault fe) as [m4 |]; simpl; [by split; auto |].
  split; [done |]. right. by exists row.
Qed.

(** A revocation from a freshly loaded page keeps every balance in step. *)
Lemma perform_revoke_in_step (c k : string) (fe : View.fetch_env) (e : View.env)
    (w w' : World) :
  checked (db w) ->
  in_step (db w) ->
  perform (RevokeOp c k fe e) w = (None, w') ->
  in_step (db w') /\ Pg.rewards (db w') = Pg.rewards (db w).
Proof.
  intros Hchk Hin. unfold perform.
  destruct (fetchAllClientData_page c fe w) as (Hdb & Hlist).
  set (loaded := run (View.fetchAllClientData c fe) View.initial w) in *.
  destruct (list_find _ (View.obtainedRewards (fst loaded))) as [[i t] |] eqn:Hf.
  2:{ intros [= _ <-]. by rewrite Hdb. }
  apply list_find_Some in Hf as (Ht & Hk & _). apply list_elem_of_lookup_2 in Ht.
  destruct Hlist as [Hnil | (row & Hrow & Hcl & Hlist)];
    [rewrite Hnil in Ht; by apply elem_of_nil in Ht |].
  rewrite Hlist in Ht.
  apply list_elem_of_fmap in Ht as ([[k' lrow] rw] & -> & Ht).
  apply list_elem_of_fmap in Ht as ([k'' lrow'] & [= -> -> ->] & Ht).
  apply list_elem_of_filter in Ht as [Hclient Hlrow]. simpl in Hclient.
  apply elem_of_map_to_list in Hlrow. simpl in Hk.
  set (t := View.obtained (k'', lrow', Pg.rewards (db w) !! Pg.ClientReward.reward_id lrow')).
  set (p := View.handleRevokeRequest t (fst loaded)).
  intros [= Herr <-].
  destruct (confirmRevokeReward_cases p (snd loaded) e t (ClientProfile.of_row c row)
              eq_refl Hcl)
    as [(err' & _ & H & _) | [(d' & _ & _ & H & _) | [H | H]]];
    try congruence.
  { destruct H as (d1 & rw' & err & _ & _ & _ & H & _). congruence. }
  destruct H as (d1 & rw & urow & d2 & Hdel & Hrw & Hupd & _ & _ & Hd2).
  rewrite Hdb in Hdel.
  apply delete_client_reward_inv in Hdel as (_ & ->).
  apply update_balance_single_inv in Hupd as (old & Hold & -> & ->).
  simpl in Hold. rewrite Hrow in Hold. injection Hold as <-.
  rewrite Hd2. simpl. split; [| done].
  (* the point value the page holds is the one of the ledger row *)
  assert (Hv : View.JoinedReward.pgc_amount rw = point_value (db w) lrow').
  { unfold t in Hrw. simpl in Hrw. unfold point_value.
    destruct (Pg.rewards (db w) !! _) as [rrow |]; [| done].
    by injection Hrw as <-. }
  set (dd := Pg.with_client_rewards (delete k'' (Pg.client_rewards (db w))) (db w)).
  pose proof (ledger_points_nonneg c dd Hchk) as Hnn.
  intros c' row'. simpl. intros Hrow'. rewrite ledger_points_with_clients.
  destruct (decide (c = c')) as [<- | Hne].
  - rewrite lookup_insert_eq in Hrow'. injection Hrow' as <-. simpl.
    unfold View.newPgcBalance. simpl. rewrite Hv, (Hin _ _ Hrow).
    rewrite (ledger_points_delete (db w) c k'' lrow' Hlrow).
    rewrite decide_True by done. fold dd. lia.
  - rewrite lookup_insert_ne in Hrow' by done.
    rewrite (Hin _ _ Hrow'), (ledger_points_delete (db w) c' k'' lrow' Hlrow).
    rewrite decide_False by congruence. done.
Qed.

Lemma checked_same_rewards (d d' : Pg.Db) :
  Pg.rewards d' = Pg.rewards d -> checked d -> checked d'.
Proof. unfold checked. intros ->. done. Qed.

(** When the page is reloaded before each action, balance and ledger stay in
    step along every run whose actions all succeed.  The point values are
    the whole numbers of the stores covered here. *)
Theorem reloading_runs_stay_in_step (ops : list Op) :
  forall w : World,
    checked (db w) ->
    in_step (db w) ->
    fst (perform_all ops w) = true ->
    in_step (db (snd (perform_all ops w))).
Proof.
  induction ops as [| o rest IH]; intros w Hchk Hin Hok; simpl in *; [done |].
  destruct (perform o w) as [[msg |] w'] eqn:Hstep; [done |].
  assert (in_step (db w') /\ Pg.rewards (db w') = Pg.rewards (db w)) as [Hin' Hrw].
  { destruct o as [c r fe e | c k fe e].
    - by apply (perform_assign_in_step c r fe e w w').
    - by apply (perform_revoke_in_step c k fe e w w'). }
  apply IH; [by apply (checked_same_rewards (db w)) | done | done].
Qed.

(** A store with an empty ledger and zero (or NULL) balances is in step. *)
Lemma zero_start_in_step (d : Pg.Db) :
  Pg.client_rewards d = ∅ ->
  (forall c row, Pg.clients d !! c = Some row ->
                 Js.or_zero (Pg.Client.pgc_balance row) = 0%Z) ->
  in_step d.
Proof.
  intros Hempty Hzero c row Hrow. rewrite (Hzero c row Hrow).
  unfold ledger_points. rewrite Hempty. by rewrite map_fold_empty.
Qed.

(** C1 (the code departs from it).  Property: starting from a zero balance,
    after any sequence of successful assignments and revocations the stored
    balance equals the sum of the point values of the entries the client
    holds.  Here the assignment page is loaded once for a client with balance
    0 and no entry, and the 10-point reward is assigned to the client twice:
    both submissions succeed, the client then holds two entries worth 20
    points, and the stored balance is 10, because the second submission adds
    the point value to the balance the page read when it was loaded.  Had
    the page been reloaded before the second submission, the balance would
    be 20. *)
Theorem assign_twice_balance_diverges :
  let loaded := Scenario.assign_page (Scenario.world (Scenario.store 0 ∅)) in
  let first := Scenario.assign "c1" "r10" (Scenario.assign_env "cr1" None) loaded in
  let second := Scenario.assign "c1" "r10" (Scenario.assign_env "cr2" None) first in
  let reloaded := Scenario.assign "c1" "r10" (Scenario.assign_env "cr2" None)
                    (Scenario.assign_page (snd first)) in
  stored_balance "c1" (Scenario.store 0 ∅) = Some 0%Z
  /\ ledger_points "c1" (Scenario.store 0 ∅) = 0%Z
  /\ Assign.error (fst first) = None
  /\ stored_balance "c1" (db (snd first)) = Some 10%Z
  /\ ledger_points "c1" (db (snd first)) = 10%Z
  /\ Assign.error (fst second) = None
  /\ is_Some (Assign.successMessage (fst second))
  /\ links (db (snd second)) "cr1" "c1" "r10"
  /\ links (db (snd second)) "cr2" "c1" "r10"
  /\ stored_balance "c1" (db (snd second)) = Some 10%Z
  /\ ledger_points "c1" (db (snd second)) = 20%Z
  /\ stored_balance "c1" (db (snd reloaded)) = Some 20%Z
  /\ ledger_points "c1" (db (snd reloaded)) = 20%Z.
Proof.
  vm_compute. repeat split; eauto.
Qed.

(** C2, as stated, fails: the handlers have no kinds of error.  The
    10-point reward is assigned to a client whose balance is 0; in one run
    the update of the balance times out after the ledger entry was written,
    in the other the insert of the ledger entry itself times out.  In both
    runs the one [catch] clause of [handleSubmit] receives a plain [Error],
    and what the page keeps of the failure is the text of its message.  The
    same holds for a revocation whose update, or whose delete, times out.
    The error of the partial failure and the error of the other failure are
    of the same kind: what tells them apart is the text of the message. *)
Lemma partial_failure_is_a_plain_error :
  let loaded := Scenario.assign_page (Scenario.world (Scenario.store 0 ∅)) in
  let p := Assign.choose "c1" "r10" (fst loaded) in
  let no_insert :=
    {| Assign.now := "2025-02-01T00:00:00Z"; Assign.db_now := "2025-02-01T00:00:01Z";
       Assign.uuid := "cr1"; Assign.insert_fault := Some "timeout";
       Assign.update_fault := None |} in
  let partial := run (Assign.handleSubmit p (Scenario.assign_env "cr1" (Some "timeout"))) p
                   (snd loaded) in
  let other := run (Assign.handleSubmit p no_insert) p (snd loaded) in
  let viewed :=
    Scenario.view_page
      (Scenario.world (Scenario.store 40 {[ "cr1" := Scenario.entry "c1" "r30" ]})) in
  let q := View.handleRevokeRequest (Scenario.listed_voucher "cr1") (fst viewed) in
  let no_delete :=
    {| View.db_now := "2025-03-01T00:00:00Z"; View.delete_fault := Some "timeout";
       View.update_fault := None |} in
  let partial' := run (View.confirmRevokeReward q (Scenario.revoke_env (Some "timeout"))) q
                    (snd viewed) in
  let other' := run (View.confirmRevokeReward q no_delete) q (snd viewed) in
  (links (db (snd partial)) "cr1" "c1" "r10"
   /\ stored_balance "c1" (db (snd partial)) = Some 0%Z
   /\ caught (snd partial)
      = Some (Js.Error "Updating PGC balance: timeout. Please manually verify client balance.")
   /\ Assign.error (fst partial)
      = Some "Updating PGC balance: timeout. Please manually verify client balance."
   /\ Pg.client_rewards (db (snd other)) = ∅
   /\ caught (snd other) = Some (Js.Error "Assigning reward: timeout")
   /\ Assign.error (fst other) = Some "Assigning reward: timeout"
   /\ (exists e1 e2, caught (snd partial) = Some e1 /\ caught (snd other) = Some e2
                     /\ same_kind e1 e2 = true))
  /\ (Pg.client_rewards (db (snd partial')) = ∅
      /\ stored_balance "c1" (db (snd partial')) = Some 40%Z
      /\ caught (snd partial')
         = Some (Js.Error
                   "Updating PGC balance failed: timeout. Manual PGC adjustment for client alice@example.org might be needed.")
      /\ View.revokeError (fst partial')
         = Some "Updating PGC balance failed: timeout. Manual PGC adjustment for client alice@example.org might be needed."
      /\ is_Some (Pg.client_rewards (db (snd other')) !! "cr1")
      /\ caught (snd other') = Some (Js.Error "Deleting client_reward entry: timeout")
      /\ View.revokeError (fst other') = Some "Deleting client_reward entry: timeout"
      /\ (exists e1 e2, caught (snd partial') = Some e1 /\ caught (snd other') = Some e2
                        /\ same_kind e1 e2 = true)).
Proof. vm_compute. repeat split; eauto 10. Qed.

(** C2, amended.  When the ledger write of an assignment succeeds and the
    balance write that follows fails, [handleSubmit] ends with a plain
    [Error] whose message starts with [Updating PGC balance: ] and carries
    the message of the store; the page shows that text, the inconsistency is
    logged with [console.error], and the store is left as it is, with the
    new ledger entry and the clients table unchanged.  No other way the
    handler can end shows a text that starts like this (second part).
    Symmetrically for [confirmRevokeReward], whose message starts with
    [Updating PGC balance failed: ]: the entry is gone and the clients table
    is unchanged. *)
Theorem partial_failure_is_reported :
  (forall (p : Assign.state) (w : World) (e : Assign.env) (c : Assign.ClientOption.t)
          (r : Assign.RewardOption.t) (d1 : Pg.Db) (err : Js.PostgrestError),
      Assign.selectedClient p = Some c ->
      Assign.selectedReward p = Some r ->
      Pg.outcome (Assign.insert_fault e) (Assign.ledger_write p e c r) (db w)
      = inr (tt, d1) ->
      Pg.outcome (Assign.update_fault e) (Assign.balance_write e c r) d1 = inl err ->
      let pw := run (Assign.handleSubmit p e) p w in
      let text := "Updating PGC balance: " +:+ Js.pg_message err
                    +:+ ". Please manually verify client balance." in
      Assign.error (fst pw) = Some text
      /\ caught (snd pw) = Some (Js.Error text)
      /\ Assign.successMessage (fst pw) = None
      /\ In (console_error
               "Failed to update PGC balance. Client reward was logged, but balance not updated."
               (Some (Js.Thrown err)))
           (console (snd pw))
      /\ links (db (snd pw)) (Assign.uuid e) (Assign.ClientOption.value c)
           (Assign.RewardOption.value r)
      /\ Pg.clients (db (snd pw)) = Pg.clients (db w))
  /\ (forall (p : Assign.state) (w : World) (e : Assign.env) (text : string),
        Assign.error (fst (run (Assign.handleSubmit p e) p w)) = Some text ->
        String.prefix "Updating PGC balance: " text = true ->
        exists c r d1 err,
          Assign.selectedClient p = Some c /\ Assign.selectedReward p = Some r
          /\ Pg.outcome (Assign.insert_fault e) (Assign.ledger_write p e c r) (db w)
             = inr (tt, d1)
          /\ Pg.outcome (Assign.update_fault e) (Assign.balance_write e c r) d1 = inl err)
  /\ (forall (p : View.state) (w : World) (e : View.env) (t : View.ObtainedReward.t)
             (cl : ClientProfile.t) (rw : View.JoinedReward.t) (d1 : Pg.Db)
             (err : Js.PostgrestError),
        View.clientRewardToRevoke p = Some t ->
        View.client p = Some cl ->
        View.ObtainedReward.rewards t = Some rw ->
        Pg.outcome (View.delete_fault e) (View.ledger_write t) (db w) = inr (tt, d1) ->
        Pg.outcome (View.update_fault e) (View.balance_write e cl rw) d1 = inl err ->
        let pw := run (View.confirmRevokeReward p e) p w in
        let text := "Updating PGC balance failed: " +:+ Js.pg_message err
                      +:+ ". Manual PGC adjustment for client " +:+ ClientProfile.email cl
                      +:+ " might be needed." in
        View.revokeError (fst pw) = Some text
        /\ caught (snd pw) = Some (Js.Error text)
        /\ In (console_error "CRITICAL: Reward entry deleted but failed to update PGC balance."
                 (Some (Js.Thrown err)))
             (console (snd pw))
        /\ Pg.client_rewards (db (snd pw)) !! View.ObtainedReward.id t = None
        /\ Pg.clients (db (snd pw)) = Pg.clients (db w))
  /\ (forall (p : View.state) (w : World) (e : View.env) (t : View.ObtainedReward.t)
             (cl : ClientProfile.t) (text : string),
        View.clientRewardToRevoke p = Some t ->
        View.client p = Some cl ->
        View.revokeError (fst (run (View.confirmRevokeReward p e) p w)) = Some text ->
        String.prefix "Updating PGC balance failed: " text = true ->
        exists rw d1 err,
          View.ObtainedReward.rewards t = Some rw
          /\ Pg.outcome (View.delete_fault e) (View.ledger_write t) (db w) = inr (tt, d1)
          /\ Pg.outcome (View.update_fault e) (View.balance_write e cl rw) d1 = inl err).
Proof.
  split; [| split; [| split]].
  - intros p w e c r d1 err Hc Hr Hins Hupd pw text.
    destruct (handleSubmit_partial_failure p w e c r d1 err Hc Hr Hins Hupd)
      as (He & Hs & Hcon & Hdb & Hl & Hcl).
    fold pw in He, Hs, Hcon, Hdb, Hl, Hcl.
    split; [exact He |]. split; [| split; [exact Hs | split; [| split; [exact Hl | exact Hcl]]]].
    + unfold caught. rewrite Hcon.
      rewrite (last_app_cons (console w) [_]). reflexivity.
    + rewrite Hcon. apply in_or_app. right. by left.
  - intros p w e text Herr Hpre.
    destruct (handleSubmit_cases p w e)
      as [(_ & H & _) | (c & r & Hc & Hr & [(err & _ & H & _) | [H | H]])].
    + rewrite H in Herr. injection Herr as <-. vm_compute in Hpre. discriminate.
    + rewrite H in Herr. injection Herr as <-. vm_compute in Hpre. discriminate.
    + destruct H as (d1 & err & Hins & Hupd & _). by exists c, r, d1, err.
    + destruct H as (d1 & d2 & _ & _ & H & _). rewrite H in Herr. discriminate.
  - intros p w e t cl rw d1 err Ht Hcl Hrw Hdel Hupd pw text.
    destruct (confirmRevokeReward_cases p w e t cl Ht Hcl)
      as [(err' & H & _) | [(d' & H & Hn & _) | [H | H]]].
    + rewrite Hdel in H. discriminate.
    + rewrite Hrw in Hn. discriminate.
    + destruct H as (d' & rw' & err' & Hdel' & Hrw' & Hupd' & He & Hcon & _ & Hdb).
      fold pw in He, Hcon, Hdb.
      rewrite Hdel in Hdel'. injection Hdel' as <-.
      rewrite Hrw in Hrw'. injection Hrw' as <-.
      rewrite Hupd in Hupd'. injection Hupd' as <-.
      apply delete_client_reward_inv in Hdel as (_ & ->).
      split; [exact He |]. split; [| split; [| split]].
      * unfold caught. rewrite Hcon.
        rewrite (last_app_cons (console w) [_]). reflexivity.
      * rewrite Hcon. apply in_or_app. right. by left.
      * rewrite Hdb. simpl. apply lookup_delete_eq.
      * by rewrite Hdb.
    + destruct H as (d' & rw' & row & d2 & Hdel' & Hrw' & Hupd' & _).
      rewrite Hdel in Hdel'. injection Hdel' as <-.
      rewrite Hrw in Hrw'. injection Hrw' as <-.
      rewrite Hupd in Hupd'. discriminate.
  - intros p w e t cl text Ht Hcl Herr Hpre.
    destruct (confirmRevokeReward_cases p w e t cl Ht Hcl)
      as [(err' & _ & H & _) | [(d' & _ & _ & H & _) | [H | H]]].
    + rewrite H in Herr. injection Herr as <-. vm_compute in Hpre. discriminate.
    + rewrite H in Herr. injection Herr as <-. vm_compute in Hpre. discriminate.
    + destruct H as (d1 & rw & err & Hdel & Hrw & Hupd & _). by exists rw, d1, err.
    + destruct H as (d1 & rw & row & d2 & _ & _ & _ & H & _).
      rewrite H in Herr. discriminate.
Qed.

(** C2 (amended) at concrete inputs: the update of an assignment, and the
    update of a revocation, time out after the ledger write went through. *)
Lemma partial_failure_is_reported_witness :
  let loaded := Scenario.assign_page (Scenario.world (Scenario.store 0 ∅)) in
  let p := Assign.choose "c1" "r10" (fst loaded) in
  let pw := run (Assign.handleSubmit p (Scenario.assign_env "cr1" (Some "timeout"))) p
              (snd loaded) in
  let viewed :=
    Scenario.view_page
      (Scenario.world (Scenario.store 40 {[ "cr1" := Scenario.entry "c1" "r30" ]})) in
  let q := View.handleRevokeRequest (Scenario.listed_voucher "cr1") (fst viewed) in
  let qw := run (View.confirmRevokeReward q (Scenario.revoke_env (Some "timeout"))) q
              (snd viewed) in
  (Assign.error (fst pw)
   = Some "Updating PGC balance: timeout. Please manually verify client balance."
   /\ links (db (snd pw)) "cr1" "c1" "r10"
   /\ Pg.clients (db (snd pw)) = Pg.clients (db (snd loaded)))
  /\ (View.revokeError (fst qw)
      = Some "Updating PGC balance failed: timeout. Manual PGC adjustment for client alice@example.org might be needed."
      /\ Pg.client_rewards (db (snd qw)) !! "cr1" = None
      /\ Pg.clients (db (snd qw)) = Pg.clients (db (snd viewed))).
Proof.
  intros loaded p pw viewed q qw. split.
  - destruct (proj1 partial_failure_is_reported p (snd loaded)
                (Scenario.assign_env "cr1" (Some "timeout"))
                (Scenario.alice_option 0) Scenario.bottle_option
                (Scenario.store 0
                   {[ "cr1" := Assign.ledger_row p
                                 (Scenario.assign_env "cr1" (Some "timeout"))
                                 (Scenario.alice_option 0) Scenario.bottle_option ]})
                (Pg.unreachable "timeout")
                ltac:(vm_compute; reflexivity) ltac:(vm_compute; reflexivity)
                ltac:(vm_compute; reflexivity) ltac:(vm_compute; reflexivity))
      as (He & _ & _ & _ & Hl & Hc).
    split; [exact He | split; [exact Hl | exact Hc]].
  - destruct (proj1 (proj2 (proj2 partial_failure_is_reported)) q (snd viewed)
                (Scenario.revoke_env (Some "timeout")) (Scenario.listed_voucher "cr1")
                (ClientProfile.of_row "c1" (Scenario.alice 40))
                (View.joined "r30" (Scenario.reward "Voucher" 30))
                (Scenario.store 40 ∅) (Pg.unreachable "timeout")
                ltac:(vm_compute; reflexivity) ltac:(vm_compute; reflexivity)
                ltac:(vm_compute; reflexivity) ltac:(vm_compute; reflexivity)
                ltac:(vm_compute; reflexivity))
      as (He & _ & _ & Hl & Hc).
    split; [exact He | split; [exact Hl | exact Hc]].
Defined.



(** C4, as stated, fails.  Two details pages show the same client (balance
    40, entries cr1 worth 30 and cr2 worth 10).  On the first page both
    entries are revoked, which leaves balance 0 and no entry.  The second
    page still lists cr1; revoking it there is a second revoke of an entry
    that is gone: it ends without error, it is not a no-op, and the stored
    balance goes from 0 to 10. *)
Lemma stale_page_revoke_changes_balance :
  let w0 := Scenario.world
              (Scenario.store 40 {[ "cr1" := Scenario.entry "c1" "r30";
                                    "cr2" := Scenario.entry "c1" "r10" ]}) in
  let tab_a := Scenario.view_page w0 in
  let tab_b := Scenario.view_page (snd tab_a) in
  let a1 := Scenario.revoke "cr1" (Scenario.revoke_env None) (fst tab_a) (snd tab_b) in
  let a2 := Scenario.revoke "cr2" (Scenario.revoke_env None) (fst a1) (snd a1) in
  let b1 := Scenario.revoke "cr1" (Scenario.revoke_env None) (fst tab_b) (snd a2) in
  View.revokeError (fst a1) = None
  /\ View.revokeError (fst a2) = None
  /\ Pg.client_rewards (db (snd a2)) !! "cr1" = None
  /\ stored_balance "c1" (db (snd a2)) = Some 0%Z
  /\ View.revokeError (fst b1) = None
  /\ calls (snd b1) =
       (calls (snd a2) ++ [DeleteClientReward "cr1"; UpdateBalance "c1" 10])%list
  /\ stored_balance "c1" (db (snd b1)) = Some 10%Z
  /\ stored_balance "c1" (db (snd b1)) <> stored_balance "c1" (db (snd a2)).
Proof. vm_compute. repeat split; try reflexivity. discriminate. Qed.

(** C4, amended.  (1) After a revocation that ended without error, the page
    holds no pending reward and no longer lists the entry, and pressing
    Confirm again does nothing: no request, same page, same store, hence the
    same balance.  (2) There is no not-found failure: on a page that still
    holds an entry the store no longer has, Confirm deletes no row, ends
    without error, leaves the ledger as it is, and writes [max 0 (B - V)]
    for the balance [B] that page holds. *)
Theorem revoke_of_removed_entry :
  (forall (p : View.state) (w : World) (e : View.env) (t : View.ObtainedReward.t)
          (cl : ClientProfile.t),
      View.clientRewardToRevoke p = Some t ->
      View.client p = Some cl ->
      View.revokeError (fst (run (View.confirmRevokeReward p e) p w)) = None ->
      let pw := run (View.confirmRevokeReward p e) p w in
      View.clientRewardToRevoke (fst pw) = None
      /\ Forall (fun r => View.ObtainedReward.id r <> View.ObtainedReward.id t)
           (View.obtainedRewards (fst pw))
      /\ forall e', run (View.confirmRevokeReward (fst pw) e') (fst pw) (snd pw) = pw)
  /\ (forall (p : View.state) (w : World) (e : View.env) (t : View.ObtainedReward.t)
             (cl : ClientProfile.t) (rw : View.JoinedReward.t),
        View.clientRewardToRevoke p = Some t ->
        View.client p = Some cl ->
        View.ObtainedReward.rewards t = Some rw ->
        Pg.client_rewards (db w) !! View.ObtainedReward.id t = None ->
        is_Some (Pg.clients (db w) !! ClientProfile.id cl) ->
        View.delete_fault e = None ->
        View.update_fault e = None ->
        let pw := run (View.confirmRevokeReward p e) p w in
        View.revokeError (fst pw) = None
        /\ Pg.client_rewards (db (snd pw)) = Pg.client_rewards (db w)
        /\ stored_balance (ClientProfile.id cl) (db (snd pw))
           = Some (Z.max 0 (Js.or_zero (ClientProfile.pgc_balance cl)
                            - View.JoinedReward.pgc_amount rw))).
Proof.
  split.
  - intros p w e t cl Ht Hcl Hok pw.
    destruct (confirmRevokeReward_cases p w e t cl Ht Hcl)
      as [(err' & _ & H & _) | [(d' & _ & _ & H & _) | [H | H]]];
      fold pw in H.
    + fold pw in Hok. rewrite H in Hok. discriminate.
    + fold pw in Hok. rewrite H in Hok. discriminate.
    + destruct H as (d1 & rw' & err & _ & _ & _ & H & _).
      fold pw in Hok. rewrite H in Hok. discriminate.
    + destruct H as (d1 & rw & row & d2 & _ & _ & _ & Hp & _).
      assert (Hnone : View.clientRewardToRevoke (fst pw) = None) by (by rewrite Hp).
      split; [done | split].
      * rewrite Hp. simpl. apply Forall_forall. intros r Hr.
        by apply list_elem_of_filter in Hr as [? _].
      * intros e'. unfold View.confirmRevokeReward. rewrite Hnone.
        unfold run, mret, Async_ret. simpl. by destruct pw.
  - intros p w e t cl rw Ht Hcl Hrw Hgone [old Hold] Hdf Huf pw. subst pw.
    unfold View.confirmRevokeReward. rewrite Ht, Hcl. step_async.
    unfold Pg.outcome. rewrite Hdf, Huf. simpl. rewrite Hrw. simpl.
    unfold View.balance_write, Pg.update_balance_single. simpl. rewrite Hold. simpl.
    repeat split.
    + by apply delete_id.
    + unfold stored_balance. simpl. by rewrite lookup_insert_eq.
Qed.

(** C4 (amended) at concrete inputs: Confirm pressed again after a revoke,
    and a revoke of an entry the store no longer has. *)
Lemma revoke_of_removed_entry_witness :
  let viewed :=
    Scenario.view_page
      (Scenario.world (Scenario.store 40 {[ "cr1" := Scenario.entry "c1" "r30" ]})) in
  let p := View.handleRevokeRequest (Scenario.listed_voucher "cr1") (fst viewed) in
  let pw := run (View.confirmRevokeReward p (Scenario.revoke_env None)) p (snd viewed) in
  let qw := run (View.confirmRevokeReward p (Scenario.revoke_env None)) p
              (Scenario.world (Scenario.store 5 ∅)) in
  (stored_balance "c1" (db (snd pw)) = Some 10%Z
   /\ run (View.confirmRevokeReward (fst pw) (Scenario.revoke_env None)) (fst pw) (snd pw)
      = pw)
  /\ (View.revokeError (fst qw) = None
      /\ stored_balance "c1" (db (snd qw)) = Some 10%Z).
Proof.
  intros viewed p pw qw. split.
  - split; [vm_compute; reflexivity |].
    apply (proj1 revoke_of_removed_entry p (snd viewed) (Scenario.revoke_env None)
             (Scenario.listed_voucher "cr1")
             (ClientProfile.of_row "c1" (Scenario.alice 40))
             ltac:(vm_compute; reflexivity) ltac:(vm_compute; reflexivity)
             ltac:(vm_compute; reflexivity)).
  - destruct (proj2 revoke_of_removed_entry p (Scenario.world (Scenario.store 5 ∅))
                (Scenario.revoke_env None) (Scenario.listed_voucher "cr1")
                (ClientProfile.of_row "c1" (Scenario.alice 40))
                (View.joined "r30" (Scenario.reward "Voucher" 30))
                ltac:(vm_compute; reflexivity) ltac:(vm_compute; reflexivity)
                ltac:(reflexivity) ltac:(vm_compute; reflexivity)
                ltac:(vm_compute; eauto) ltac:(reflexivity) ltac:(reflexivity))
      as (He & _ & Hb).
    split; [exact He | exact Hb].
Defined.

(** ** Submitting a mitigation activity *)

(** The upload loop never touches the tables or the page state, only adds
    files to the bucket, and issues nothing but uploads. *)
Lemma upload_from_frame (files : list Submit.FilePreview) :
  forall (i : nat) (e : Submit.env) (uid : string) (urls : list string)
         (s : Submit.state) (w : World),
    let out := Submit.upload_from i e uid files urls (s, w) in
    fst (snd out) = s
    /\ db (snd (snd out)) = db w
    /\ bucket w ⊆ bucket (snd (snd out))
    /\ exists new, calls (snd (snd out)) = (calls w ++ new)%list /\ Forall is_upload new.
Proof.
  induction files as [| f rest IH]; intros i e uid urls s w; simpl.
  - repeat split; try done. exists []. by rewrite app_nil_r.
  - unfold mbind, Async_bind, storage_upload. simpl.
    destruct (Submit.upload_fault (Submit.uploads e i)) as [msg |]; simpl.
    { repeat split; try done. eexists [_]. split; [done | by repeat constructor]. }
    destruct (bucket w !! _) as [old |] eqn:Hold; simpl.
    { repeat split; try done. eexists [_]. split; [done | by repeat constructor]. }
    unfold Js.not_str. case_bool_decide as Hurl; simpl.
    { repeat split; try done.
      - by apply insert_subseteq.
      - eexists [_]. split; [done | by repeat constructor]. }
    match goal with
    | |- context [Submit.upload_from ?i' e uid rest ?urls' (s, ?w')] =>
        destruct (IH i' e uid urls' s w') as (Hs & Hdb & Hb & new & Hc & Hnew)
    end.
    repeat split; try done.
    + etrans; [| exact Hb]. simpl. by apply insert_subseteq.
    + eexists (_ :: new). split.
      * rewrite Hc. simpl. by rewrite <- app_assoc.
      * by constructor.
Qed.

(** When an upload fails the handler stops: the error is shown, no row is
    written, every file that was in the bucket or was uploaded by this call
    stays there, and the only requests issued are uploads. *)
Lemma failed_upload_frame (p : Submit.state) (w : World) (e : Submit.env) (u : User)
    (prof : ClientProfile.t) (err : Js.error) (sw : Submit.state * World) :
  Submit.user p = Some u ->
  Submit.profile p = Some prof ->
  (Js.not_str (Submit.mitigatedPlasticKg p)
   || Js.le_zero (Js.parseFloat (Submit.mitigatedPlasticKg p))) = false ->
  Submit.upload_from 0 e (user_id u) (Submit.imageFiles p) []
    (Submit.setMitigationError "" (Submit.setMitigationMessage "" p), w) = (inl err, sw) ->
  let pw := run (Submit.handleSubmitPlasticMitigation p e) p w in
  Submit.mitigationError (fst pw) = Js.or_str (Js.message err) "An unknown error occurred."
  /\ db (snd pw) = db w
  /\ bucket (snd pw) = bucket (snd sw)
  /\ bucket w ⊆ bucket (snd pw)
  /\ exists new, calls (snd pw) = (calls w ++ new)%list /\ Forall is_upload new.
Proof.
  intros Hu Hp Hkg Hup pw. subst pw.
  unfold Submit.handleSubmitPlasticMitigation. rewrite Hu, Hp, Hkg.
  pose proof (upload_from_frame (Submit.imageFiles p) 0 e (user_id u) []
                (Submit.setMitigationError "" (Submit.setMitigationMessage "" p)) w) as H.
  step_async. rewrite Hup in *. simpl in *.
  destruct H as (Hs & Hdb & Hb & new & Hc & Hnew).
  repeat split; try done. by exists new.
Qed.

(** C5 (the code departs from it).  Property: when an image upload fails
    after earlier uploads of the same call succeeded, the images already
    uploaded are deleted, no entry and no image row is created, and the call
    fails with the upload error.  Here two images are submitted and the
    upload of the second fails: the call fails with the upload error and
    writes no row, but issues no removal, and the first image stays in the
    bucket. *)
Theorem failed_upload_leaves_earlier_images :
  let p := Scenario.submit_page "12.5" [Scenario.image "a.png"; Scenario.image "b.png"] in
  let w := Scenario.world (Scenario.store 0 ∅) in
  let pw := run (Submit.handleSubmitPlasticMitigation p (Scenario.submit_env (Some 1%nat)))
              p w in
  Submit.mitigationError (fst pw) = Submit.upload_error "b.png" "Payload too large"
  /\ calls (snd pw) = [StorageUpload "c1/1700000000000_a.png";
                       StorageUpload "c1/1700000000001_b.png"]
  /\ bucket w !! "c1/1700000000000_a.png" = None
  /\ bucket (snd pw) !! "c1/1700000000000_a.png"
     = Some {| file_name := "a.png"; file_bytes := "JFIF" |}
  /\ Pg.plastic_mitigation_entries (db (snd pw)) = ∅
  /\ Pg.mitigation_activity_images (db (snd pw)) = ∅.
Proof. vm_compute. repeat split; reflexivity. Qed.

(** C6.  When the amount typed parses to a number that is [<= 0], the
    handler stops at its guard: the world is left exactly as it was (no
    request issued, nothing uploaded, no row inserted), and a signed-in
    client is shown the validation message. *)
Theorem nonpositive_kg_is_rejected (p : Submit.state) (e : Submit.env) (w : World) :
  Js.le_zero (Js.parseFloat (Submit.mitigatedPlasticKg p)) = true ->
  let pw := run (Submit.handleSubmitPlasticMitigation p e) p w in
  snd pw = w
  /\ (is_Some (Submit.user p) -> is_Some (Submit.profile p) ->
      fst pw = Submit.setMitigationError Submit.validation_error p)
  /\ (Submit.mitigationError (fst pw) = Submit.validation_error
      \/ Submit.mitigationError (fst pw) = Submit.login_error).
Proof.
  intros Hkg pw. subst pw. unfold Submit.handleSubmitPlasticMitigation.
  rewrite Hkg, orb_true_r.
  destruct (Submit.user p) as [u |], (Submit.profile p) as [prof |]; step_async;
    repeat split; try (intros [? ?] [? ?]); try done; auto.
Qed.

(** C6 at a concrete input: -2.5 kg with one image attached. *)
Lemma nonpositive_kg_is_rejected_witness :
  let p := Scenario.submit_page "-2.5" [Scenario.image "a.png"] in
  let w := Scenario.world (Scenario.store 0 ∅) in
  let pw := run (Submit.handleSubmitPlasticMitigation p (Scenario.submit_env None)) p w in
  snd pw = w /\ fst pw = Submit.setMitigationError Submit.validation_error p.
Proof.
  intros p w pw.
  destruct (nonpositive_kg_is_rejected p (Scenario.submit_env None) w
              ltac:(vm_compute; reflexivity)) as (Hw & Hp & _).
  split; [exact Hw |]. apply Hp; vm_compute; eauto.
Defined.

(** A non-empty text that [parseFloat] reads as NaN passes the guard: the
    insert is issued with NaN as amount, and the store, when reached,
    refuses the row. *)
Lemma nan_kg_reaches_insert (p : Submit.state) (e : Submit.env) (w : World) (u : User)
    (prof : ClientProfile.t) :
  Submit.user p = Some u ->
  Submit.profile p = Some prof ->
  Submit.mitigatedPlasticKg p <> "" ->
  Js.parseFloat (Submit.mitigatedPlasticKg p) = Js.NaN ->
  Submit.imageFiles p = [] ->
  let pw := run (Submit.handleSubmitPlasticMitigation p e) p w in
  calls (snd pw) = (calls w ++ [InsertEntry (user_id u) Js.NaN])%list
  /\ db (snd pw) = db w
  /\ (Submit.entry_fault e = None ->
      Submit.mitigationError (fst pw)
      = Js.pg_message (Pg.not_null_violation "mitigated_plastic_kg")).
Proof.
  intros Hu Hp Hne Hnan Hfiles pw. subst pw.
  unfold Submit.handleSubmitPlasticMitigation. rewrite Hu, Hp, Hnan, Hfiles.
  unfold Js.not_str. rewrite bool_decide_eq_false_2 by done. simpl.
  step_async. unfold Pg.outcome.
  destruct (Submit.entry_fault e) as [msg |]; simpl; by repeat split.
Qed.

(** C10.  There is a non-empty amount text, "abc", that [parseFloat] reads
    as NaN; the guard [parseFloat(kg) <= 0] is false on it, so for every
    signed-in client the handler goes past validation and issues the insert
    of an entry whose amount, NaN, is not a positive number. *)
Theorem nan_kg_passes_validation :
  exists kg : string,
    kg <> ""
    /\ Js.parseFloat kg = Js.NaN
    /\ Js.le_zero (Js.parseFloat kg) = false
    /\ Js.gt_zero (Js.parseFloat kg) = false
    /\ forall (p : Submit.state) (e : Submit.env) (w : World) (u : User)
              (prof : ClientProfile.t),
         Submit.user p = Some u ->
         Submit.profile p = Some prof ->
         Submit.mitigatedPlasticKg p = kg ->
         Submit.imageFiles p = [] ->
         calls (snd (run (Submit.handleSubmitPlasticMitigation p e) p w))
         = (calls w ++ [InsertEntry (user_id u) Js.NaN])%list.
Proof.
  exists "abc". repeat split; try done.
  intros p e w u prof Hu Hp Hkg Hfiles.
  apply (nan_kg_reaches_insert p e w u prof Hu Hp);
    [by rewrite Hkg | by rewrite Hkg | done].
Qed.

(** The same text with an image attached: the image is uploaded, the insert
    is issued with NaN and refused by the store, and the image is removed
    again. *)
Lemma nan_kg_with_image :
  let p := Scenario.submit_page "abc" [Scenario.image "a.png"] in
  let w := Scenario.world (Scenario.store 0 ∅) in
  let pw := run (Submit.handleSubmitPlasticMitigation p (Scenario.submit_env None)) p w in
  calls (snd pw) = [StorageUpload "c1/1700000000000_a.png"; InsertEntry "c1" Js.NaN;
                    StorageRemove ["c1/1700000000000_a.png"]]
  /\ bucket (snd pw) = ∅
  /\ Pg.plastic_mitigation_entries (db (snd pw)) = ∅.
Proof. vm_compute. repeat split; reflexivity. Qed.

(** The departure behind C5 in general: when the first image was uploaded
    and a later upload fails, the first image is still in the bucket when
    the handler ends. *)
Lemma first_upload_survives_failure (p : Submit.state) (w : World) (e : Submit.env)
    (u : User) (prof : ClientProfile.t) (f : Submit.FilePreview)
    (rest : list Submit.FilePreview) (err : Js.error) (sw : Submit.state * World) :
  Submit.user p = Some u ->
  Submit.profile p = Some prof ->
  (Js.not_str (Submit.mitigatedPlasticKg p)
   || Js.le_zero (Js.parseFloat (Submit.mitigatedPlasticKg p))) = false ->
  Submit.imageFiles p = f :: rest ->
  Submit.upload_fault (Submit.uploads e 0) = None ->
  let path := Submit.fileName (user_id u) (Submit.date_now (Submit.uploads e 0))
                (file_name (Submit.file f)) in
  bucket w !! path = None ->
  Submit.upload_from 0 e (user_id u) (Submit.imageFiles p) []
    (Submit.setMitigationError "" (Submit.setMitigationMessage "" p), w) = (inl err, sw) ->
  let pw := run (Submit.handleSubmitPlasticMitigation p e) p w in
  bucket (snd pw) !! path = Some (Submit.file f)
  /\ db (snd pw) = db w.
Proof.
  intros Hu Hp Hkg Hfiles Hfault path Hfresh Hup pw.
  destruct (failed_upload_frame p w e u prof err sw Hu Hp Hkg Hup)
    as (_ & Hdb & Hbucket & _).
  fold pw in Hdb, Hbucket. split; [| done]. rewrite Hbucket.
  rewrite Hfiles in Hup. simpl in Hup.
  unfold mbind, Async_bind, storage_upload in Hup. simpl in Hup.
  rewrite Hfault in Hup. fold path in Hup. rewrite Hfresh in Hup. simpl in Hup.
  unfold Js.not_str in Hup. case_bool_decide as Hurl; simpl in Hup.
  { injection Hup as _ <-. simpl. by rewrite lookup_insert_eq. }
  match type of Hup with
  | Submit.upload_from ?i' e ?uid rest ?urls' (?s, ?w') = _ =>
      destruct (upload_from_frame rest i' e uid urls' s w') as (_ & _ & Hb & _)
  end.
  rewrite Hup in Hb. simpl in Hb.
  eapply lookup_weaken; [| exact Hb]. by rewrite lookup_insert_eq.
Qed.

(** ** Assignment, step by step *)

(** C7 (the code departs from it).  Property: every successful assignment
    reads the current balance [B] of the client and the point value [V] of
    the reward, inserts one ledger entry and writes the balance [B + V], so
    that the balance grows by exactly [V].  Here the assignment page is
    loaded once and the 10-point reward is assigned twice to the same
    client.  After the first submission the store holds balance 10, but the
    option the page offers for the client still carries the balance 0 read
    when the page was loaded.  The second submission succeeds; it issues the
    insert and the update and no read, and it writes 0 + 10: the stored
    balance is 10 before it and 10 after it, not 10 + 10.  Submitted from a
    page loaded again after the first submission, the same assignment
    writes 10 + 10. *)
Theorem second_assign_does_not_add_points :
  let loaded := Scenario.assign_page (Scenario.world (Scenario.store 0 ∅)) in
  let first := Scenario.assign "c1" "r10" (Scenario.assign_env "cr1" None) loaded in
  let second := Scenario.assign "c1" "r10" (Scenario.assign_env "cr2" None) first in
  let reloaded := Scenario.assign "c1" "r10" (Scenario.assign_env "cr2" None)
                    (Scenario.assign_page (snd first)) in
  Assign.error (fst first) = None
  /\ stored_balance "c1" (db (snd first)) = Some 10%Z
  /\ Assign.ClientOption.current_pgc_balance
       <$> Assign.selectedClient (Assign.choose "c1" "r10" (fst first))
     = Some 0%Z
  /\ Assign.error (fst second) = None
  /\ is_Some (Assign.successMessage (fst second))
  /\ calls (snd second) =
       (calls (snd first) ++ [InsertClientReward "c1" "r10" None; UpdateBalance "c1" 10])%list
  /\ links (db (snd second)) "cr2" "c1" "r10"
  /\ stored_balance "c1" (db (snd second)) = Some 10%Z
  /\ stored_balance "c1" (db (snd second)) <> Some (10 + 10)%Z
  /\ Assign.error (fst reloaded) = None
  /\ stored_balance "c1" (db (snd reloaded)) = Some (10 + 10)%Z.
Proof. vm_compute. repeat split; eauto; discriminate. Qed.

(** What a submission that ends without error has done: it issued, in this
    order, the insert of one ledger entry linking the selected client and
    reward and the update of the balance of the client to [B + V], and
    nothing else; the entry is new, and the stored balance afterwards is
    [B + V].  [B] and [V] are not read by the handler: they are the balance
    and the point value of the selected options, which [fetchData] read
    (clients, then rewards) when the page was loaded; the balance has grown
    by [V] only when the balance stored at submission was still [B]. *)
Lemma handleSubmit_success_steps (p : Assign.state) (w : World) (e : Assign.env)
    (c : Assign.ClientOption.t) (r : Assign.RewardOption.t) :
  Assign.selectedClient p = Some c ->
  Assign.selectedReward p = Some r ->
  Assign.error (fst (run (Assign.handleSubmit p e) p w)) = None ->
  let B := Assign.ClientOption.current_pgc_balance c in
  let V := Assign.RewardOption.pgc_amount r in
  let pw := run (Assign.handleSubmit p e) p w in
  calls (snd pw) =
    (calls w ++ [InsertClientReward (Assign.ClientOption.value c)
                   (Assign.RewardOption.value r) (Js.or_null (Assign.notes p));
                 UpdateBalance (Assign.ClientOption.value c) (B + V)])%list
  /\ Pg.client_rewards (db w) !! Assign.uuid e = None
  /\ Pg.client_rewards (db (snd pw))
     = <[Assign.uuid e := Assign.ledger_row p e c r]> (Pg.client_rewards (db w))
  /\ links (db (snd pw)) (Assign.uuid e) (Assign.ClientOption.value c)
       (Assign.RewardOption.value r)
  /\ stored_balance (Assign.ClientOption.value c) (db (snd pw)) = Some (B + V)%Z
  /\ (forall b0 : Z,
        stored_balance (Assign.ClientOption.value c) (db w) = Some b0 -> b0 = B ->
        stored_balance (Assign.ClientOption.value c) (db (snd pw)) = Some (b0 + V)%Z)
  /\ (forall (fe : Assign.fetch_env) (p0 : Assign.state) (w0 : World),
        let loaded := run (Assign.fetchData fe) p0 w0 in
        Assign.error (fst loaded) = None ->
        calls (snd loaded)
        = (calls w0 ++ [Select "clients" None; Select "rewards" None])%list
        /\ (forall c', c' ∈ Assign.clients (fst loaded) ->
              Assign.ClientOption.current_pgc_balance c'
              = Js.or_zero (stored_balance (Assign.ClientOption.value c') (db w0)))
        /\ (forall r', r' ∈ Assign.rewards (fst loaded) ->
              exists row, Pg.rewards (db w0) !! Assign.RewardOption.value r' = Some row
                          /\ Assign.RewardOption.pgc_amount r' = Pg.Reward.pgc_amount row)).
Proof.
  intros Hc Hr Hok B V pw.
  assert (Hmain :
    calls (snd pw) =
      (calls w ++ [InsertClientReward (Assign.ClientOption.value c)
                     (Assign.RewardOption.value r) (Js.or_null (Assign.notes p));
                   UpdateBalance (Assign.ClientOption.value c) (B + V)])%list
    /\ Pg.client_rewards (db w) !! Assign.uuid e = None
    /\ Pg.client_rewards (db (snd pw))
       = <[Assign.uuid e := Assign.ledger_row p e c r]> (Pg.client_rewards (db w))
    /\ stored_balance (Assign.ClientOption.value c) (db (snd pw)) = Some (B + V)%Z).
  { subst pw. revert Hok. unfold Assign.handleSubmit. rewrite Hc, Hr. step_async.
    destruct (Pg.outcome (Assign.insert_fault e) _ _) as [err | [[] d1]] eqn:Hins;
      simpl; [done |].
    destruct (Pg.outcome (Assign.update_fault e) _ _) as [err | [[] d2]] eqn:Hupd;
      simpl; [done |].
    intros _.
    apply insert_client_reward_inv in Hins as (_ & [row Hrow] & _ & Hfresh & ->).
    apply update_balance_inv in Hupd as ->. simpl in *.
    rewrite <- app_assoc. repeat split; try done.
    unfold stored_balance. simpl. rewrite lookup_alter_eq, Hrow. done. }
  destruct Hmain as (Hcalls & Hfresh & Hledger & Hbal).
  split; [exact Hcalls |]. split; [exact Hfresh |]. split; [exact Hledger |].
  split; [| split; [exact Hbal | split]].
  - exists (Assign.ledger_row p e c r). rewrite Hledger, lookup_insert_eq. done.
  - intros b0 _ ->. exact Hbal.
  - intros fe p0 w0 loaded Hloaded.
    destruct (fetchData_reads fe p0 w0 Hloaded) as (Hsel & _ & Hcl & Hrw).
    fold loaded in Hsel, Hcl, Hrw. split; [exact Hsel | split].
    + intros c' Hc'. rewrite Hcl in Hc'.
      apply list_elem_of_fmap in Hc' as ([k row] & -> & Hin).
      apply elem_of_map_to_list in Hin. unfold stored_balance. simpl. by rewrite Hin.
    + intros r' Hr'. rewrite Hrw in Hr'.
      apply list_elem_of_fmap in Hr' as ([k row] & -> & Hin).
      apply elem_of_map_to_list in Hin. by exists row.
Qed.

(** ** Profile update *)

(** [fetchAndSetProfile] only reads when the row of the user exists. *)
Lemma fetchAndSetProfile_existing (u : User) (fe : Profile.fetch_env) (s : Profile.state)
    (w : World) :
  is_Some (Pg.clients (db w) !! user_id u) ->
  let out := Profile.fetchAndSetProfile u fe (s, w) in
  fst out = inr tt
  /\ db (snd (snd out)) = db w
  /\ Profile.message (fst (snd out)) = Profile.message s
  /\ Profile.error (fst (snd out)) = Profile.error s.
Proof.
  intros [row Hrow]. unfold Profile.fetchAndSetProfile. step_async. unfold Pg.outcome.
  destruct (Profile.select_fault fe) as [msg |]; simpl.
  - by repeat split.
  - unfold Pg.select_client. rewrite Hrow. simpl. by repeat split.
Qed.

(** C8, as stated, fails.  The row of the signed-in client is no longer in
    the store; the profile form is submitted.  The handler does not fail:
    it reports success and the store now holds a row for that id. *)
Lemma update_profile_creates_missing_client :
  let p := Scenario.profile_page "Alice B" "So1" "0xb" in
  let w := Scenario.world Scenario.store_without_client in
  let pw := run (Profile.handleUpdateProfile p Scenario.profile_env) p w in
  Pg.clients (db w) !! "c1" = None
  /\ Profile.error (fst pw) = ""
  /\ Profile.message (fst pw) = "Profile updated successfully!"
  /\ is_Some (Pg.clients (db (snd pw)) !! "c1").
Proof. vm_compute. repeat split; eauto. Qed.

(** C8, amended.  [handleUpdateProfile] upserts the row whose id is the id
    of the signed-in user, with the display name and the two wallets of the
    form and the e-mail the page holds.  When the upsert reaches the store
    and the e-mail is not taken by another row: an existing row gets the
    name and the wallets of the form and a new update time, keeps its
    balance and creation time, and its e-mail becomes the one the page holds
    (so it keeps its value when the page holds the stored one); when there
    is no row with that id, one is inserted with balance 0 instead of the
    call failing; no other client row and no other table changes, and the
    page reports success. *)
Theorem handleUpdateProfile_upserts (p : Profile.state) (w : World) (e : Profile.env)
    (u : User) (prof : ClientProfile.t) :
  Profile.user p = Some u ->
  Profile.profile p = Some prof ->
  Profile.upsert_fault e = None ->
  Pg.email_taken (ClientProfile.email prof) (user_id u) (db w) = false ->
  let pw := run (Profile.handleUpdateProfile p e) p w in
  (forall old, Pg.clients (db w) !! user_id u = Some old ->
     Pg.clients (db (snd pw)) !! user_id u
     = Some {| Pg.Client.email := ClientProfile.email prof;
               Pg.Client.full_name := Some (Profile.fullName p);
               Pg.Client.solana_wallet := Some (Profile.solanaWallet p);
               Pg.Client.bnb_wallet := Some (Profile.bnbWallet p);
               Pg.Client.pgc_balance := Pg.Client.pgc_balance old;
               Pg.Client.created_at := Pg.Client.created_at old;
               Pg.Client.updated_at := Profile.db_now e |})
  /\ (Pg.clients (db w) !! user_id u = None ->
      Pg.clients (db (snd pw)) !! user_id u
      = Some {| Pg.Client.email := ClientProfile.email prof;
                Pg.Client.full_name := Some (Profile.fullName p);
                Pg.Client.solana_wallet := Some (Profile.solanaWallet p);
                Pg.Client.bnb_wallet := Some (Profile.bnbWallet p);
                Pg.Client.pgc_balance := Some 0%Z;
                Pg.Client.created_at := Profile.db_now e;
                Pg.Client.updated_at := Profile.now e |})
  /\ (forall old, Pg.clients (db w) !! user_id u = Some old ->
        ClientProfile.email prof = Pg.Client.email old ->
        Pg.Client.email <$> Pg.clients (db (snd pw)) !! user_id u
        = Some (Pg.Client.email old))
  /\ (forall k, k <> user_id u -> Pg.clients (db (snd pw)) !! k = Pg.clients (db w) !! k)
  /\ Pg.client_rewards (db (snd pw)) = Pg.client_rewards (db w)
  /\ Pg.rewards (db (snd pw)) = Pg.rewards (db w)
  /\ Pg.plastic_mitigation_entries (db (snd pw)) = Pg.plastic_mitigation_entries (db w)
  /\ Pg.mitigation_activity_images (db (snd pw)) = Pg.mitigation_activity_images (db w)
  /\ Profile.error (fst pw) = ""
  /\ Profile.message (fst pw) = "Profile updated successfully!".
Proof.
  intros Hu Hp Hf Hfree pw. subst pw.
  unfold Profile.handleUpdateProfile. rewrite Hu, Hp. step_async.
  unfold Pg.outcome. rewrite Hf. unfold Pg.upsert_client. rewrite Hfree. simpl.
  match goal with
  | |- context [Profile.fetchAndSetProfile u (Profile.refresh e) (?s, ?w')] =>
      destruct (fetchAndSetProfile_existing u (Profile.refresh e) s w')
        as (Hr & Hdb & Hm & He);
        [simpl; by rewrite lookup_insert_eq |];
        destruct (Profile.fetchAndSetProfile u (Profile.refresh e) (s, w'))
          as [res [s' w'']]
  end.
  simpl in *. subst res. simpl. rewrite Hdb. simpl.
  repeat split; try done.
  - intros old Hold. by rewrite lookup_insert_eq, Hold.
  - intros Hnone. by rewrite lookup_insert_eq, Hnone.
  - intros old Hold Hemail. rewrite lookup_insert_eq, Hold. simpl. by rewrite Hemail.
  - intros k Hk. by rewrite lookup_insert_ne.
Qed.

(** C8 (amended) at a concrete input: the client with balance 7 changes the
    name and both wallets. *)
Lemma handleUpdateProfile_upserts_witness :
  let p := Scenario.profile_page "Alice B" "So1" "0xb" in
  let w := Scenario.world (Scenario.store 7 ∅) in
  let pw := run (Profile.handleUpdateProfile p Scenario.profile_env) p w in
  Pg.clients (db (snd pw)) !! "c1"
  = Some {| Pg.Client.email := "alice@example.org";
            Pg.Client.full_name := Some "Alice B";
            Pg.Client.solana_wallet := Some "So1";
            Pg.Client.bnb_wallet := Some "0xb";
            Pg.Client.pgc_balance := Some 7%Z;
            Pg.Client.created_at := "2025-01-01T00:00:00Z";
            Pg.Client.updated_at := "2025-05-01T00:00:01Z" |}.
Proof.
  intros p w pw.
  destruct (handleUpdateProfile_upserts p w Scenario.profile_env Scenario.user1
              (ClientProfile.of_row "c1" (Scenario.alice 0))
              ltac:(reflexivity) ltac:(reflexivity) ltac:(reflexivity)
              ltac:(vm_compute; reflexivity)) as (H & _).
  apply (H (Scenario.alice 7)). vm_compute. reflexivity.
Defined.

(** ** Reward definitions *)

(** C9.  Deleting a reward definition that at least one ledger entry
    references fails and removes nothing: the store is unchanged, the page
    shows an error and keeps the definition; when the request reaches the
    store the error is the foreign-key violation (SQLSTATE 23503) raised by
    ON DELETE RESTRICT.  Deleting a definition that no entry references,
    with the store reached, succeeds: the definition is removed from the
    store and from the page, the ledger and the clients are unchanged, and no
    error is shown or logged. *)
Theorem delete_referenced_reward_is_refused :
  (forall (p : Definitions.state) (w : World) (fault : option string)
          (t : Definitions.RewardDefinition.t),
      Definitions.rewardToDelete p = Some t ->
      (exists k row, Pg.client_rewards (db w) !! k = Some row
                     /\ Pg.ClientReward.reward_id row = Definitions.RewardDefinition.id t) ->
      let pw := run (Definitions.confirmDeleteReward p fault) p w in
      db (snd pw) = db w
      /\ is_Some (Definitions.error (fst pw))
      /\ Definitions.rewardToDelete (fst pw) = Some t
      /\ Definitions.rewards (fst pw) = Definitions.rewards p
      /\ (fault = None ->
          console (snd pw) =
            (console w ++
               [console_error "Error deleting reward:"
                  (Some (Js.Thrown (Pg.foreign_key_violation "client_rewards")))])%list
          /\ Js.code (Pg.foreign_key_violation "client_rewards") = "23503"
          /\ Definitions.error (fst pw)
             = Some (Js.pg_message (Pg.foreign_key_violation "client_rewards"))))
  /\ (forall (p : Definitions.state) (w : World) (t : Definitions.RewardDefinition.t),
        Definitions.rewardToDelete p = Some t ->
        (forall k row, Pg.client_rewards (db w) !! k = Some row ->
                       Pg.ClientReward.reward_id row <> Definitions.RewardDefinition.id t) ->
        let pw := run (Definitions.confirmDeleteReward p None) p w in
        Pg.rewards (db (snd pw))
        = delete (Definitions.RewardDefinition.id t) (Pg.rewards (db w))
        /\ Pg.client_rewards (db (snd pw)) = Pg.client_rewards (db w)
        /\ Pg.clients (db (snd pw)) = Pg.clients (db w)
        /\ Definitions.error (fst pw) = Definitions.error p
        /\ console (snd pw) = console w
        /\ Definitions.rewardToDelete (fst pw) = None
        /\ Forall (fun r => Definitions.RewardDefinition.id r
                            <> Definitions.RewardDefinition.id t)
             (Definitions.rewards (fst pw))).
Proof.
  split.
  - intros p w fault t Ht Href pw. subst pw.
    apply referenced_spec in Href.
    unfold Definitions.confirmDeleteReward. rewrite Ht. step_async. unfold Pg.outcome.
    destruct fault as [msg |]; simpl.
    + by repeat split.
    + unfold Pg.delete_reward. rewrite Href. simpl. by repeat split; eauto.
  - intros p w t Ht Hfree pw. subst pw.
    assert (Href : Pg.referenced (Definitions.RewardDefinition.id t) (db w) = false).
    { apply not_true_is_false. intros (k & row & Hk & Hr)%referenced_spec.
      by apply (Hfree k row). }
    unfold Definitions.confirmDeleteReward. rewrite Ht. step_async.
    unfold Pg.delete_reward. rewrite Href. simpl. repeat split; try done.
    apply Forall_forall. intros r Hr. by apply list_elem_of_filter in Hr as [? _].
Qed.

(** C9 at concrete inputs: with one ledger entry for the 30-point reward,
    deleting that reward is refused and deleting the 10-point reward
    succeeds. *)
Lemma delete_referenced_reward_is_refused_witness :
  let w := Scenario.world (Scenario.store 30 {[ "cr1" := Scenario.entry "c1" "r30" ]}) in
  let used := Scenario.delete_page "r30" w in
  let free := Scenario.delete_page "r10" w in
  let pw := run (Definitions.confirmDeleteReward (fst used) None) (fst used) (snd used) in
  let qw := run (Definitions.confirmDeleteReward (fst free) None) (fst free) (snd free) in
  (db (snd pw) = db (snd used)
   /\ Definitions.error (fst pw)
      = Some "violates foreign key constraint on table client_rewards")
  /\ (Pg.rewards (db (snd qw)) !! "r10" = None /\ Definitions.error (fst qw) = None).
Proof.
  intros w used free pw qw. split.
  - destruct (proj1 delete_referenced_reward_is_refused (fst used) (snd used) None
                (Definitions.RewardDefinition.of_row ("r30", Scenario.reward "Voucher" 30))
                ltac:(vm_compute; reflexivity)
                ltac:(exists "cr1", (Scenario.entry "c1" "r30");
                      vm_compute; split; reflexivity))
      as (Hdb & _ & _ & _ & H).
    split; [exact Hdb |]. destruct (H eq_refl) as (_ & _ & He). exact He.
  - destruct (proj2 delete_referenced_reward_is_refused (fst free) (snd free)
                (Definitions.RewardDefinition.of_row ("r10", Scenario.reward "Bottle" 10))
                ltac:(vm_compute; reflexivity)) as (Hr & _ & _ & He & _).
    + intros k row Hk.
      change (Pg.client_rewards (db (snd free)))
        with ({[ "cr1" := Scenario.entry "c1" "r30" ]} : gmap string Pg.ClientReward.row)
        in Hk.
      apply lookup_singleton_Some in Hk as [_ <-]. done.
    + split.
      * fold qw in Hr. rewrite Hr. apply lookup_delete_eq.
      * fold qw in He. rewrite He. vm_compute. reflexivity.
Defined.

(** * Further properties of the handlers *)

(** ** Assignment and revocation *)

(** X3.  However [handleSubmit] ends, it writes at most one ledger entry and
    the balance of at most one client: the reward definitions, the
    mitigation tables and the bucket are unchanged; no ledger entry is
    removed or changed and the only key that can be new is the generated
    one; only the row of the selected client can change; and the balance is
    never written without the ledger entry (when the ledger is unchanged,
    so is the whole store). *)
Theorem handleSubmit_confined (p : Assign.state) (e : Assign.env) (w : World) :
  let pw := run (Assign.handleSubmit p e) p w in
  Pg.rewards (db (snd pw)) = Pg.rewards (db w)
  /\ Pg.plastic_mitigation_entries (db (snd pw)) = Pg.plastic_mitigation_entries (db w)
  /\ Pg.mitigation_activity_images (db (snd pw)) = Pg.mitigation_activity_images (db w)
  /\ bucket (snd pw) = bucket w
  /\ Pg.client_rewards (db w) ⊆ Pg.client_rewards (db (snd pw))
  /\ (forall k, k <> Assign.uuid e ->
        Pg.client_rewards (db (snd pw)) !! k = Pg.client_rewards (db w) !! k)
  /\ (forall c', Assign.ClientOption.value <$> Assign.selectedClient p <> Some c' ->
        Pg.clients (db (snd pw)) !! c' = Pg.clients (db w) !! c')
  /\ (Pg.client_rewards (db (snd pw)) = Pg.client_rewards (db w) -> db (snd pw) = db w).
Proof.
  intros pw.
  assert (Hbucket : bucket (snd pw) = bucket w).
  { subst pw. unfold Assign.handleSubmit.
    destruct (Assign.selectedClient p) as [c |], (Assign.selectedReward p) as [r |];
      try (by step_async).
    step_async.
    destruct (Pg.outcome _ _ _) as [err | [[] d1]]; simpl; [done |].
    by destruct (Pg.outcome _ _ _) as [err | [[] d2]]. }
  destruct (handleSubmit_cases p w e)
    as [(_ & _ & Hw) | (c & r & Hc & Hr & [(err & _ & _ & Hdb) | [H | H]])];
    fold pw in Hw || fold pw in Hdb || fold pw in H.
  - rewrite Hw. by repeat split.
  - rewrite Hdb. by repeat split.
  - destruct H as (d1 & err & Hins & _ & _ & Hdb). rewrite Hdb.
    apply insert_client_reward_inv in Hins as (_ & _ & _ & Hfresh & ->). simpl.
    repeat split; try done.
    + by apply insert_subseteq.
    + intros k Hk. by rewrite lookup_insert_ne.
    + intros Heq. exfalso.
      assert (Hl : Pg.client_rewards (db w) !! Assign.uuid e
                   = Some (Assign.ledger_row p e c r)) by (by rewrite <- Heq, lookup_insert_eq).
      congruence.
  - destruct H as (d1 & d2 & Hins & Hupd & _ & Hdb). rewrite Hdb.
    apply insert_client_reward_inv in Hins as (_ & _ & _ & Hfresh & ->).
    apply update_balance_inv in Hupd as ->. simpl.
    repeat split; try done.
    + by apply insert_subseteq.
    + intros k Hk. by rewrite lookup_insert_ne.
    + intros c' Hc'. rewrite Hc in Hc'. simpl in Hc'.
      rewrite lookup_alter_ne; [done | congruence].
    + intros Heq. exfalso.
      assert (Hl : Pg.client_rewards (db w) !! Assign.uuid e
                   = Some (Assign.ledger_row p e c r)) by (by rewrite <- Heq, lookup_insert_eq).
      congruence.
Qed.

(** X3 at a concrete input: the 10-point reward is assigned to c1 in the
    store in use.  The ledger entries that were there, the row of client c2,
    the reward definitions and the bucket are as they were. *)
Lemma handleSubmit_confined_witness :
  let loaded := Scenario.assign_page Scenario.populated_world in
  let p := Assign.choose "c1" "r10" (fst loaded) in
  let pw := run (Assign.handleSubmit p (Scenario.assign_env "cr1" None)) p (snd loaded) in
  links (db (snd pw)) "cr1" "c1" "r10"
  /\ stored_balance "c1" (db (snd pw)) = Some 40%Z
  /\ Pg.client_rewards (db (snd pw)) !! "cr7" = Some (Scenario.entry "c1" "r30")
  /\ Pg.client_rewards (db (snd pw)) !! "cr8" = Some (Scenario.entry "c2" "r10")
  /\ Pg.clients (db (snd pw)) !! "c2" = Some (Scenario.bob 10)
  /\ Pg.rewards (db (snd pw)) = Pg.rewards Scenario.populated
  /\ bucket (snd pw) = bucket Scenario.populated_world.
Proof.
  intros loaded p pw.
  destruct (handleSubmit_confined p (Scenario.assign_env "cr1" None) (snd loaded))
    as (Hr & _ & _ & Hb & _ & Hl & Hc & _).
  fold pw in Hr, Hb, Hl, Hc.
  split; [vm_compute; eauto |]. split; [vm_compute; reflexivity |].
  split; [by rewrite Hl by discriminate |].
  split; [by rewrite Hl by discriminate |].
  split; [by rewrite Hc by (vm_compute; discriminate) |].
  split; [exact Hr | exact Hb].
Defined.

(** X4.  However [confirmRevokeReward] ends, it removes at most the pending
    ledger entry and writes at most the row of the client the page shows:
    the reward definitions, the mitigation tables and the bucket are
    unchanged; no ledger entry is added or changed; no client row is
    created or removed. *)
Theorem confirmRevokeReward_confined (p : View.state) (e : View.env) (w : World) :
  let pw := run (View.confirmRevokeReward p e) p w in
  Pg.rewards (db (snd pw)) = Pg.rewards (db w)
  /\ Pg.plastic_mitigation_entries (db (snd pw)) = Pg.plastic_mitigation_entries (db w)
  /\ Pg.mitigation_activity_images (db (snd pw)) = Pg.mitigation_activity_images (db w)
  /\ bucket (snd pw) = bucket w
  /\ Pg.client_rewards (db (snd pw)) ⊆ Pg.client_rewards (db w)
  /\ (forall k, View.ObtainedReward.id <$> View.clientRewardToRevoke p <> Some k ->
        Pg.client_rewards (db (snd pw)) !! k = Pg.client_rewards (db w) !! k)
  /\ (forall c', ClientProfile.id <$> View.client p <> Some c' ->
        Pg.clients (db (snd pw)) !! c' = Pg.clients (db w) !! c')
  /\ (forall c', is_Some (Pg.clients (db (snd pw)) !! c')
                 <-> is_Some (Pg.clients (db w) !! c')).
Proof.
  intros pw.
  assert (Hbucket : bucket (snd pw) = bucket w).
  { subst pw. unfold View.confirmRevokeReward.
    destruct (View.clientRewardToRevoke p) as [t |], (View.client p) as [cl |];
      try (by step_async).
    step_async.
    destruct (Pg.outcome _ _ _) as [err | [[] d1]]; simpl; [done |].
    destruct (View.ObtainedReward.rewards t) as [rw |]; simpl; [| done].
    by destruct (Pg.outcome _ _ _) as [err | [row d2]]. }
  destruct (View.clientRewardToRevoke p) as [t |] eqn:Ht;
    [destruct (View.client p) as [cl |] eqn:Hcl |].
  2,3: subst pw; unfold View.confirmRevokeReward; rewrite Ht; try rewrite Hcl;
       step_async; by repeat split.
  destruct (confirmRevokeReward_cases p w e t cl Ht Hcl)
    as [(err & _ & _ & Hdb) | [(d1 & Hdel & _ & _ & Hdb) | [H | H]]];
    fold pw in Hdb || fold pw in H.
  - rewrite Hdb. by repeat split.
  - rewrite Hdb. apply delete_client_reward_inv in Hdel as (_ & ->). simpl.
    repeat split; try done.
    + apply delete_subseteq.
    + intros k Hk. simpl in Hk. rewrite lookup_delete_ne; [done | congruence].
  - destruct H as (d1 & rw & err & Hdel & _ & _ & _ & _ & _ & Hdb). rewrite Hdb.
    apply delete_client_reward_inv in Hdel as (_ & ->). simpl.
    repeat split; try done.
    + apply delete_subseteq.
    + intros k Hk. simpl in Hk. rewrite lookup_delete_ne; [done | congruence].
  - destruct H as (d1 & rw & row & d2 & Hdel & _ & Hupd & _ & _ & Hdb). rewrite Hdb.
    apply delete_client_reward_inv in Hdel as (_ & ->).
    apply update_balance_single_inv in Hupd as (old & Hold & -> & ->). simpl in *.
    repeat split; try done.
    + apply delete_subseteq.
    + intros k Hk. rewrite lookup_delete_ne; [done | congruence].
    + intros c' Hc'. rewrite lookup_insert_ne; [done | congruence].
    + destruct (decide (ClientProfile.id cl = c')) as [<- | Hne].
      * by rewrite Hold.
      * by rewrite lookup_insert_ne.
    + destruct (decide (ClientProfile.id cl = c')) as [<- | Hne].
      * by rewrite lookup_insert_eq.
      * by rewrite lookup_insert_ne.
Qed.

(** X4 at a concrete input: revoking cr1 leaves the entry cr2 of the same
    client in place. *)
Lemma confirmRevokeReward_confined_witness :
  let w := Scenario.world (Scenario.store 30 {[ "cr1" := Scenario.entry "c1" "r30";
                                                 "cr2" := Scenario.entry "c1" "r10" ]}) in
  let loaded := Scenario.view_page w in
  let p := View.handleRevokeRequest (Scenario.listed_voucher "cr1") (fst loaded) in
  let pw := run (View.confirmRevokeReward p (Scenario.revoke_env None)) p (snd loaded) in
  Pg.client_rewards (db (snd pw)) !! "cr2" = Some (Scenario.entry "c1" "r10")
  /\ Pg.client_rewards (db (snd pw)) !! "cr1" = None.
Proof.
  intros w loaded p pw. split; [| vm_compute; reflexivity].
  destruct (confirmRevokeReward_confined p (Scenario.revoke_env None) (snd loaded))
    as (_ & _ & _ & _ & _ & Hl & _).
  fold pw in Hl. rewrite (Hl "cr2"); [vm_compute; reflexivity | vm_compute; discriminate].
Defined.

(** X5.  The details page declares the joined reward of a listed entry as
    never [null].  When every ledger entry of the store references an
    existing reward definition (the foreign key of the schema), every entry
    the page lists after loading is an entry of that client in the store and
    carries the definition it references, with the point value the ledger
    sum counts for it; so confirming the revocation of a listed entry never
    ends with the error of reading [pgc_amount] of [null], whatever the
    store has become meanwhile. *)
Theorem listed_rewards_carry_definition (c : string) (fe : View.fetch_env) (w : World)
    (t : View.ObtainedReward.t) :
  rewards_fk (db w) ->
  let loaded := run (View.fetchAllClientData c fe) View.initial w in
  t ∈ View.obtainedRewards (fst loaded) ->
  (exists lrow rrow,
     Pg.client_rewards (db w) !! View.ObtainedReward.id t = Some lrow
     /\ Pg.ClientReward.client_id lrow = c
     /\ Pg.rewards (db w) !! Pg.ClientReward.reward_id lrow = Some rrow
     /\ View.ObtainedReward.rewards t
        = Some (View.joined (Pg.ClientReward.reward_id lrow) rrow)
     /\ point_value (db w) lrow = Pg.Reward.pgc_amount rrow)
  /\ forall (e : View.env) (w' : World),
       let p := View.handleRevokeRequest t (fst loaded) in
       View.revokeError (fst (run (View.confirmRevokeReward p e) p w'))
       <> Some "Cannot read properties of null (reading 'pgc_amount')".
Proof.
  intros Hfk loaded Ht.
  destruct (fetchAllClientData_page c fe w) as (_ & [Hnil | (row & Hrow & Hcl & Hlist)]);
    fold loaded in Hnil || fold loaded in Hcl, Hlist;
    [rewrite Hnil in Ht; by apply elem_of_nil in Ht |].
  rewrite Hlist in Ht.
  apply list_elem_of_fmap in Ht as ([[k lrow] rw] & -> & Ht).
  apply list_elem_of_fmap in Ht as ([k' lrow'] & [= -> -> ->] & Ht).
  apply list_elem_of_filter in Ht as [Hclient Hl]. apply elem_of_map_to_list in Hl.
  simpl in Hclient. destruct (Hfk _ _ Hl) as [rrow Hrrow].
  assert (Hjoined : View.ObtainedReward.rewards
                      (View.obtained (k', lrow',
                                      Pg.rewards (db w) !! Pg.ClientReward.reward_id lrow'))
                    = Some (View.joined (Pg.ClientReward.reward_id lrow') rrow)).
  { simpl. by rewrite Hrrow. }
  split.
  - exists lrow', rrow. repeat split; try done.
    unfold point_value. by rewrite Hrrow.
  - intros e w' p.
    destruct (confirmRevokeReward_cases p w' e _ (ClientProfile.of_row c row) eq_refl Hcl)
      as [(err & _ & H & _) | [(d1 & _ & H & _) | [H | H]]].
    + rewrite H. unfold View.delete_error. discriminate.
    + rewrite Hjoined in H. discriminate.
    + destruct H as (d1 & rw' & err & _ & _ & _ & H & _). rewrite H.
      unfold View.balance_error. discriminate.
    + destruct H as (d1 & rw' & urow & d2 & _ & _ & _ & H & _). by rewrite H.
Qed.

(** X5 at a concrete input: the entry cr1 of client c1 for the 30-point reward. *)
Lemma listed_rewards_carry_definition_witness :
  let w := Scenario.world (Scenario.store 30 {[ "cr1" := Scenario.entry "c1" "r30" ]}) in
  exists lrow rrow,
    Pg.client_rewards (db w) !! "cr1" = Some lrow
    /\ Pg.rewards (db w) !! Pg.ClientReward.reward_id lrow = Some rrow
    /\ point_value (db w) lrow = Pg.Reward.pgc_amount rrow.
Proof.
  intros w.
  destruct (listed_rewards_carry_definition "c1" Scenario.view_fetch_ok w
              (Scenario.listed_voucher "cr1")) as ((lrow & rrow & Hl & _ & Hr & _ & Hv) & _).
  - intros k row Hk. simpl in Hk. apply lookup_singleton_Some in Hk as [_ <-].
    vm_compute. eauto.
  - vm_compute. left.
  - exists lrow, rrow. split; [exact Hl |]. split; [exact Hr | exact Hv].
Defined.

(** X6.  Loading a page only reads.  [fetchData], [fetchAllClientData] and
    [fetchRewards] leave the tables and the bucket as they are, whatever
    fails; the requests they issue are an initial part of their fixed
    sequence of reads (they stop at the first read that fails), and all of
    it when the page ends without error. *)
Theorem page_loads_only_read :
  (forall (fe : Assign.fetch_env) (p : Assign.state) (w : World),
      let pw := run (Assign.fetchData fe) p w in
      db (snd pw) = db w /\ bucket (snd pw) = bucket w
      /\ exists new, calls (snd pw) = (calls w ++ new)%list
                     /\ new `prefix_of` [Select "clients" None; Select "rewards" None]
                     /\ (is_Some (Assign.error (fst pw)) \/ length new = 2%nat))
  /\ (forall (c : string) (fe : View.fetch_env) (p : View.state) (w : World),
        let pw := run (View.fetchAllClientData c fe) p w in
        db (snd pw) = db w /\ bucket (snd pw) = bucket w
        /\ exists new, calls (snd pw) = (calls w ++ new)%list
                       /\ new `prefix_of` [Select "clients" (Some c);
                                           Select "plastic_mitigation_entries" (Some c);
                                           Select "petgas_consumption_entries" (Some c);
                                           Select "client_rewards" (Some c)]
                       /\ (c = "" \/ is_Some (View.error (fst pw))
                           \/ length new = 4%nat))
  /\ (forall (fault : option string) (p : Definitions.state) (w : World),
        let pw := run (Definitions.fetchRewards fault) p w in
        db (snd pw) = db w /\ bucket (snd pw) = bucket w
        /\ calls (snd pw) = (calls w ++ [Select "rewards" None])%list).
Proof.
  split; [| split].
  - intros fe p w. unfold Assign.fetchData. step_async. unfold Pg.outcome.
    destruct (Assign.clients_fault fe) as [m1 |]; simpl.
    { repeat split; try done. eexists [_]. split; [done |]. split; [by eexists [_] |].
      left. eauto. }
    destruct (Assign.rewards_fault fe) as [m2 |]; simpl.
    { repeat split; try done. eexists [_; _]. rewrite <- app_assoc.
      split; [done |]. split; [done |]. left. eauto. }
    repeat split; try done. eexists [_; _]. rewrite <- app_assoc.
    split; [done |]. split; [done |]. by right.
  - intros c fe p w. unfold View.fetchAllClientData, Js.not_str.
    case_bool_decide as Hc; simpl.
    { repeat split; try done. exists []. rewrite app_nil_r. split; [done |].
      split; [apply prefix_nil | by left]. }
    step_async. unfold Pg.outcome.
    destruct (View.client_fault fe) as [m1 |]; simpl.
    { repeat split; try done. eexists [_]. split; [done |].
      split; [by eexists [_; _; _] |]. right. left. eauto. }
    unfold Pg.select_client.
    destruct (Pg.clients (db w) !! c) as [row |]; simpl.
    2:{ repeat split; try done. eexists [_]. split; [done |].
        split; [by eexists [_; _; _] |]. right. left. eauto. }
    destruct (View.mitigation_fault fe) as [m2 |]; simpl.
    { repeat split; try done. eexists [_; _]. rewrite <- app_assoc.
      split; [done |]. split; [by eexists [_; _] |]. right. left. eauto. }
    destruct (View.consumption_fault fe) as [m3 |]; simpl.
    { repeat split; try done. eexists [_; _; _]. rewrite <- !app_assoc.
      split; [done |]. split; [by eexists [_] |]. right. left. eauto. }
    destruct (View.rewards_fault fe) as [m4 |]; simpl.
    { repeat split; try done. eexists [_; _; _; _]. rewrite <- !app_assoc.
      split; [done |]. split; [done |]. right. left. eauto. }
    repeat split; try done. eexists [_; _; _; _]. rewrite <- !app_assoc.
    split; [done |]. split; [done |]. by right; right.
  - intros fault p w. unfold Definitions.fetchRewards. step_async. unfold Pg.outcome.
    by destruct fault.
Qed.

Lemma ledger_points_ext (c : string) (d d' : Pg.Db) :
  Pg.client_rewards d' = Pg.client_rewards d ->
  (forall k row, Pg.client_rewards d !! k = Some row ->
                 point_value d' row = point_value d row) ->
  ledger_points c d' = ledger_points c d.
Proof.
  intros Heq Hval. unfold ledger_points. rewrite Heq, !map_fold_foldr.
  assert (Hall : Forall (fun kr => point_value d' (snd kr) = point_value d (snd kr))
                   (map_to_list (Pg.client_rewards d))).
  { apply Forall_forall. intros [k row] Hk. apply elem_of_map_to_list in Hk.
    by apply (Hval k). }
  induction Hall as [| [k row] l Hrow _ IH]; simpl; [done |].
  simpl in Hrow. by rewrite Hrow, IH.
Qed.

(** X7.  [confirmDeleteReward] keeps balances and ledger in step, whatever
    its outcome: a definition is only removed when no ledger entry
    references it, so no ledger sum changes.  It also keeps every remaining
    reward worth more than 0, and never touches the clients or the
    ledger. *)
Theorem confirmDeleteReward_keeps_in_step (p : Definitions.state) (fault : option string)
    (w : World) :
  let pw := run (Definitions.confirmDeleteReward p fault) p w in
  (in_step (db w) -> in_step (db (snd pw)))
  /\ (checked (db w) -> checked (db (snd pw)))
  /\ Pg.clients (db (snd pw)) = Pg.clients (db w)
  /\ Pg.client_rewards (db (snd pw)) = Pg.client_rewards (db w).
Proof.
  unfold Definitions.confirmDeleteReward.
  destruct (Definitions.rewardToDelete p) as [t |]; [| by step_async].
  step_async. unfold Pg.outcome.
  destruct fault as [msg |]; simpl; [done |].
  unfold Pg.delete_reward.
  destruct (Pg.referenced _ _) eqn:Href; simpl; [done |].
  repeat split; try done.
  - intros Hin c row Hrow. simpl in Hrow. rewrite (Hin c row Hrow).
    symmetry. apply ledger_points_ext; [done |].
    intros k lrow Hk. unfold point_value. simpl.
    rewrite lookup_delete_ne; [done |].
    intros Heq. apply not_true_iff_false in Href. apply Href, referenced_spec.
    by exists k, lrow.
  - intros Hchk k r Hr. simpl in Hr. apply lookup_delete_Some in Hr as [_ Hr].
    by apply (Hchk k).
Qed.

(** The store in use is in step. *)
Lemma populated_in_step : in_step Scenario.populated.
Proof.
  intros c row Hrow. simpl in Hrow.
  apply lookup_insert_Some in Hrow as [[<- <-] | [_ Hrow]]; [vm_compute; reflexivity |].
  apply lookup_singleton_Some in Hrow as [<- <-]. vm_compute. reflexivity.
Qed.

(** X7 at concrete inputs, on the store in use: the reward nobody holds is
    deleted, the 30-point reward that c1 holds is not, and in both cases
    balances and ledger stay in step. *)
Lemma confirmDeleteReward_keeps_in_step_witness :
  let unused := Scenario.delete_page "r50" Scenario.populated_world in
  let held := Scenario.delete_page "r30" Scenario.populated_world in
  let pw := run (Definitions.confirmDeleteReward (fst unused) None) (fst unused)
              (snd unused) in
  let qw := run (Definitions.confirmDeleteReward (fst held) None) (fst held) (snd held) in
  (Pg.rewards (db (snd pw)) !! "r50" = None
   /\ stored_balance "c1" (db (snd pw)) = Some 30%Z
   /\ ledger_points "c1" (db (snd pw)) = 30%Z
   /\ in_step (db (snd pw)))
  /\ (is_Some (Pg.rewards (db (snd qw)) !! "r30")
      /\ is_Some (Definitions.error (fst qw))
      /\ in_step (db (snd qw))).
Proof.
  intros unused held pw qw. split.
  - split; [vm_compute; reflexivity |]. split; [vm_compute; reflexivity |].
    split; [vm_compute; reflexivity |].
    apply (proj1 (confirmDeleteReward_keeps_in_step (fst unused) None (snd unused))).
    apply populated_in_step.
  - split; [vm_compute; eauto |]. split; [vm_compute; eauto |].
    apply (proj1 (confirmDeleteReward_keeps_in_step (fst held) None (snd held))).
    apply populated_in_step.
Defined.

(** ** Storage paths *)

Lemma append_cons (x : ascii) (a b : string) : String x a +:+ b = String x (a +:+ b).
Proof. reflexivity. Qed.

Lemma append_assoc (a b c : string) : (a +:+ b) +:+ c = a +:+ b +:+ c.
Proof. induction a as [| x a IH]; [done |]. rewrite !append_cons. by f_equal. Qed.

Lemma append_nil_r (a : string) : a +:+ "" = a.
Proof. induction a as [| x a IH]; [done |]. rewrite append_cons. by f_equal. Qed.

Lemma rev_app_append (s1 s2 t : string) :
  String.rev_app s1 s2 +:+ t = String.rev_app s1 (s2 +:+ t).
Proof. revert s2. induction s1 as [| c s1 IH]; intros s2; simpl; [done |]. by rewrite IH. Qed.

Lemma rev_cons (c : ascii) (s : string) :
  String.rev (String c s) = String.rev s +:+ String c "".
Proof. unfold String.rev. simpl. by rewrite rev_app_append. Qed.

Lemma split_go_nonempty (s cur : string) : Js.split_go s cur <> [].
Proof. revert cur. induction s as [| c r IH]; intros cur; simpl; [done |]. by case_bool_decide. Qed.

Lemma join_slash_cons (p : string) (ps : list string) :
  ps <> [] -> Js.join_slash (p :: ps) = p +:+ "/" +:+ Js.join_slash ps.
Proof. by destruct ps. Qed.

(** [parts.join('/')] undoes [split('/')]. *)
Lemma join_slash_split_go (s cur : string) :
  Js.join_slash (Js.split_go s cur) = String.rev cur +:+ s.
Proof.
  revert cur. induction s as [| c r IH]; intros cur; simpl.
  - by rewrite append_nil_r.
  - case_bool_decide as Hc.
    + rewrite join_slash_cons by apply split_go_nonempty. rewrite IH. by subst c.
    + rewrite IH. unfold String.rev. simpl.
      by rewrite !rev_app_append.
Qed.

Lemma split_go_append (a b cur : string) :
  Js.split_go (a +:+ "/" +:+ b) cur = (Js.split_go a cur ++ Js.split_go b "")%list.
Proof.
  revert cur. induction a as [| c r IH]; intros cur; [done |].
  rewrite append_cons. simpl. case_bool_decide; by rewrite IH.
Qed.

Lemma indexOf_app (x : string) (l1 l2 : list string) :
  x ∉ l1 -> Js.indexOf x (l1 ++ x :: l2) = Z.of_nat (length l1).
Proof.
  induction l1 as [| p l1 IH]; intros Hx; simpl.
  - by rewrite bool_decide_eq_true_2.
  - apply not_elem_of_cons in Hx as [Hne Hx].
    rewrite bool_decide_eq_false_2 by done. rewrite IH by done.
    destruct (length l1); simpl; lia.
Qed.

Lemma path_of_url_marker (pre path : string) :
  "mitigation-images" ∉ Js.split_slash pre ->
  Submit.path_of_url (pre +:+ "/mitigation-images/" +:+ path) = path.
Proof.
  intros Hpre. unfold Submit.path_of_url, Js.split_slash.
  change (pre +:+ "/mitigation-images/" +:+ path)
    with (pre +:+ "/" +:+ "mitigation-images" +:+ "/" +:+ path).
  rewrite !split_go_append. change (Js.split_go "mitigation-images" "") with ["mitigation-images"].
  simpl. rewrite indexOf_app by done. unfold Js.slice_from.
  replace (Z.to_nat (Z.of_nat (length (Js.split_go pre "")) + 1))
    with (S (length (Js.split_go pre ""))) by lia.
  rewrite drop_app_ge by lia.
  replace (S (length (Js.split_go pre "")) - length (Js.split_go pre ""))%nat
    with 1%nat by lia.
  simpl. apply (join_slash_split_go path "").
Qed.

(** *** What [encodeURI] does to a path *)

Lemma encodeURI_app (a b : string) :
  Js.encodeURI (a +:+ b) = Js.encodeURI a +:+ Js.encodeURI b.
Proof.
  induction a as [| c a IH]; [done |]. rewrite append_cons. simpl.
  destruct (Js.uri_kept c); rewrite IH; by rewrite ?append_cons.
Qed.

(** A text made of kept characters is left as it is, and is the image of no
    other text. *)
Lemma encodeURI_fixed (s : string) :
  forallb Js.uri_kept (String.list_ascii_of_string s) = true -> Js.encodeURI s = s.
Proof.
  induction s as [| c s IH]; [done |]. simpl. intros [Hc Hs]%andb_prop.
  rewrite Hc. by rewrite IH.
Qed.

Lemma encodeURI_eq_fixed (s t : string) :
  forallb Js.uri_kept (String.list_ascii_of_string t) = true ->
  Js.encodeURI s = t -> s = t.
Proof.
  revert t. induction s as [| c s IH]; intros t Ht; simpl.
  - by intros <-.
  - destruct (Js.uri_kept c) eqn:Hc.
    + intros <-. simpl in Ht. apply andb_prop in Ht as [_ Ht]. f_equal. by apply IH.
    + intros <-. simpl in Ht. discriminate Ht.
Qed.

(** An escaped character makes the text longer. *)
Lemma encodeURI_length (s : string) :
  (String.length s <= String.length (Js.encodeURI s))%nat.
Proof.
  induction s as [| c s IH]; simpl; [done |]. destruct (Js.uri_kept c); simpl; lia.
Qed.

Lemma encodeURI_same (s : string) :
  Js.encodeURI s = s -> forallb Js.uri_kept (String.list_ascii_of_string s) = true.
Proof.
  induction s as [| c s IH]; [done |]. simpl.
  destruct (Js.uri_kept c) eqn:Hc; simpl.
  - intros [= H]. by apply IH.
  - intros H. apply (f_equal String.length) in H. simpl in H.
    pose proof (encodeURI_length s). lia.
Qed.

Lemma hex_digit_not_slash (c : ascii) :
  Js.hex_digit (N_of_ascii c / 16) <> "/"%char
  /\ Js.hex_digit (N_of_ascii c mod 16) <> "/"%char.
Proof. by destruct c as [[] [] [] [] [] [] [] []]. Qed.

(** [encodeURI] keeps the slashes and adds none: it encodes part by part. *)
Lemma split_go_encodeURI (s : string) :
  forall cur cur' : string,
    String.rev cur' = Js.encodeURI (String.rev cur) ->
    Js.split_go (Js.encodeURI s) cur' = Js.encodeURI <$> Js.split_go s cur.
Proof.
  induction s as [| c s IH]; intros cur cur' Hcur; simpl.
  - by rewrite Hcur.
  - case_bool_decide as Hslash.
    + subst c. simpl. rewrite Hcur. f_equal. by apply IH.
    + destruct (Js.uri_kept c) eqn:Hc; simpl.
      * rewrite bool_decide_eq_false_2 by done. apply IH.
        rewrite !rev_cons, Hcur, encodeURI_app. simpl. by rewrite Hc.
      * destruct (hex_digit_not_slash c) as [H1 H2].
        rewrite !bool_decide_eq_false_2 by done. apply IH.
        rewrite !rev_cons, Hcur, encodeURI_app. simpl. rewrite Hc.
        by rewrite !append_assoc.
Qed.

Lemma split_slash_encodeURI (s : string) :
  Js.split_slash (Js.encodeURI s) = Js.encodeURI <$> Js.split_slash s.
Proof. by apply split_go_encodeURI. Qed.

Lemma public_prefix (base : string) :
  "mitigation-images" ∉ Js.split_slash base ->
  "mitigation-images" ∉ Js.split_slash (Js.encodeURI base +:+ "/storage/v1/object/public").
Proof.
  intros Hbase. unfold Js.split_slash.
  change (Js.encodeURI base +:+ "/storage/v1/object/public")
    with (Js.encodeURI base +:+ "/" +:+ "storage/v1/object/public").
  rewrite split_go_append. apply not_elem_of_app. split.
  - fold (Js.split_slash (Js.encodeURI base)). rewrite split_slash_encodeURI.
    intros (part & Hpart & Hin)%list_elem_of_fmap. apply Hbase.
    symmetry in Hpart. apply encodeURI_eq_fixed in Hpart; [by subst part | done].
  - vm_compute. intros H. repeat (apply elem_of_cons in H as [H | H]; [done |]).
    by apply elem_of_nil in H.
Qed.

Lemma getPublicUrl_marker (base path : string) :
  getPublicUrl base path
  = (Js.encodeURI base +:+ "/storage/v1/object/public") +:+ "/mitigation-images/"
      +:+ Js.encodeURI path.
Proof.
  unfold getPublicUrl. rewrite !encodeURI_app. by rewrite append_assoc.
Qed.

Lemma path_of_getPublicUrl (base path : string) :
  "mitigation-images" ∉ Js.split_slash base ->
  Submit.path_of_url (getPublicUrl base path) = Js.encodeURI path.
Proof.
  intros Hbase. rewrite getPublicUrl_marker. by apply path_of_url_marker, public_prefix.
Qed.

Lemma key_chars_fixed (s : string) (b : bool) :
  key_chars b s = true -> forallb Js.uri_kept (String.list_ascii_of_string s) = true.
Proof.
  revert b. induction s as [| c s IH]; intros b; simpl; [done |].
  case_bool_decide as Hc.
  - subst c. intros [_ H]%andb_prop. by rewrite (IH _ H).
  - intros [Hu H]%andb_prop. rewrite (IH _ H). unfold Js.uri_kept. rewrite Hu.
    by rewrite orb_true_r.
Qed.

Lemma storage_key_fixed (path : string) :
  storage_key path = true -> Js.encodeURI path = path.
Proof. intros H. by apply encodeURI_fixed, (key_chars_fixed path true). Qed.

(** X8.  The path the cleanup code recovers from a public URL
    ([split('/')], the parts after the first part equal to
    [mitigation-images], [join('/')]) is the path the file was uploaded to
    as [encodeURI] writes it, provided no part of the project URL is itself
    [mitigation-images].  So it is the uploaded path exactly when that path
    has no character that [encodeURI] escapes, as is the case for a storage
    key of plain parts, and a different path as soon as the file name has,
    for instance, a space. *)
Theorem path_of_public_url (base path : string) :
  "mitigation-images" ∉ Js.split_slash base ->
  Submit.path_of_url (getPublicUrl base path) = Js.encodeURI path
  /\ (Submit.path_of_url (getPublicUrl base path) = path
      <-> forallb Js.uri_kept (String.list_ascii_of_string path) = true)
  /\ (storage_key path = true -> Submit.path_of_url (getPublicUrl base path) = path)
  /\ (" "%char ∈ String.list_ascii_of_string path ->
      Submit.path_of_url (getPublicUrl base path) <> path).
Proof.
  intros Hbase. rewrite (path_of_getPublicUrl base path Hbase).
  split; [done |]. split; [| split].
  - split; [apply encodeURI_same | apply encodeURI_fixed].
  - apply storage_key_fixed.
  - intros Hsp Heq. apply encodeURI_same in Heq.
    rewrite forallb_forall in Heq. apply list_elem_of_In in Hsp.
    by specialize (Heq _ Hsp).
Qed.

Lemma base_has_no_marker :
  "mitigation-images" ∉ Js.split_slash "https://petgas.supabase.co".
Proof.
  vm_compute. intros H. repeat (apply elem_of_cons in H as [H | H]; [done |]).
  by apply elem_of_nil in H.
Qed.

(** X8 at concrete inputs: a plain file name, and one with a space. *)
Lemma path_of_public_url_witness :
  Submit.path_of_url (getPublicUrl "https://petgas.supabase.co" "c1/1700000000000_a.png")
  = "c1/1700000000000_a.png"
  /\ Submit.path_of_url
       (getPublicUrl "https://petgas.supabase.co" "c1/1700000000000_my photo.png")
     = "c1/1700000000000_my%20photo.png".
Proof.
  split.
  - apply (path_of_public_url "https://petgas.supabase.co" "c1/1700000000000_a.png");
      [apply base_has_no_marker | reflexivity].
  - apply (path_of_public_url "https://petgas.supabase.co" "c1/1700000000000_my photo.png").
    apply base_has_no_marker.
Defined.

(** ** The upload loop and the submission of a mitigation activity *)

Lemma getPublicUrl_nonempty (base path : string) : Js.not_str (getPublicUrl base path) = false.
Proof.
  unfold Js.not_str. apply bool_decide_eq_false_2. rewrite getPublicUrl_marker.
  destruct (Js.encodeURI base); discriminate.
Qed.

Lemma lookup_foldr_delete {A} (k : string) (l : list string) (m : gmap string A) :
  k ∉ l -> foldr delete m l !! k = m !! k.
Proof.
  induction l as [| x l IH]; intros Hk; simpl; [done |].
  apply not_elem_of_cons in Hk as [Hne Hk]. rewrite lookup_delete_ne by done. by apply IH.
Qed.

(** When no upload fails and the paths are new and distinct, the loop returns
    the public URL of every file, in order; removing the paths again gives
    the bucket it started from. *)
Lemma upload_from_ok (files : list Submit.FilePreview) :
  forall (i : nat) (e : Submit.env) (uid : string) (urls : list string)
         (s : Submit.state) (w : World),
    (forall j, (j < length files)%nat -> Submit.upload_fault (Submit.uploads e (i + j)) = None) ->
    NoDup (upload_paths i e uid files) ->
    (forall k, k ∈ upload_paths i e uid files -> bucket w !! k = None) ->
    exists w',
      Submit.upload_from i e uid files urls (s, w)
      = (inr (urls ++ (getPublicUrl (Submit.supabase_url e) <$> upload_paths i e uid files))%list,
         (s, w'))
      /\ db w' = db w
      /\ console w' = console w
      /\ calls w' = (calls w ++ (StorageUpload <$> upload_paths i e uid files))%list
      /\ foldr delete (bucket w') (upload_paths i e uid files) = bucket w
      /\ bucket w ⊆ bucket w'
      /\ forall j f, files !! j = Some f ->
           exists k, upload_paths i e uid files !! j = Some k
                     /\ bucket w' !! k = Some (Submit.file f).
Proof.
  induction files as [| f rest IH]; intros i e uid urls s w Hok Hdup Hfresh; simpl.
  - exists w. rewrite !app_nil_r. by repeat split.
  - unfold mbind, Async_bind, storage_upload. simpl.
    specialize (Hok 0%nat ltac:(simpl; lia)) as Hok0. rewrite Nat.add_0_r in Hok0.
    rewrite Hok0. simpl.
    set (k := Submit.fileName uid _ _) in *.
    rewrite (Hfresh k) by (simpl; left). simpl.
    rewrite getPublicUrl_nonempty.
    apply NoDup_cons in Hdup as [Hk Hdup].
    set (w1 := with_bucket _ _).
    destruct (IH (S i) e uid (urls ++ [getPublicUrl (Submit.supabase_url e) k])%list s w1)
      as (w' & Hrun & Hdb & Hcon & Hcalls & Hdel & Hsub & Hfiles).
    { intros j Hj. replace (S i + j)%nat with (i + S j)%nat by lia. apply Hok. simpl. lia. }
    { done. }
    { intros k' Hk'. unfold w1. simpl. rewrite lookup_insert_ne by (intros <-; done).
      apply Hfresh. by right. }
    exists w'. rewrite Hrun. rewrite <- app_assoc. simpl. repeat split; try done.
    + rewrite Hcalls. unfold w1. simpl. by rewrite <- app_assoc.
    + rewrite Hdel. unfold w1. simpl. apply delete_insert_id. apply Hfresh. by left.
    + etrans; [| exact Hsub]. unfold w1. simpl. apply insert_subseteq. apply Hfresh. by left.
    + intros [| j] f' Hf'; simpl in *.
      * injection Hf' as <-. exists k. split; [done |].
        eapply lookup_weaken; [| exact Hsub]. unfold w1. simpl. by rewrite lookup_insert_eq.
      * by apply Hfiles.
Qed.

Lemma elem_of_append_r (c : ascii) (a b : string) :
  c ∈ String.list_ascii_of_string b -> c ∈ String.list_ascii_of_string (a +:+ b).
Proof.
  intros Hc. induction a as [| x a IH]; [done |]. rewrite append_cons. simpl.
  by apply elem_of_cons; right.
Qed.

Lemma upload_paths_lookup (files : list Submit.FilePreview) (i : nat) (e : Submit.env)
    (uid : string) (j : nat) (f : Submit.FilePreview) :
  files !! j = Some f ->
  exists t, upload_paths i e uid files !! j
            = Some (Submit.fileName uid t (file_name (Submit.file f))).
Proof.
  revert i j. induction files as [| g rest IH]; intros i j Hf; [done |].
  destruct j as [| j]; simpl in *.
  - injection Hf as ->. by eexists.
  - by apply IH.
Qed.

Lemma path_of_public_urls (base : string) (paths : list string) :
  "mitigation-images" ∉ Js.split_slash base ->
  Submit.path_of_url <$> (getPublicUrl base <$> paths) = Js.encodeURI <$> paths.
Proof.
  intros Hbase. rewrite <- list_fmap_compose.
  apply list_fmap_ext. intros i x _. simpl. by apply path_of_getPublicUrl.
Qed.

Lemma storage_keys_fixed (paths : list string) :
  forallb storage_key paths = true -> Js.encodeURI <$> paths = paths.
Proof.
  intros Hkeys. rewrite <- (list_fmap_id paths) at 2.
  apply list_fmap_ext. intros i x Hx. simpl. apply storage_key_fixed.
  rewrite forallb_forall in Hkeys. apply Hkeys.
  apply list_elem_of_In. by apply list_elem_of_lookup_2 in Hx.
Qed.

(** No text is encoded to a text with a space. *)
Lemma encodeURI_no_space (s : string) :
  " "%char ∉ String.list_ascii_of_string (Js.encodeURI s).
Proof.
  induction s as [| c s IH]; simpl; [by apply not_elem_of_nil |].
  destruct (Js.uri_kept c) eqn:Hc; simpl.
  - apply not_elem_of_cons. split; [by intros <- | done].
  - repeat (apply not_elem_of_cons; split); try done.
    + by destruct c as [[] [] [] [] [] [] [] []].
    + by destruct c as [[] [] [] [] [] [] [] []].
Qed.

(** When every image is uploaded and the insert of the entry then fails: the
    requests issued, the error shown, and the bucket the removal leaves. *)
Lemma failed_entry_insert_run (p : Submit.state) (w : World) (e : Submit.env)
    (u : User) (prof : ClientProfile.t) (err : Js.PostgrestError) :
  Submit.user p = Some u ->
  Submit.profile p = Some prof ->
  (Js.not_str (Submit.mitigatedPlasticKg p)
   || Js.le_zero (Js.parseFloat (Submit.mitigatedPlasticKg p))) = false ->
  let paths := upload_paths 0 e (user_id u) (Submit.imageFiles p) in
  let kg := Js.parseFloat (Submit.mitigatedPlasticKg p) in
  (forall j, (j < length (Submit.imageFiles p))%nat ->
             Submit.upload_fault (Submit.uploads e j) = None) ->
  NoDup paths ->
  (forall k, k ∈ paths -> bucket w !! k = None) ->
  "mitigation-images" ∉ Js.split_slash (Submit.supabase_url e) ->
  Submit.remove_fault e = None ->
  Pg.outcome (Submit.entry_fault e)
    (Pg.insert_entry (Submit.entry_uuid e) (user_id u) kg (Submit.db_now e)) (db w)
  = inl err ->
  let pw := run (Submit.handleSubmitPlasticMitigation p e) p w in
  exists uploaded : gmap string File,
    foldr delete uploaded paths = bucket w
    /\ (forall j f, Submit.imageFiles p !! j = Some f ->
          exists k, paths !! j = Some k /\ uploaded !! k = Some (Submit.file f))
    /\ bucket (snd pw) = foldr delete uploaded (Js.encodeURI <$> paths)
    /\ db (snd pw) = db w
    /\ Submit.mitigationError (fst pw)
       = Js.or_str (Js.pg_message err) "An unknown error occurred."
    /\ calls (snd pw)
       = (calls w ++ (StorageUpload <$> paths)
            ++ InsertEntry (user_id u) kg
            :: match paths with
               | [] => []
               | _ :: _ => [StorageRemove (Js.encodeURI <$> paths)]
               end)%list.
Proof.
  intros Hu Hp Hkg paths kg Hok Hdup Hfresh Hbase Hrm Hins pw. subst pw.
  unfold Submit.handleSubmitPlasticMitigation. rewrite Hu, Hp, Hkg.
  destruct (upload_from_ok (Submit.imageFiles p) 0 e (user_id u) []
              (Submit.setMitigationError "" (Submit.setMitigationMessage "" p)) w)
    as (w' & Hrun & Hdb & Hcon & Hcalls & Hdel & _ & Hfiles); [done | done | done |].
  fold paths in Hrun, Hcalls, Hdel, Hfiles.
  exists (bucket w'). split; [exact Hdel |]. split; [exact Hfiles |].
  step_async. rewrite Hrun. simpl. rewrite Hdb. fold kg. rewrite Hins. simpl.
  rewrite path_of_public_urls by done. clearbody paths.
  destruct paths as [| k ks]; simpl.
  - rewrite Hcalls. simpl. by rewrite app_nil_r.
  - unfold storage_remove. rewrite Hrm. simpl. rewrite Hcalls.
    repeat split; try done. by rewrite <- !app_assoc.
Qed.

(** X9.  When every image is uploaded and the insert of the entry then
    fails, the cleanup undoes the uploads of files whose paths are storage
    keys of plain parts: the handler issues the uploads, the insert and, if
    there was an image, one removal of exactly the uploaded paths; the
    bucket ends as it was before the call, no row is written, and the error
    of the insert is shown.  This needs the removal to reach the storage,
    paths that are new and distinct, and a project URL without a part
    [mitigation-images]. *)
Theorem failed_entry_insert_removes_uploads (p : Submit.state) (w : World) (e : Submit.env)
    (u : User) (prof : ClientProfile.t) (err : Js.PostgrestError) :
  Submit.user p = Some u ->
  Submit.profile p = Some prof ->
  (Js.not_str (Submit.mitigatedPlasticKg p)
   || Js.le_zero (Js.parseFloat (Submit.mitigatedPlasticKg p))) = false ->
  let paths := upload_paths 0 e (user_id u) (Submit.imageFiles p) in
  let kg := Js.parseFloat (Submit.mitigatedPlasticKg p) in
  (forall j, (j < length (Submit.imageFiles p))%nat ->
             Submit.upload_fault (Submit.uploads e j) = None) ->
  NoDup paths ->
  (forall k, k ∈ paths -> bucket w !! k = None) ->
  forallb storage_key paths = true ->
  "mitigation-images" ∉ Js.split_slash (Submit.supabase_url e) ->
  Submit.remove_fault e = None ->
  Pg.outcome (Submit.entry_fault e)
    (Pg.insert_entry (Submit.entry_uuid e) (user_id u) kg (Submit.db_now e)) (db w)
  = inl err ->
  let pw := run (Submit.handleSubmitPlasticMitigation p e) p w in
  bucket (snd pw) = bucket w
  /\ db (snd pw) = db w
  /\ Submit.mitigationError (fst pw)
     = Js.or_str (Js.pg_message err) "An unknown error occurred."
  /\ calls (snd pw)
     = (calls w ++ (StorageUpload <$> paths)
          ++ InsertEntry (user_id u) kg
          :: match paths with [] => [] | _ :: _ => [StorageRemove paths] end)%list.
Proof.
  intros Hu Hp Hkg paths kg Hok Hdup Hfresh Hkeys Hbase Hrm Hins pw.
  destruct (failed_entry_insert_run p w e u prof err Hu Hp Hkg Hok Hdup Hfresh Hbase Hrm Hins)
    as (uploaded & Hdel & _ & Hb & Hdb & Herr & Hcalls).
  fold paths kg pw in Hdel, Hb, Hdb, Herr, Hcalls.
  rewrite (storage_keys_fixed paths Hkeys) in Hb, Hcalls.
  split; [by rewrite Hb |]. by repeat split.
Qed.

(** X9 at a concrete input: the amount "Infinity" passes the guard and is
    refused by the store after two uploads. *)
Lemma failed_entry_insert_removes_uploads_witness :
  let p := Scenario.submit_page "Infinity" [Scenario.image "a.png"; Scenario.image "b.png"] in
  let w := Scenario.world (Scenario.store 0 ∅) in
  let pw := run (Submit.handleSubmitPlasticMitigation p (Scenario.submit_env None)) p w in
  bucket (snd pw) = bucket w
  /\ Submit.mitigationError (fst pw)
     = "null value violates not-null constraint in column mitigated_plastic_kg"
  /\ calls (snd pw)
     = [StorageUpload "c1/1700000000000_a.png"; StorageUpload "c1/1700000000001_b.png";
        InsertEntry "c1" (Js.Infinity false);
        StorageRemove ["c1/1700000000000_a.png"; "c1/1700000000001_b.png"]].
Proof.
  intros p w pw.
  destruct (failed_entry_insert_removes_uploads p w (Scenario.submit_env None)
              Scenario.user1 (ClientProfile.of_row "c1" (Scenario.alice 0))
              (Pg.not_null_violation "mitigated_plastic_kg")
              ltac:(reflexivity) ltac:(reflexivity) ltac:(vm_compute; reflexivity)
              ltac:(intros j _; reflexivity)
              ltac:(compute_done)
              ltac:(intros k _; apply lookup_empty)
              ltac:(vm_compute; reflexivity)
              ltac:(apply base_has_no_marker)
              ltac:(reflexivity) ltac:(vm_compute; reflexivity))
    as (Hb & _ & He & Hc).
  split; [exact Hb |]. split; [exact He | exact Hc].
Defined.

(** X20.  The cleanup misses every file whose path has a space: when every
    image is uploaded and the insert of the entry then fails, the removal
    names the path as [encodeURI] wrote it into the public URL, with [%20]
    for the space, and the file stays in the bucket under the path it was
    uploaded to. *)
Theorem failed_entry_insert_keeps_spaced_names (p : Submit.state) (w : World)
    (e : Submit.env) (u : User) (prof : ClientProfile.t) (err : Js.PostgrestError)
    (j : nat) (f : Submit.FilePreview) :
  Submit.user p = Some u ->
  Submit.profile p = Some prof ->
  (Js.not_str (Submit.mitigatedPlasticKg p)
   || Js.le_zero (Js.parseFloat (Submit.mitigatedPlasticKg p))) = false ->
  let paths := upload_paths 0 e (user_id u) (Submit.imageFiles p) in
  let kg := Js.parseFloat (Submit.mitigatedPlasticKg p) in
  (forall j, (j < length (Submit.imageFiles p))%nat ->
             Submit.upload_fault (Submit.uploads e j) = None) ->
  NoDup paths ->
  (forall k, k ∈ paths -> bucket w !! k = None) ->
  "mitigation-images" ∉ Js.split_slash (Submit.supabase_url e) ->
  Submit.remove_fault e = None ->
  Pg.outcome (Submit.entry_fault e)
    (Pg.insert_entry (Submit.entry_uuid e) (user_id u) kg (Submit.db_now e)) (db w)
  = inl err ->
  Submit.imageFiles p !! j = Some f ->
  " "%char ∈ String.list_ascii_of_string (file_name (Submit.file f)) ->
  let pw := run (Submit.handleSubmitPlasticMitigation p e) p w in
  exists k,
    paths !! j = Some k
    /\ bucket w !! k = None
    /\ bucket (snd pw) !! k = Some (Submit.file f)
    /\ StorageRemove (Js.encodeURI <$> paths) ∈ calls (snd pw)
    /\ k ∉ Js.encodeURI <$> paths.
Proof.
  intros Hu Hp Hkg paths kg Hok Hdup Hfresh Hbase Hrm Hins Hf Hspace pw.
  destruct (failed_entry_insert_run p w e u prof err Hu Hp Hkg Hok Hdup Hfresh Hbase Hrm Hins)
    as (uploaded & Hdel & Hfiles & Hb & Hdb & Herr & Hcalls).
  fold paths kg pw in Hdel, Hfiles, Hb, Hdb, Herr, Hcalls.
  destruct (Hfiles j f Hf) as (k & Hk & Hup). exists k.
  assert (Hin : k ∈ paths) by (by apply list_elem_of_lookup_2 in Hk).
  assert (Hsp : " "%char ∈ String.list_ascii_of_string k).
  { destruct (upload_paths_lookup (Submit.imageFiles p) 0 e (user_id u) j f Hf)
      as (t & Hk'). fold paths in Hk'. rewrite Hk in Hk'. injection Hk' as ->.
    unfold Submit.fileName. by do 4 apply elem_of_append_r. }
  assert (Hnot : k ∉ Js.encodeURI <$> paths).
  { intros (k' & -> & _)%list_elem_of_fmap. by apply (encodeURI_no_space k'). }
  split; [exact Hk |]. split; [by apply Hfresh |]. split; [| split; [| exact Hnot]].
  - rewrite Hb. by rewrite lookup_foldr_delete.
  - rewrite Hcalls. destruct paths as [| k0 ks]; [done |].
    apply elem_of_app. right. apply elem_of_app. right. apply elem_of_cons. right.
    by apply elem_of_cons; left.
Qed.

(** X20 at a concrete input: a photo named "my photo.png" is left behind. *)
Lemma failed_entry_insert_keeps_spaced_names_witness :
  let p := Scenario.submit_page "Infinity"
             [Scenario.image "a.png"; Scenario.image "my photo.png"] in
  let w := Scenario.world (Scenario.store 0 ∅) in
  let pw := run (Submit.handleSubmitPlasticMitigation p (Scenario.submit_env None)) p w in
  bucket (snd pw) !! "c1/1700000000001_my photo.png"
  = Some {| file_name := "my photo.png"; file_bytes := "JFIF" |}
  /\ StorageRemove ["c1/1700000000000_a.png"; "c1/1700000000001_my%20photo.png"]
     ∈ calls (snd pw).
Proof.
  intros p w pw.
  destruct (failed_entry_insert_keeps_spaced_names p w (Scenario.submit_env None)
              Scenario.user1 (ClientProfile.of_row "c1" (Scenario.alice 0))
              (Pg.not_null_violation "mitigated_plastic_kg") 1
              (Scenario.image "my photo.png")
              ltac:(reflexivity) ltac:(reflexivity) ltac:(vm_compute; reflexivity)
              ltac:(intros j _; reflexivity)
              ltac:(compute_done)
              ltac:(intros k _; apply lookup_empty)
              ltac:(apply base_has_no_marker)
              ltac:(reflexivity) ltac:(vm_compute; reflexivity)
              ltac:(reflexivity) ltac:(compute_done))
    as (k & Hk & _ & Hb & Hc & _).
  injection Hk as <-. split; [exact Hb | exact Hc].
Defined.
(** When the upload of the [j]-th file fails after the earlier ones
    succeeded, the loop throws the upload error and every earlier file is in
    the bucket. *)
Lemma upload_from_fails (files : list Submit.FilePreview) :
  forall (i : nat) (e : Submit.env) (uid : string) (urls : list string)
         (s : Submit.state) (w : World) (j : nat) (f : Submit.FilePreview) (msg : string),
    files !! j = Some f ->
    (forall k, (k < j)%nat -> Submit.upload_fault (Submit.uploads e (i + k)) = None) ->
    Submit.upload_fault (Submit.uploads e (i + j)) = Some msg ->
    NoDup (take j (upload_paths i e uid files)) ->
    (forall k, k ∈ take j (upload_paths i e uid files) -> bucket w !! k = None) ->
    exists w',
      Submit.upload_from i e uid files urls (s, w)
      = (inl (Js.Error (Submit.upload_error (file_name (Submit.file f)) msg)), (s, w'))
      /\ db w' = db w
      /\ calls w' = (calls w ++ (StorageUpload <$> take (S j) (upload_paths i e uid files)))%list
      /\ bucket w ⊆ bucket w'
      /\ forall k g, (k < j)%nat -> files !! k = Some g ->
           exists path, upload_paths i e uid files !! k = Some path
                        /\ bucket w' !! path = Some (Submit.file g).
Proof.
  induction files as [| g rest IH]; intros i e uid urls s w j f msg Hf Hok Hfail Hdup Hfresh;
    [done |].
  simpl. unfold mbind, Async_bind, storage_upload. simpl.
  destruct j as [| j]; simpl in *.
  - injection Hf as ->. rewrite Nat.add_0_r in Hfail. rewrite Hfail. simpl.
    eexists. split; [done |]. simpl. repeat split; try done. intros k g' Hk. lia.
  - pose proof (Hok 0%nat ltac:(lia)) as Hok0. rewrite Nat.add_0_r in Hok0.
    rewrite Hok0. simpl.
    set (path := Submit.fileName uid _ _) in *.
    rewrite (Hfresh path) by (by left). simpl.
    rewrite getPublicUrl_nonempty.
    apply NoDup_cons in Hdup as [Hpath Hdup].
    set (w1 := with_bucket _ _).
    destruct (IH (S i) e uid (urls ++ [getPublicUrl (Submit.supabase_url e) path])%list
                s w1 j f msg Hf)
      as (w' & Hrun & Hdb & Hcalls & Hsub & Hfiles).
    { intros k Hk. replace (S i + k)%nat with (i + S k)%nat by lia. apply Hok. lia. }
    { by replace (S i + j)%nat with (i + S j)%nat by lia. }
    { done. }
    { intros k Hk. unfold w1. simpl. rewrite lookup_insert_ne by (intros <-; done).
      apply Hfresh. by right. }
    exists w'. rewrite Hrun. repeat split; try done.
    + rewrite Hcalls. unfold w1. simpl. by rewrite <- app_assoc.
    + etrans; [| exact Hsub]. unfold w1. simpl. apply insert_subseteq. apply Hfresh. by left.
    + intros [| k] g' Hk Hg'; simpl in *.
      * injection Hg' as <-. exists path. split; [done |].
        eapply lookup_weaken; [| exact Hsub]. unfold w1. simpl. by rewrite lookup_insert_eq.
      * apply Hfiles; [lia | done].
Qed.

(** X10.  When the upload of the [j]-th image fails after the earlier ones
    succeeded, [handleSubmitPlasticMitigation] shows the upload error of
    that image, has issued the uploads up to it and nothing else (no
    removal, no insert), leaves the tables unchanged, and every image
    uploaded before it is still in the bucket. *)
Theorem failed_upload_keeps_uploaded_files (p : Submit.state) (w : World) (e : Submit.env)
    (u : User) (prof : ClientProfile.t) (j : nat) (f : Submit.FilePreview) (msg : string) :
  Submit.user p = Some u ->
  Submit.profile p = Some prof ->
  (Js.not_str (Submit.mitigatedPlasticKg p)
   || Js.le_zero (Js.parseFloat (Submit.mitigatedPlasticKg p))) = false ->
  let paths := upload_paths 0 e (user_id u) (Submit.imageFiles p) in
  Submit.imageFiles p !! j = Some f ->
  (forall k, (k < j)%nat -> Submit.upload_fault (Submit.uploads e k) = None) ->
  Submit.upload_fault (Submit.uploads e j) = Some msg ->
  NoDup (take j paths) ->
  (forall k, k ∈ take j paths -> bucket w !! k = None) ->
  let pw := run (Submit.handleSubmitPlasticMitigation p e) p w in
  Submit.mitigationError (fst pw) = Submit.upload_error (file_name (Submit.file f)) msg
  /\ calls (snd pw) = (calls w ++ (StorageUpload <$> take (S j) paths))%list
  /\ db (snd pw) = db w
  /\ bucket w ⊆ bucket (snd pw)
  /\ forall k g, (k < j)%nat -> Submit.imageFiles p !! k = Some g ->
       exists path, paths !! k = Some path /\ bucket (snd pw) !! path = Some (Submit.file g).
Proof.
  intros Hu Hp Hkg paths Hf Hok Hfail Hdup Hfresh pw. subst pw.
  unfold Submit.handleSubmitPlasticMitigation. rewrite Hu, Hp, Hkg.
  destruct (upload_from_fails (Submit.imageFiles p) 0 e (user_id u) []
              (Submit.setMitigationError "" (Submit.setMitigationMessage "" p)) w j f msg)
    as (w' & Hrun & Hdb & Hcalls & Hsub & Hfiles); try done.
  fold paths in Hcalls, Hfiles.
  step_async. rewrite Hrun. simpl. by repeat split.
Qed.

(** X10 at a concrete input: the third of three uploads fails. *)
Lemma failed_upload_keeps_uploaded_files_witness :
  let p := Scenario.submit_page "12.5" [Scenario.image "a.png"; Scenario.image "b.png";
                                        Scenario.image "c.png"] in
  let w := Scenario.world (Scenario.store 0 ∅) in
  let pw := run (Submit.handleSubmitPlasticMitigation p (Scenario.submit_env (Some 2%nat)))
              p w in
  Submit.mitigationError (fst pw) = "Failed to upload c.png: Payload too large"
  /\ calls (snd pw) = [StorageUpload "c1/1700000000000_a.png";
                       StorageUpload "c1/1700000000001_b.png";
                       StorageUpload "c1/1700000000002_c.png"]
  /\ bucket (snd pw) !! "c1/1700000000001_b.png"
     = Some {| file_name := "b.png"; file_bytes := "JFIF" |}.
Proof.
  intros p w pw.
  destruct (failed_upload_keeps_uploaded_files p w (Scenario.submit_env (Some 2%nat))
              Scenario.user1 (ClientProfile.of_row "c1" (Scenario.alice 0)) 2
              (Scenario.image "c.png") "Payload too large"
              ltac:(reflexivity) ltac:(reflexivity) ltac:(vm_compute; reflexivity)
              ltac:(reflexivity)
              ltac:(intros k Hk; destruct k as [| [| k]]; [reflexivity | reflexivity | lia])
              ltac:(reflexivity)
              ltac:(compute_done)
              ltac:(intros k _; apply lookup_empty))
    as (He & Hc & _ & _ & Hf).
  split; [exact He |]. split; [exact Hc |].
  destruct (Hf 1%nat (Scenario.image "b.png") ltac:(lia) eq_refl) as (path & Hp & Hb).
  injection Hp as <-. exact Hb.
Defined.

(** The insert of the image records succeeds when their entry exists and the
    generated keys are new and distinct; it adds one row per record and
    changes no other. *)
Lemma insert_images_from_ok (records : list (string * string)) :
  forall (i : nat) (ids : nat -> string) (db_now : string)
         (entries : gmap string Pg.MitigationEntry.row)
         (t : gmap string Pg.MitigationImage.row),
    (forall r, r ∈ records -> is_Some (entries !! fst r)) ->
    (forall j, (j < length records)%nat -> t !! ids (i + j)%nat = None) ->
    (forall j1 j2, (j1 < j2 < length records)%nat -> ids (i + j1)%nat <> ids (i + j2)%nat) ->
    exists t',
      Pg.insert_images_from i ids records db_now entries t = inr t'
      /\ t ⊆ t'
      /\ (forall k, (forall j, (j < length records)%nat -> k <> ids (i + j)%nat) ->
                     t' !! k = t !! k)
      /\ forall j r, records !! j = Some r ->
           t' !! ids (i + j)%nat = Some (image_row (fst r) (snd r) db_now).
Proof.
  induction records as [| [entry url] rest IH]; intros i ids db_now entries t Hfk Hfresh Hdup;
    simpl.
  - exists t. by repeat split.
  - destruct (Hfk (entry, url)) as [x Hx]; [by left |]. simpl in Hx.
    rewrite bool_decide_eq_false_2 by (by rewrite Hx).
    pose proof (Hfresh 0%nat ltac:(simpl; lia)) as H0. rewrite Nat.add_0_r in H0.
    rewrite bool_decide_eq_false_2 by (rewrite H0; by intros [? ?]).
    destruct (IH (S i) ids db_now entries
                (<[ids i := image_row entry url db_now]> t))
      as (t' & Hrun & Hsub & Hother & Hrows).
    { intros r Hr. apply Hfk. by right. }
    { intros j Hj. replace (S i + j)%nat with (i + S j)%nat by lia.
      rewrite lookup_insert_ne.
      - apply Hfresh. simpl. lia.
      - replace i with (i + 0)%nat at 1 by lia. apply Hdup. simpl. lia. }
    { intros j1 j2 Hj. replace (S i + j1)%nat with (i + S j1)%nat by lia.
      replace (S i + j2)%nat with (i + S j2)%nat by lia. apply Hdup. simpl. lia. }
    exists t'. split; [exact Hrun |]. split; [| split].
    + etrans; [| exact Hsub]. by apply insert_subseteq.
    + intros k Hk. rewrite Hother.
      * apply lookup_insert_ne. intros <-. apply (Hk 0%nat); [simpl; lia | by rewrite Nat.add_0_r].
      * intros j Hj. replace (S i + j)%nat with (i + S j)%nat by lia. apply Hk. simpl. lia.
    + intros [| j] r Hr; simpl in Hr.
      * injection Hr as <-. rewrite Nat.add_0_r. simpl.
        eapply lookup_weaken; [| exact Hsub]. by rewrite lookup_insert_eq.
      * replace (i + S j)%nat with (S i + j)%nat by lia. by apply Hrows.
Qed.

Lemma upload_paths_length (files : list Submit.FilePreview) (i : nat) (e : Submit.env)
    (uid : string) :
  length (upload_paths i e uid files) = length files.
Proof. revert i. induction files as [| f rest IH]; intros i; simpl; [done |]. by rewrite IH. Qed.

Lemma parseFloat_finite_nonempty (s : string) (neg : bool) (m : positive) (x : Z) :
  Js.parseFloat s = Js.Finite neg m x -> Js.not_str s = false.
Proof. intros H. unfold Js.not_str. apply bool_decide_eq_false_2. by intros ->. Qed.

(** X11.  A submission whose amount parses to a finite Number above 0, by a
    signed-in client whose row exists, when no request fails, the paths are
    storage keys of plain parts and the generated paths and keys are new and
    distinct, stores everything: one entry with the client, the Number read
    from the amount and the time of the store; every picked file in the
    bucket at its path; one image row per file with the key generated for
    it, the entry and the public URL of the file; the clients, rewards and
    ledger are untouched, nothing is logged, and the form is cleared with
    the success message. *)
Theorem submission_stores_entry_and_images (p : Submit.state) (w : World) (e : Submit.env)
    (u : User) (prof : ClientProfile.t) (m : positive) (x : Z) :
  Submit.user p = Some u ->
  Submit.profile p = Some prof ->
  Js.parseFloat (Submit.mitigatedPlasticKg p) = Js.Finite false m x ->
  let files := Submit.imageFiles p in
  let paths := upload_paths 0 e (user_id u) files in
  (forall j, (j < length files)%nat -> Submit.upload_fault (Submit.uploads e j) = None) ->
  NoDup paths ->
  (forall k, k ∈ paths -> bucket w !! k = None) ->
  forallb storage_key paths = true ->
  Submit.entry_fault e = None ->
  Submit.images_fault e = None ->
  is_Some (Pg.clients (db w) !! user_id u) ->
  Pg.plastic_mitigation_entries (db w) !! Submit.entry_uuid e = None ->
  (forall j, (j < length files)%nat ->
             Pg.mitigation_activity_images (db w) !! Submit.image_uuids e j = None) ->
  (forall j1 j2, (j1 < j2 < length files)%nat ->
                 Submit.image_uuids e j1 <> Submit.image_uuids e j2) ->
  let pw := run (Submit.handleSubmitPlasticMitigation p e) p w in
  Submit.mitigationMessage (fst pw) = "Plastic mitigation activity logged successfully!"
  /\ Submit.mitigationError (fst pw) = ""
  /\ Submit.mitigatedPlasticKg (fst pw) = ""
  /\ Submit.imageFiles (fst pw) = []
  /\ Pg.plastic_mitigation_entries (db (snd pw))
     = <[Submit.entry_uuid e :=
           {| Pg.MitigationEntry.client_id := user_id u;
              Pg.MitigationEntry.mitigated_plastic_kg := Js.Finite false m x;
              Pg.MitigationEntry.created_at := Submit.db_now e |}]>
         (Pg.plastic_mitigation_entries (db w))
  /\ (forall j f, files !! j = Some f ->
        exists k, paths !! j = Some k
                  /\ bucket (snd pw) !! k = Some (Submit.file f)
                  /\ Pg.mitigation_activity_images (db (snd pw)) !! Submit.image_uuids e j
                     = Some (image_row (Submit.entry_uuid e)
                               (getPublicUrl (Submit.supabase_url e) k) (Submit.db_now e)))
  /\ Pg.clients (db (snd pw)) = Pg.clients (db w)
  /\ Pg.rewards (db (snd pw)) = Pg.rewards (db w)
  /\ Pg.client_rewards (db (snd pw)) = Pg.client_rewards (db w)
  /\ console (snd pw) = console w.
Proof.
  intros Hu Hp Hkg files paths Hok Hdup Hfresh _ Hef Hif [crow Hcrow] Hentry Himg Hids pw.
  subst pw. unfold Submit.handleSubmitPlasticMitigation.
  rewrite Hu, Hp, (parseFloat_finite_nonempty _ _ _ _ Hkg), Hkg. simpl.
  destruct (upload_from_ok files 0 e (user_id u) []
              (Submit.setMitigationError "" (Submit.setMitigationMessage "" p)) w)
    as (w' & Hrun & Hdb & Hcon & Hcalls & Hdel & Hsub & Hfiles); [done | done | done |].
  fold paths in Hrun, Hcalls, Hdel, Hfiles. fold files.
  pose proof (upload_paths_length files 0 e (user_id u)) as Hlen. fold paths in Hlen.
  set (entry := {| Pg.MitigationEntry.client_id := user_id u;
                   Pg.MitigationEntry.mitigated_plastic_kg := Js.Finite false m x;
                   Pg.MitigationEntry.created_at := Submit.db_now e |}).
  destruct (insert_images_from_ok
              ((fun url => (Submit.entry_uuid e, url))
                 <$> (getPublicUrl (Submit.supabase_url e) <$> paths))
              0 (Submit.image_uuids e) (Submit.db_now e)
              (<[Submit.entry_uuid e := entry]> (Pg.plastic_mitigation_entries (db w)))
              (Pg.mitigation_activity_images (db w)))
    as (t' & Himgs & _ & _ & Hrows).
  { intros r (url & -> & _)%list_elem_of_fmap. simpl. by rewrite lookup_insert_eq. }
  { intros j Hj. rewrite !length_fmap, Hlen in Hj. by apply Himg. }
  { intros j1 j2 Hj. rewrite !length_fmap, Hlen in Hj. by apply Hids. }
  assert (Hrow : forall j k, paths !! j = Some k ->
            t' !! Submit.image_uuids e j
            = Some (image_row (Submit.entry_uuid e)
                      (getPublicUrl (Submit.supabase_url e) k) (Submit.db_now e))).
  { intros j k Hk. apply (Hrows j (Submit.entry_uuid e, getPublicUrl (Submit.supabase_url e) k)).
    by rewrite !list_lookup_fmap, Hk. }
  clear Hrows.
  step_async. rewrite Hrun. simpl. rewrite Hdb. unfold Pg.outcome. rewrite Hef.
  unfold Pg.insert_entry. rewrite Hcrow. simpl. rewrite Hentry. simpl. fold entry.
  rewrite Hif. unfold Pg.insert_images. simpl.
  remember (getPublicUrl (Submit.supabase_url e) <$> paths) as urls eqn:Hurls.
  destruct urls as [| u0 us].
  - simpl. repeat split; try done.
    intros j f Hf. destruct (Hfiles j f Hf) as (k & Hk & _).
    destruct paths; [done | discriminate Hurls].
  - simpl in Himgs |- *. rewrite Himgs. simpl. repeat split; try done.
    intros j f Hf. destruct (Hfiles j f Hf) as (k & Hk & Hb).
    exists k. split; [done |]. split; [done |]. by apply Hrow.
Qed.

(** X11 at a concrete input: 12.5 kg, the Number 7036874417766400 * 2^-49,
    with two images. *)
Lemma submission_stores_entry_and_images_witness :
  let p := Scenario.submit_page "12.5" [Scenario.image "a.png"; Scenario.image "b.png"] in
  let w := Scenario.world (Scenario.store 0 ∅) in
  let pw := run (Submit.handleSubmitPlasticMitigation p (Scenario.submit_env None)) p w in
  Submit.mitigationMessage (fst pw) = "Plastic mitigation activity logged successfully!"
  /\ Pg.plastic_mitigation_entries (db (snd pw)) !! "m1"
     = Some {| Pg.MitigationEntry.client_id := "c1";
               Pg.MitigationEntry.mitigated_plastic_kg :=
                 Js.Finite false 7036874417766400 (-49);
               Pg.MitigationEntry.created_at := "2025-04-01T00:00:00Z" |}
  /\ bucket (snd pw) !! "c1/1700000000001_b.png"
     = Some {| file_name := "b.png"; file_bytes := "JFIF" |}
  /\ Pg.mitigation_activity_images (db (snd pw)) !! "img1"
     = Some (image_row "m1"
               "https://petgas.supabase.co/storage/v1/object/public/mitigation-images/c1/1700000000001_b.png"
               "2025-04-01T00:00:00Z").
Proof.
  intros p w pw.
  destruct (submission_stores_entry_and_images p w (Scenario.submit_env None)
              Scenario.user1 (ClientProfile.of_row "c1" (Scenario.alice 0))
              7036874417766400%positive (-49)%Z
              ltac:(reflexivity) ltac:(reflexivity) ltac:(vm_compute; reflexivity)
              ltac:(intros j _; reflexivity)
              ltac:(compute_done)
              ltac:(intros k _; apply lookup_empty)
              ltac:(vm_compute; reflexivity)
              ltac:(reflexivity) ltac:(reflexivity)
              ltac:(vm_compute; eauto)
              ltac:(apply lookup_empty)
              ltac:(intros j _; apply lookup_empty)
              ltac:(intros j1 j2 [H1 H2]; destruct j1 as [| [| j1]], j2 as [| [| j2]];
                    simpl in *; try lia; vm_compute; discriminate))
    as (Hm & _ & _ & _ & He & Hf & _).
  split; [exact Hm |]. split.
  - fold pw in He. rewrite He. apply lookup_insert_eq.
  - destruct (Hf 1%nat (Scenario.image "b.png") eq_refl) as (k & Hk & Hb & Hi).
    injection Hk as <-. split; [exact Hb | exact Hi].
Defined.

Lemma filter_index_keep_all {A} (index i : nat) (l : list A) :
  (index < i)%nat -> Js.filter_index (fun i => negb (i =? index)%nat) i l = l.
Proof.
  revert i. induction l as [| x l IH]; intros i Hi; simpl; [done |].
  rewrite (proj2 (Nat.eqb_neq i index)) by lia. simpl. rewrite IH by lia. done.
Qed.

(** Keeping the elements whose index is not [index] deletes the element at
    [index]. *)
Lemma filter_index_delete {A} (index i : nat) (l : list A) :
  Js.filter_index (fun j => negb (j =? i + index)%nat) i l = delete index l.
Proof.
  revert i index. induction l as [| x l IH]; intros i index; simpl; [done |].
  destruct index as [| index]; simpl.
  - rewrite Nat.add_0_r, Nat.eqb_refl. simpl. apply filter_index_keep_all. lia.
  - rewrite (proj2 (Nat.eqb_neq i (i + S index))) by lia. simpl. f_equal.
    replace (i + S index)%nat with (S i + index)%nat by lia. apply IH.
Qed.

(** X12.  [Submit.removeImage] never touches the world.
    For an index of the list it removes exactly the file at that index: the
    list is one shorter, the files before it keep their place and the files
    after it move up by one.  For an index outside the list it throws a
    TypeError and leaves the page as it was.  Picking one file with
    [Submit.handleImageChange] and removing the last index gives the
    list back. *)
Theorem removeImage_deletes_at_index (index : nat) (p : Submit.state) (w : World) :
  let pw := run (Submit.removeImage index p) p w in
  snd pw = w
  /\ (forall f, Submit.imageFiles p !! index = Some f ->
        fst pw = Submit.setImageFiles (delete index (Submit.imageFiles p)) p
        /\ S (length (Submit.imageFiles (fst pw))) = length (Submit.imageFiles p)
        /\ (forall j, (j < index)%nat ->
              Submit.imageFiles (fst pw) !! j = Submit.imageFiles p !! j)
        /\ (forall j, (index <= j)%nat ->
              Submit.imageFiles (fst pw) !! j = Submit.imageFiles p !! S j))
  /\ (Submit.imageFiles p !! index = None ->
      fst pw = p
      /\ fst (Submit.removeImage index p (p, w))
         = inl (Js.TypeError "Cannot read properties of undefined (reading 'previewUrl')"))
  /\ (forall (s : Submit.state) (file : File) (previews : nat -> string),
        Submit.imageFiles
          (fst (run (Submit.removeImage (length (Submit.imageFiles s))
                       (Submit.handleImageChange (Some [file]) previews s))
                  (Submit.handleImageChange (Some [file]) previews s) w))
        = Submit.imageFiles s).
Proof.
  unfold Submit.removeImage. split; [| split; [| split]].
  - by destruct (Submit.imageFiles p !! index); step_async.
  - intros f Hf. rewrite Hf. step_async.
    rewrite (filter_index_delete index 0). split; [done |]. simpl.
    split; [| split].
    + rewrite length_delete by eauto. apply lookup_lt_Some in Hf. lia.
    + intros j Hj. by rewrite list_lookup_delete_lt.
    + intros j Hj. by rewrite list_lookup_delete_ge.
  - intros Hf. rewrite Hf. by step_async.
  - intros s file previews. simpl.
    rewrite list_lookup_middle by done. step_async.
    rewrite (filter_index_delete (length (Submit.imageFiles s)) 0).
    rewrite delete_middle. by rewrite app_nil_r.
Qed.

(** X12 at a concrete input: the second of three images is removed. *)
Lemma removeImage_deletes_at_index_witness :
  let p := Scenario.submit_page "1" [Scenario.image "a.png"; Scenario.image "b.png";
                                     Scenario.image "c.png"] in
  let w := Scenario.world (Scenario.store 0 ∅) in
  Submit.imageFiles (fst (run (Submit.removeImage 1 p) p w))
  = [Scenario.image "a.png"; Scenario.image "c.png"].
Proof.
  intros p w.
  destruct (removeImage_deletes_at_index 1 p w) as (_ & H & _).
  destruct (H (Scenario.image "b.png") eq_refl) as (-> & _). reflexivity.
Defined.

(** ** Profiles *)

(** X13.  First sign-in.  When the user has no row, the reads and the insert
    reach the store and no other row has the e-mail, [fetchAndSetProfile]
    issues the read and one insert, creates the row of the user with the
    e-mail, the name of the sign-up metadata, no wallets and balance 0,
    changes nothing else, and sets the profile to that row.  Running it
    again only reads: the store and the page stay as they are. *)
Theorem first_login_creates_one_profile (u : User) (fe fe' : Profile.fetch_env)
    (s : Profile.state) (w : World) :
  Profile.select_fault fe = None ->
  Profile.insert_fault fe = None ->
  Profile.select_fault fe' = None ->
  Pg.clients (db w) !! user_id u = None ->
  Pg.email_taken (user_email u) (user_id u) (db w) = false ->
  let first := run (Profile.fetchAndSetProfile u fe) s w in
  let second := run (Profile.fetchAndSetProfile u fe') (fst first) (snd first) in
  db (snd first)
  = Pg.with_clients (<[user_id u := first_profile u fe]> (Pg.clients (db w))) (db w)
  /\ Profile.profile (fst first)
     = Some (ClientProfile.of_row (user_id u) (first_profile u fe))
  /\ calls (snd first)
     = (calls w ++ [Select "clients" (Some (user_id u));
                    InsertClient (user_id u) (user_email u)])%list
  /\ db (snd second) = db (snd first)
  /\ fst second = fst first
  /\ calls (snd second)
     = (calls (snd first) ++ [Select "clients" (Some (user_id u))])%list.
Proof.
  intros Hsel Hins Hsel' Hnone Hfree first second. subst second first.
  unfold Profile.fetchAndSetProfile. step_async. unfold Pg.outcome.
  rewrite Hsel, Hsel', Hins. unfold Pg.select_client. rewrite Hnone. simpl.
  unfold Pg.insert_client. rewrite Hnone.
  rewrite bool_decide_eq_false_2 by (by intros [? ?]). rewrite Hfree. simpl.
  rewrite lookup_insert_eq. simpl. rewrite <- app_assoc.
  repeat split; try done.
Qed.

(** X13 at a concrete input: the user c1 signs in to a store without clients. *)
Lemma first_login_creates_one_profile_witness :
  let fe := Profile.refresh Scenario.profile_env in
  let s := {| Profile.user := Some Scenario.user1; Profile.profile := None;
              Profile.fullName := ""; Profile.solanaWallet := ""; Profile.bnbWallet := "";
              Profile.message := ""; Profile.error := "" |} in
  let w := Scenario.world Scenario.store_without_client in
  let first := run (Profile.fetchAndSetProfile Scenario.user1 fe) s w in
  let second := run (Profile.fetchAndSetProfile Scenario.user1 fe) (fst first) (snd first) in
  stored_balance "c1" (db (snd first)) = Some 0%Z
  /\ db (snd second) = db (snd first).
Proof.
  intros fe s w first second.
  destruct (first_login_creates_one_profile Scenario.user1 fe fe s w
              ltac:(reflexivity) ltac:(reflexivity) ltac:(reflexivity)
              ltac:(apply lookup_empty) ltac:(vm_compute; reflexivity))
    as (Hd & _ & _ & Hd2 & _).
  split; [| exact Hd2].
  fold first in Hd. rewrite Hd. unfold stored_balance. simpl.
  by rewrite lookup_insert_eq.
Defined.

Lemma or_default_text (x : option string) (s : string) :
  x = Some s -> s <> "" -> Some (or_default x "") = x.
Proof.
  intros -> Hs. unfold or_default, Js.or_str, Js.not_str.
  by rewrite bool_decide_eq_false_2.
Qed.

(** X14.  Saving the profile form as the page filled it.  The effect fills
    the form from the profile with [null] read as empty text, so when the
    profile is the stored row and the upsert succeeds, the stored row keeps
    e-mail, balance and creation time, gets the update time of the store,
    and its name and wallets become what the form holds: unchanged when they
    were non-empty text, the empty string when they were NULL.  Success is
    reported; the profile of the page is the saved row when the refresh read
    succeeds and [null] when it fails. *)
Theorem saving_untouched_form (u : User) (old : Pg.Client.row) (p0 : Profile.state)
    (w : World) (e : Profile.env) :
  Profile.user p0 = Some u ->
  Profile.profile p0 = Some (ClientProfile.of_row (user_id u) old) ->
  Pg.clients (db w) !! user_id u = Some old ->
  Profile.upsert_fault e = None ->
  Pg.email_taken (Pg.Client.email old) (user_id u) (db w) = false ->
  let p := Profile.profile_effect p0 in
  let pw := run (Profile.handleUpdateProfile p e) p w in
  let saved :=
    {| Pg.Client.email := Pg.Client.email old;
       Pg.Client.full_name := Some (or_default (Pg.Client.full_name old) "");
       Pg.Client.solana_wallet := Some (or_default (Pg.Client.solana_wallet old) "");
       Pg.Client.bnb_wallet := Some (or_default (Pg.Client.bnb_wallet old) "");
       Pg.Client.pgc_balance := Pg.Client.pgc_balance old;
       Pg.Client.created_at := Pg.Client.created_at old;
       Pg.Client.updated_at := Profile.db_now e |} in
  db (snd pw) = Pg.with_clients (<[user_id u := saved]> (Pg.clients (db w))) (db w)
  /\ Profile.message (fst pw) = "Profile updated successfully!"
  /\ (Profile.select_fault (Profile.refresh e) = None ->
      Profile.profile (fst pw) = Some (ClientProfile.of_row (user_id u) saved))
  /\ (forall msg, Profile.select_fault (Profile.refresh e) = Some msg ->
        Profile.profile (fst pw) = None)
  /\ (forall n s b,
        Pg.Client.full_name old = Some n -> n <> "" ->
        Pg.Client.solana_wallet old = Some s -> s <> "" ->
        Pg.Client.bnb_wallet old = Some b -> b <> "" ->
        saved = {| Pg.Client.email := Pg.Client.email old;
                   Pg.Client.full_name := Pg.Client.full_name old;
                   Pg.Client.solana_wallet := Pg.Client.solana_wallet old;
                   Pg.Client.bnb_wallet := Pg.Client.bnb_wallet old;
                   Pg.Client.pgc_balance := Pg.Client.pgc_balance old;
                   Pg.Client.created_at := Pg.Client.created_at old;
                   Pg.Client.updated_at := Profile.db_now e |})
  /\ (Pg.Client.full_name old = None -> Pg.Client.full_name saved = Some "")
  /\ (Pg.Client.solana_wallet old = None -> Pg.Client.solana_wallet saved = Some "")
  /\ (Pg.Client.bnb_wallet old = None -> Pg.Client.bnb_wallet saved = Some "").
Proof.
  intros Hu Hp Hold Hf Hfree p pw saved.
  split; [| split; [| split; [| split; [| split; [| split; [| split]]]]]].
  1-4: subst pw p; unfold Profile.profile_effect; rewrite Hp;
       unfold Profile.handleUpdateProfile; simpl; rewrite Hu; step_async;
       unfold Pg.outcome; rewrite Hf; unfold Pg.upsert_client; rewrite Hfree, Hold; simpl;
       unfold Profile.fetchAndSetProfile; step_async; unfold Pg.outcome.
  - destruct (Profile.select_fault (Profile.refresh e)) as [msg |]; simpl; [done |].
    unfold Pg.select_client. simpl. by rewrite lookup_insert_eq.
  - destruct (Profile.select_fault (Profile.refresh e)) as [msg |]; simpl; [done |].
    unfold Pg.select_client. simpl. by rewrite lookup_insert_eq.
  - intros ->. simpl. unfold Pg.select_client. simpl. by rewrite lookup_insert_eq.
  - by intros msg ->.
  - intros n s b Hn Hn' Hs Hs' Hb Hb'. unfold saved.
    by rewrite (or_default_text _ n Hn Hn'), (or_default_text _ s Hs Hs'),
         (or_default_text _ b Hb Hb').
  - intros H. unfold saved. simpl. by rewrite H.
  - intros H. unfold saved. simpl. by rewrite H.
  - intros H. unfold saved. simpl. by rewrite H.
Qed.

(** X14 at a concrete input: a client without wallets saves the form. *)
Lemma saving_untouched_form_witness :
  let p0 := Scenario.profile_page "typed" "typed" "typed" in
  let w := Scenario.world (Scenario.store 0 ∅) in
  let p := Profile.profile_effect p0 in
  let pw := run (Profile.handleUpdateProfile p Scenario.profile_env) p w in
  Pg.Client.solana_wallet <$> Pg.clients (db w) !! "c1" = Some None
  /\ Pg.Client.solana_wallet <$> Pg.clients (db (snd pw)) !! "c1" = Some (Some "")
  /\ Pg.Client.full_name <$> Pg.clients (db (snd pw)) !! "c1" = Some (Some "Alice").
Proof.
  intros p0 w p pw. split; [vm_compute; reflexivity |].
  destruct (saving_untouched_form Scenario.user1 (Scenario.alice 0) p0 w Scenario.profile_env
              ltac:(reflexivity) ltac:(reflexivity) ltac:(vm_compute; reflexivity)
              ltac:(reflexivity) ltac:(vm_compute; reflexivity)) as (Hd & _).
  fold p pw in Hd. rewrite Hd. simpl. rewrite lookup_insert_eq. simpl. done.
Defined.

Lemma same_points_refl (d : Pg.Db) : same_points d d.
Proof.
  repeat split; try done.
  - intros c row Hrow. by exists row.
  - intros c Hc. by left.
Qed.

Lemma same_points_insert (d : Pg.Db) (c : string) (r : Pg.Client.row) :
  Pg.Client.pgc_balance r = from_option Pg.Client.pgc_balance (Some 0%Z) (Pg.clients d !! c) ->
  same_points d (Pg.with_clients (<[c := r]> (Pg.clients d)) d).
Proof.
  intros Hr. repeat split; try done; simpl.
  - intros c' row Hrow.
    destruct (decide (c = c')) as [<- | Hne].
    + exists r. rewrite lookup_insert_eq. split; [done |]. by rewrite Hr, Hrow.
    + exists row. by rewrite lookup_insert_ne.
  - intros c' Hc'. unfold stored_balance. simpl.
    destruct (decide (c = c')) as [<- | Hne].
    + right. rewrite lookup_insert_eq. simpl. by rewrite Hr, Hc'.
    + left. by rewrite lookup_insert_ne.
Qed.

Lemma same_points_tables (d d' : Pg.Db) :
  Pg.clients d' = Pg.clients d ->
  Pg.rewards d' = Pg.rewards d ->
  Pg.client_rewards d' = Pg.client_rewards d ->
  same_points d d'.
Proof.
  intros Hc Hr Hl. repeat split; try done.
  - intros c row Hrow. exists row. by rewrite Hc.
  - intros c Hnone. left. by rewrite Hc.
Qed.

Lemma fetchAndSetProfile_same_points (u : User) (fe : Profile.fetch_env) (s : Profile.state)
    (w : World) :
  same_points (db w) (db (snd (snd (Profile.fetchAndSetProfile u fe (s, w))))).
Proof.
  unfold Profile.fetchAndSetProfile. step_async. unfold Pg.outcome.
  destruct (Profile.select_fault fe) as [m1 |]; simpl; [apply same_points_refl |].
  unfold Pg.select_client.
  destruct (Pg.clients (db w) !! user_id u) as [row |] eqn:Hrow; simpl;
    [apply same_points_refl |].
  destruct (Profile.insert_fault fe) as [m2 |]; simpl; [apply same_points_refl |].
  unfold Pg.insert_client. rewrite Hrow.
  rewrite bool_decide_eq_false_2 by (by intros [? ?]).
  destruct (Pg.email_taken _ _ _); simpl; [apply same_points_refl |].
  apply same_points_insert. by rewrite Hrow.
Qed.

Lemma handleUpdateProfile_same_points (p : Profile.state) (e : Profile.env) (w : World) :
  same_points (db w) (db (snd (run (Profile.handleUpdateProfile p e) p w))).
Proof.
  unfold Profile.handleUpdateProfile.
  destruct (Profile.user p) as [u |], (Profile.profile p) as [prof |];
    try (step_async; apply same_points_refl).
  step_async. unfold Pg.outcome.
  destruct (Profile.upsert_fault e) as [m1 |]; simpl; [apply same_points_refl |].
  unfold Pg.upsert_client.
  destruct (Pg.email_taken _ _ _); simpl; [apply same_points_refl |].
  match goal with
  | |- context [Profile.fetchAndSetProfile u (Profile.refresh e) (?s, ?w')] =>
      destruct (fetchAndSetProfile_existing u (Profile.refresh e) s w')
        as (Hr & Hdb & _);
        [simpl; by rewrite lookup_insert_eq |];
        destruct (Profile.fetchAndSetProfile u (Profile.refresh e) (s, w'))
          as [res [s' w'']]
  end.
  simpl in *. subst res. simpl. rewrite Hdb. simpl.
  apply same_points_insert. by destruct (Pg.clients (db w) !! user_id u).
Qed.

Lemma insert_images_tables (ids : nat -> string) (records : list (string * string))
    (t : string) (d d' : Pg.Db) (x : unit) :
  Pg.insert_images ids records t d = inr (x, d') ->
  Pg.clients d' = Pg.clients d /\ Pg.rewards d' = Pg.rewards d
  /\ Pg.client_rewards d' = Pg.client_rewards d.
Proof.
  unfold Pg.insert_images. destruct (Pg.insert_images_from _ _ _ _ _ _); [done |].
  by intros [= _ <-].
Qed.

Lemma insert_entry_tables (k c : string) (kg : Js.number) (t : string) (d d' : Pg.Db)
    (x : string * Pg.MitigationEntry.row) :
  Pg.insert_entry k c kg t d = inr (x, d') ->
  Pg.clients d' = Pg.clients d /\ Pg.rewards d' = Pg.rewards d
  /\ Pg.client_rewards d' = Pg.client_rewards d.
Proof.
  unfold Pg.insert_entry.
  destruct kg; try done;
    repeat (case_bool_decide || case_match); try done; by intros [= _ <-].
Qed.

Lemma handleSubmitPlasticMitigation_tables (p : Submit.state) (e : Submit.env) (w : World) :
  let pw := run (Submit.handleSubmitPlasticMitigation p e) p w in
  Pg.clients (db (snd pw)) = Pg.clients (db w)
  /\ Pg.rewards (db (snd pw)) = Pg.rewards (db w)
  /\ Pg.client_rewards (db (snd pw)) = Pg.client_rewards (db w).
Proof.
  unfold Submit.handleSubmitPlasticMitigation.
  destruct (Submit.user p) as [u |], (Submit.profile p) as [prof |];
    try (by step_async).
  destruct (_ || _); [by step_async |].
  step_async.
  match goal with
  | |- context [Submit.upload_from 0 e ?uid ?files [] (?s, w)] =>
      pose proof (upload_from_frame files 0 e uid [] s w) as (_ & Hdb & _);
      destruct (Submit.upload_from 0 e uid files [] (s, w)) as [[err | urls] [s' w']]
  end; simpl in *; [by rewrite Hdb |].
  rewrite Hdb. unfold Pg.outcome.
  destruct (Submit.entry_fault e) as [m1 |]; simpl.
  { destruct urls; simpl; [by rewrite Hdb |]. unfold storage_remove.
    destruct (Submit.remove_fault e); simpl; by rewrite Hdb. }
  destruct (Pg.insert_entry _ _ _ _ _) as [err | [x d1]] eqn:Hins; simpl.
  { destruct urls; simpl; [by rewrite Hdb |]. unfold storage_remove.
    destruct (Submit.remove_fault e); simpl; by rewrite Hdb. }
  apply insert_entry_tables in Hins as (Hc & Hr & Hl).
  destruct urls as [| url urls]; simpl; [by rewrite Hc, Hr, Hl |].
  destruct (Submit.images_fault e) as [m2 |]; simpl; [by rewrite Hc, Hr, Hl |].
  match goal with
  | |- context [Pg.insert_images ?ids ?recs ?t d1] =>
      destruct (Pg.insert_images ids recs t d1) as [err | [[] d2]] eqn:Himg
  end; simpl; [by rewrite Hc, Hr, Hl |].
  apply insert_images_tables in Himg as (Hc2 & Hr2 & Hl2).
  by rewrite Hc2, Hr2, Hl2, Hc, Hr, Hl.
Qed.

(** X15.  No handler of the client pages changes points.  Whatever
    [fetchAndSetProfile], [handleUpdateProfile] and
    [handleSubmitPlasticMitigation] are given and however they end, the
    ledger and the reward definitions are unchanged, every client that was
    in the store is still there with the same balance, and a client row
    that is new has balance 0. *)
Theorem client_pages_keep_points :
  (forall (u : User) (fe : Profile.fetch_env) (s : Profile.state) (w : World),
      same_points (db w) (db (snd (run (Profile.fetchAndSetProfile u fe) s w))))
  /\ (forall (p : Profile.state) (e : Profile.env) (w : World),
        same_points (db w) (db (snd (run (Profile.handleUpdateProfile p e) p w))))
  /\ (forall (p : Submit.state) (e : Submit.env) (w : World),
        same_points (db w) (db (snd (run (Submit.handleSubmitPlasticMitigation p e) p w)))).
Proof.
  split; [| split].
  - intros u fe s w. apply fetchAndSetProfile_same_points.
  - intros p e w. apply handleUpdateProfile_same_points.
  - intros p e w.
    destruct (handleSubmitPlasticMitigation_tables p e w) as (Hc & Hr & Hl).
    by apply same_points_tables.
Qed.

(** ** Consumption entries and the deletion of clients *)

(** Unfolds one layer of the [AsyncSite] combinators. *)
Ltac step_site :=
  unfold run_site, lift, try_catch_site, request_site, mbind, AsyncSite_bind, mret,
    AsyncSite_ret, set_state, throw, log; simpl.

Lemma with_world_id (t : Site) : with_world (world t) t = t.
Proof. by destruct t. Qed.

(** X16.  The guard of [handleSubmitPetgasConsumption].  When the text
    parses to a number that is [<= 0] the handler stops: the site is
    unchanged (no request, no row, nothing logged) and the validation or the
    sign-in message is shown.  A non-empty text that parses to NaN or to
    [Infinity] passes the guard: for a signed-in client the insert is issued
    with that value, no table changes, and when the request reaches the
    store the not-null violation of [liters_consumed] is shown. *)
Theorem liters_guard (p : Consumption.state) (e : Consumption.env) (t : Site) :
  let pt := run_site (Consumption.handleSubmitPetgasConsumption p e) p t in
  (Js.le_zero (Js.parseFloat (Consumption.litersConsumed p)) = true ->
   snd pt = t
   /\ (Consumption.consumptionError (fst pt) = Consumption.validation_error
       \/ Consumption.consumptionError (fst pt) = Consumption.login_error))
  /\ (forall u prof,
        Consumption.user p = Some u ->
        Consumption.profile p = Some prof ->
        Consumption.litersConsumed p <> "" ->
        Js.parseFloat (Consumption.litersConsumed p) = Js.NaN
        \/ Js.parseFloat (Consumption.litersConsumed p) = Js.Infinity false ->
        requests (snd pt)
        = (requests t ++ [InsertConsumption (user_id u)
                            (Js.parseFloat (Consumption.litersConsumed p))])%list
        /\ tables (snd pt) = tables t
        /\ (Consumption.insert_fault e = None ->
            Consumption.consumptionError (fst pt)
            = Js.pg_message (Pg.not_null_violation "liters_consumed"))).
Proof.
  intros pt. subst pt. unfold Consumption.handleSubmitPetgasConsumption. split.
  - intros Hle. rewrite Hle, orb_true_r.
    destruct (Consumption.user p) as [u |], (Consumption.profile p) as [prof |]; step_site;
      rewrite with_world_id; auto.
  - intros u prof Hu Hp Hne Hnum. rewrite Hu, Hp.
    unfold Js.not_str. rewrite bool_decide_eq_false_2 by done.
    destruct Hnum as [-> | ->]; simpl; step_site;
      destruct (Consumption.insert_fault e) as [msg |]; simpl; by repeat split.
Qed.

(** X16 at concrete inputs: "0" is rejected, "ten" passes the guard. *)
Lemma liters_guard_witness :
  let t := SiteScenario.site (Scenario.store 0 ∅) in
  let rejected := SiteScenario.consumption_page "0" in
  let passed := SiteScenario.consumption_page "ten" in
  snd (run_site (Consumption.handleSubmitPetgasConsumption rejected
                   SiteScenario.consumption_env) rejected t) = t
  /\ requests (snd (run_site (Consumption.handleSubmitPetgasConsumption passed
                                SiteScenario.consumption_env) passed t))
     = [InsertConsumption "c1" Js.NaN].
Proof.
  intros t rejected passed. split.
  - destruct (proj1 (liters_guard rejected SiteScenario.consumption_env t)
                ltac:(vm_compute; reflexivity)) as (H & _). exact H.
  - destruct (proj2 (liters_guard passed SiteScenario.consumption_env t)
                Scenario.user1 (ClientProfile.of_row "c1" (Scenario.alice 0))
                ltac:(reflexivity) ltac:(reflexivity) ltac:(discriminate)
                ltac:(left; vm_compute; reflexivity)) as (H & _). exact H.
Defined.

(** X17.  An amount that parses to a finite Number above 0, submitted by a
    signed-in client whose row exists, when the request reaches the store
    and the generated key is new, is logged: exactly one consumption entry
    is added, with the client, the Number read from the amount and the time
    of the store as transaction date; the rest of the world is unchanged,
    one insert was issued, and the form shows the success message with the
    amount cleared. *)
Theorem consumption_is_logged (p : Consumption.state) (e : Consumption.env) (t : Site)
    (u : User) (prof : ClientProfile.t) (m : positive) (x : Z) :
  Consumption.user p = Some u ->
  Consumption.profile p = Some prof ->
  Js.parseFloat (Consumption.litersConsumed p) = Js.Finite false m x ->
  Consumption.insert_fault e = None ->
  is_Some (Pg.clients (db (world t)) !! user_id u) ->
  petgas_consumption_entries t !! Consumption.entry_uuid e = None ->
  let pt := run_site (Consumption.handleSubmitPetgasConsumption p e) p t in
  petgas_consumption_entries (snd pt)
  = <[Consumption.entry_uuid e :=
        {| ConsumptionEntry.client_id := user_id u;
           ConsumptionEntry.liters_consumed := Js.Finite false m x;
           ConsumptionEntry.transaction_date := Consumption.db_now e |}]>
      (petgas_consumption_entries t)
  /\ world (snd pt) = world t
  /\ requests (snd pt)
     = (requests t ++ [InsertConsumption (user_id u) (Js.Finite false m x)])%list
  /\ fst pt = Consumption.setLitersConsumed ""
                (Consumption.setConsumptionMessage "Petgas consumption logged successfully!"
                   (Consumption.setConsumptionError ""
                      (Consumption.setConsumptionMessage "" p))).
Proof.
  intros Hu Hp Hkg Hf [crow Hcrow] Hfresh pt. subst pt.
  unfold Consumption.handleSubmitPetgasConsumption.
  rewrite Hu, Hp, (parseFloat_finite_nonempty _ _ _ _ Hkg), Hkg. simpl.
  step_site. rewrite Hf. unfold insert_consumption. simpl.
  rewrite Hcrow. simpl. rewrite Hfresh. simpl.
  repeat split. unfold with_tables, with_db. simpl. by destruct (world t).
Qed.

(** X17 at a concrete input: 40.5 liters, the Number 5699868278390784 *
    2^-47. *)
Lemma consumption_is_logged_witness :
  let t := SiteScenario.site (Scenario.store 0 ∅) in
  let p := SiteScenario.consumption_page "40.5" in
  let pt := run_site (Consumption.handleSubmitPetgasConsumption p
                        SiteScenario.consumption_env) p t in
  petgas_consumption_entries (snd pt) !! "p1"
  = Some {| ConsumptionEntry.client_id := "c1";
            ConsumptionEntry.liters_consumed := Js.Finite false 5699868278390784 (-47);
            ConsumptionEntry.transaction_date := "2025-04-02T00:00:00Z" |}.
Proof.
  intros t p pt.
  destruct (consumption_is_logged p SiteScenario.consumption_env t Scenario.user1
              (ClientProfile.of_row "c1" (Scenario.alice 0))
              5699868278390784%positive (-47)%Z
              ltac:(reflexivity) ltac:(reflexivity) ltac:(vm_compute; reflexivity)
              ltac:(reflexivity) ltac:(vm_compute; eauto)
              ltac:(apply lookup_empty)) as (H & _).
  fold pt in H. rewrite H. apply lookup_insert_eq.
Defined.

(** The ledger sums after the entries of client [id] are removed. *)
Lemma ledger_points_without (c id : string) (d d' : Pg.Db) :
  Pg.rewards d' = Pg.rewards d ->
  Pg.client_rewards d'
  = filter (fun kr => Pg.ClientReward.client_id (snd kr) <> id) (Pg.client_rewards d) ->
  ledger_points c d' = if decide (c = id) then 0%Z else ledger_points c d.
Proof.
  intros Hr Hl. unfold ledger_points. rewrite Hl. clear Hl.
  assert (Hv : forall r, point_value d' r = point_value d r)
    by (intros r; unfold point_value; by rewrite Hr).
  induction (Pg.client_rewards d) as [| k x m Hk IH] using map_ind.
  - rewrite map_filter_empty, !map_fold_empty. by case_decide.
  - rewrite (map_fold_insert_L _ _ k x m); [| | done].
    2:{ intros j1 j2 z1 z2 y _ _ _. repeat case_decide; lia. }
    destruct (decide (Pg.ClientReward.client_id x = id)) as [Hx | Hx].
    + rewrite map_filter_insert_False by (simpl; auto).
      rewrite delete_id by done. rewrite IH.
      repeat case_decide; try done; congruence.
    + rewrite map_filter_insert_True by done.
      rewrite map_fold_insert_L; [| | by apply map_lookup_filter_None_2; left].
      2:{ intros j1 j2 z1 z2 y _ _ _. repeat case_decide; lia. }
      rewrite IH, Hv. repeat case_decide; try done; congruence.
Qed.

(** X18.  [confirmDelete] of the list of clients keeps balances and ledger in
    step and the ledger's references to rewards valid, whatever its outcome;
    it never changes a reward definition or the bucket (the files of the
    client stay in storage).  When the delete reaches the store, the client
    is gone together with every ledger entry, mitigation entry and
    consumption entry that referenced it, its ledger sum is 0, every other
    client keeps its row and its ledger sum, and the page no longer lists
    the client and holds no pending client. *)
Theorem confirmDelete_keeps_in_step (p : Clients.state) (fault : option string) (t : Site) :
  let pt := run_site (Clients.confirmDelete p fault) p t in
  let d := db (world t) in
  let d' := db (world (snd pt)) in
  (in_step d -> in_step d')
  /\ (rewards_fk d -> rewards_fk d')
  /\ Pg.rewards d' = Pg.rewards d
  /\ bucket (world (snd pt)) = bucket (world t)
  /\ (forall c, Clients.clientToDelete p = Some c -> fault = None ->
        let id := ClientProfile.id c in
        Pg.clients d' !! id = None
        /\ ledger_points id d' = 0%Z
        /\ (forall k r, Pg.client_rewards d' !! k = Some r ->
                        Pg.ClientReward.client_id r <> id)
        /\ (forall k r, Pg.plastic_mitigation_entries d' !! k = Some r ->
                        Pg.MitigationEntry.client_id r <> id)
        /\ (forall k r, petgas_consumption_entries (snd pt) !! k = Some r ->
                        ConsumptionEntry.client_id r <> id)
        /\ (forall c', c' <> id ->
              Pg.clients d' !! c' = Pg.clients d !! c'
              /\ ledger_points c' d' = ledger_points c' d)
        /\ Clients.clientToDelete (fst pt) = None
        /\ Forall (fun x => ClientProfile.id x <> id) (Clients.clients (fst pt))).
Proof.
  intros pt d d'. subst pt d d'. unfold Clients.confirmDelete.
  destruct (Clients.clientToDelete p) as [c |] eqn:Hc; [| by step_site].
  step_site. destruct fault as [msg |]; simpl.
  { repeat split; try done. }
  set (id := ClientProfile.id c).
  set (d := db (world t)).
  set (d' := {| Pg.clients := delete id (Pg.clients d);
                Pg.plastic_mitigation_entries := _;
                Pg.mitigation_activity_images := _;
                Pg.rewards := Pg.rewards d;
                Pg.client_rewards := _ |}).
  assert (Hpoints : forall c', ledger_points c' d'
                               = if decide (c' = id) then 0%Z else ledger_points c' d)
    by (intros c'; by apply ledger_points_without).
  split; [| split; [| split; [done | split; [done |]]]].
  - intros Hin c' row Hrow. simpl in Hrow. apply lookup_delete_Some in Hrow as [Hne Hrow].
    rewrite Hpoints, decide_False by done. by apply Hin.
  - intros Hfk k row Hk. simpl in *.
    apply map_lookup_filter_Some in Hk as [Hk _]. by apply (Hfk k).
  - intros cx [= <-] _. simpl. fold id.
    split; [apply lookup_delete_eq |].
    split; [by rewrite Hpoints, decide_True |].
    split; [intros k r Hk; by apply map_lookup_filter_Some in Hk as [_ Hk] |].
    split; [intros k r Hk; by apply map_lookup_filter_Some in Hk as [_ Hk] |].
    split; [intros k r Hk; by apply map_lookup_filter_Some in Hk as [_ Hk] |].
    split; [| split; [done |]].
    + intros c' Hc'. split; [by apply lookup_delete_ne |].
      by rewrite Hpoints, decide_False.
    + apply Forall_forall. intros x Hx. by apply list_elem_of_filter in Hx as [? _].
Qed.

(** X18 at a concrete input, on the site in use: client c1 is deleted.  Its
    row, its ledger entry, its mitigation entry with the image row and its
    consumption entry are gone; its image file is still in the bucket;
    client c2 keeps its row and its ledger sum, and balances and ledger are
    in step. *)
Lemma confirmDelete_keeps_in_step_witness :
  let page := SiteScenario.clients_page "c1" SiteScenario.populated in
  let pt := run_site (Clients.confirmDelete (fst page) None) (fst page) (snd page) in
  let d' := db (world (snd pt)) in
  (Pg.clients d' !! "c1" = None
   /\ Pg.client_rewards d' = {[ "cr8" := Scenario.entry "c2" "r10" ]}
   /\ Pg.plastic_mitigation_entries d' = {[ "m8" := Scenario.mitigation "c2" "3" ]}
   /\ Pg.mitigation_activity_images d' !! "img7" = None
   /\ petgas_consumption_entries (snd pt) !! "p7" = None
   /\ is_Some (petgas_consumption_entries (snd pt) !! "p8")
   /\ is_Some (bucket (world (snd pt)) !! "c1/1690000000000_a.png"))
  /\ Pg.clients d' !! "c2" = Some (Scenario.bob 10)
  /\ ledger_points "c2" d' = 10%Z
  /\ in_step d'.
Proof.
  intros page pt d'.
  destruct (confirmDelete_keeps_in_step (fst page) None (snd page))
    as (Hin & _ & _ & _ & Hgone).
  fold pt in Hin, Hgone. fold d' in Hin, Hgone.
  destruct (Hgone (ClientProfile.of_row "c1" (Scenario.alice 30))
              ltac:(vm_compute; reflexivity) eq_refl)
    as (_ & _ & _ & _ & _ & Hother & _).
  destruct (Hother "c2" ltac:(discriminate)) as [Hc2 Hl2].
  split; [vm_compute; repeat split; eauto |].
  split; [rewrite Hc2; vm_compute; reflexivity |].
  split; [rewrite Hl2; vm_compute; reflexivity |].
  apply Hin. apply populated_in_step.
Defined.

(** ** Paged lists *)

Lemma entries_take_drop {A} (p : nat) (rows : list A) :
  Pagination.entries (Z.of_nat p) rows = take 15 (drop (15 * p) rows).
Proof.
  unfold Pagination.entries, Pagination.range, Pagination.range_from, Pagination.range_to,
    Pagination.ENTRIES_PER_PAGE.
  f_equal; [| f_equal]; lia.
Qed.

(** The first [k] pages, one after the other, are the first [15 * k] rows. *)
Lemma pages_concat {A} (k : nat) (rows : list A) :
  concat ((fun p => Pagination.entries (Z.of_nat p) rows) <$> seq 0 k) = take (15 * k) rows.
Proof.
  induction k as [| k IH]; [done |].
  rewrite seq_S, fmap_app, concat_app, IH. simpl. rewrite app_nil_r, entries_take_drop.
  rewrite take_take_drop. f_equal. lia.
Qed.

(** X19.  The pages of a paged list partition the rows of the result.  With
    [T] the number of pages computed from the number of rows: the pages 0 to
    [T - 1], one after the other, are exactly the rows, in order; each of
    them is non-empty, holds at most 15 rows, and its [i]-th row is row
    [15 * p + i] of the result; every page from [T] on is empty; and from a
    page in range the Previous and Next buttons lead to a page in range,
    staying put exactly on the first and on the last page. *)
Theorem pages_partition_the_rows {A} (rows : list A) :
  let T := Pagination.totalPages (Z.of_nat (length rows)) in
  concat ((fun p => Pagination.entries (Z.of_nat p) rows) <$> seq 0 (Z.to_nat T)) = rows
  /\ (forall p, (0 <= p < T)%Z ->
        Pagination.entries p rows <> []
        /\ (length (Pagination.entries p rows) <= 15)%nat
        /\ forall i x, Pagination.entries p rows !! i = Some x
                       <-> (i < 15)%nat /\ rows !! (Z.to_nat p * 15 + i)%nat = Some x)
  /\ (forall p, (T <= p)%Z -> Pagination.entries p rows = [])
  /\ (forall p, (0 <= p < T)%Z ->
        (0 <= Pagination.previous p < T)%Z /\ (0 <= Pagination.next T p < T)%Z
        /\ (Pagination.previous p = p <-> p = 0%Z)
        /\ (Pagination.next T p = p <-> p = (T - 1)%Z)).
Proof.
  intros T.
  assert (HT : (15 * (T - 1) < Z.of_nat (length rows) <= 15 * T)%Z).
  { unfold T, Pagination.totalPages, Pagination.ENTRIES_PER_PAGE.
    pose proof (Z.div_mod (- Z.of_nat (length rows)) 15 ltac:(lia)).
    pose proof (Z.mod_pos_bound (- Z.of_nat (length rows)) 15 ltac:(lia)). lia. }
  split; [| split; [| split]].
  - rewrite pages_concat. apply take_ge. lia.
  - intros p Hp. rewrite <- (Z2Nat.id p) by lia. rewrite entries_take_drop.
    rewrite Z2Nat.id by lia. split; [| split].
    + intros Hnil. apply (f_equal length) in Hnil.
      rewrite length_take, length_drop in Hnil.
      change (length (@nil A)) with 0%nat in Hnil. lia.
    + rewrite length_take. lia.
    + intros i x. rewrite lookup_take_Some, lookup_drop.
      replace (15 * Z.to_nat p + i)%nat with (Z.to_nat p * 15 + i)%nat by lia. tauto.
  - intros p Hp. unfold Pagination.entries, Pagination.range, Pagination.range_from,
      Pagination.ENTRIES_PER_PAGE. rewrite drop_ge; [by rewrite take_nil | lia].
  - intros p Hp. unfold Pagination.previous, Pagination.next. lia.
Qed.

(** X19 at a concrete input: 31 rows make 3 pages, the last with one row. *)
Lemma pages_partition_the_rows_witness :
  let rows := seq 0 31 in
  Pagination.totalPages 31 = 3%Z
  /\ Pagination.entries 2 rows = [30%nat]
  /\ Pagination.entries 3 rows = [].
Proof.
  intros rows. split; [reflexivity |]. split; [reflexivity |].
  destruct (pages_partition_the_rows rows) as (_ & _ & Hpast & _).
  apply Hpast. vm_compute. discriminate.
Defined.
